(** * court-booking-api: the booking workflow over a browser capability

    A shallow embedding of [court-booking-api.js].  The script drives a
    headless browser (puppeteer) against a booking site and exposes two
    HTTP routes.  The browser, the clock, the JSON codec and the remote
    site are an interface ([Runtime]); the script's own functions are
    programs in a state-and-exception monad over that interface, and
    every operation they ask of the browser is recorded in a trace. *)

From Stdlib Require Import ZArith String Ascii List DecimalString Lia.
From stdpp Require Import base strings list gmap.

Open Scope string_scope.

(** ** JavaScript strings

    A string is the UTF-8 byte sequence of the JavaScript string. *)
Module Js.

(** [hay.includes(needle)] *)
Fixpoint includes (hay needle : string) : bool :=
  String.prefix needle hay ||
  match hay with
  | EmptyString => false
  | String _ hay' => includes hay' needle
  end.

Definition bytes (l : list nat) : string :=
  string_of_list_ascii (map ascii_of_nat l).

(** The characters [\s] matches and [trim()] removes: TAB LF VT FF CR SP,
    U+00A0, U+1680, U+2000..U+200A, U+2028, U+2029, U+202F, U+205F,
    U+3000 and U+FEFF, each as its UTF-8 bytes. *)
Definition whitespace : list string :=
  map bytes
    [ [9]; [10]; [11]; [12]; [13]; [32]; [194; 160]; [225; 154; 128];
      [226; 128; 128]; [226; 128; 129]; [226; 128; 130]; [226; 128; 131];
      [226; 128; 132]; [226; 128; 133]; [226; 128; 134]; [226; 128; 135];
      [226; 128; 136]; [226; 128; 137]; [226; 128; 138]; [226; 128; 168];
      [226; 128; 169]; [226; 128; 175]; [226; 129; 159]; [227; 128; 128];
      [239; 187; 191] ].

Fixpoint drop_prefix (p s : string) : option string :=
  match p, s with
  | EmptyString, _ => Some s
  | String a p', String b s' =>
      if Ascii.eqb a b then drop_prefix p' s' else None
  | String _ _, EmptyString => None
  end.

(** Removes one leading character out of [seqs], if there is one. *)
Fixpoint strip_one (seqs : list string) (s : string) : option string :=
  match seqs with
  | [] => None
  | p :: rest =>
      match drop_prefix p s with
      | Some s' => Some s'
      | None => strip_one rest s
      end
  end.

Fixpoint strip_many (fuel : nat) (seqs : list string) (s : string) : string :=
  match fuel with
  | O => s
  | S fuel' =>
      match strip_one seqs s with
      | Some s' => strip_many fuel' seqs s'
      | None => s
      end
  end.

Definition trimStart (s : string) : string :=
  strip_many (String.length s) whitespace s.

Definition trimEnd (s : string) : string :=
  String.rev
    (strip_many (String.length s) (map String.rev whitespace) (String.rev s)).

(** [s.trim()] *)
Definition trim (s : string) : string := trimEnd (trimStart s).

(** A double quote, for the template literals that print one. *)
Definition dq : string := bytes [34].

(** [String(n)] for an integral number. *)
Definition string_of_Z (z : Z) : string := NilZero.string_of_int (Z.to_int z).

(** [normalize-space()] of XPath 1.0: leading and trailing white space
    (SP TAB LF CR) removed, inner runs replaced by one space. *)
Definition xml_space (a : ascii) : bool :=
  let n := nat_of_ascii a in
  (n =? 32)%nat || (n =? 9)%nat || (n =? 10)%nat || (n =? 13)%nat.

Fixpoint normalize_aux (pending : bool) (started : bool) (s : string) : string :=
  match s with
  | EmptyString => EmptyString
  | String a s' =>
      if xml_space a then normalize_aux started started s'
      else
        (if pending then String " "%char (String a (normalize_aux false true s'))
         else String a (normalize_aux false true s'))
  end.

Definition normalize_space (s : string) : string := normalize_aux false false s.

End Js.

(** ** The time pattern

    [/^(1[0-2]|0?[1-9]):[0-5][0-9]\s?(AM|PM)$/i], the pattern of
    [reservationSchema.startTime] and of [validateTimeFormat]. *)
Module TimeRegex.

Definition in_range (lo hi : nat) (a : ascii) : bool :=
  let n := nat_of_ascii a in (lo <=? n)%nat && (n <=? hi)%nat.

Definition digit_between (lo hi : nat) (a : ascii) : bool :=
  in_range (48 + lo) (48 + hi) a.

(** One letter under the [i] flag. *)
Definition letter_i (upper : nat) (a : ascii) : bool :=
  let n := nat_of_ascii a in (n =? upper)%nat || (n =? upper + 32)%nat.

(** [(AM|PM)$] *)
Definition meridiem_end (s : string) : bool :=
  match s with
  | String a (String m EmptyString) =>
      (letter_i 65 a || letter_i 80 a) && letter_i 77 m
  | _ => false
  end.

(** [\s?(AM|PM)$]: the optional space is tried first, then skipped. *)
Definition space_meridiem_end (s : string) : bool :=
  match Js.strip_one Js.whitespace s with
  | Some s' => meridiem_end s' || meridiem_end s
  | None => meridiem_end s
  end.

(** [:[0-5][0-9]\s?(AM|PM)$] *)
Definition minutes_end (s : string) : bool :=
  match s with
  | String c (String m1 (String m2 s')) =>
      Ascii.eqb c ":"%char && digit_between 0 5 m1 && digit_between 0 9 m2
      && space_meridiem_end s'
  | _ => false
  end.

(** The whole pattern: the hour alternatives in the order the engine
    tries them. *)
Definition test (s : string) : bool :=
  match s with
  | String h s1 =>
      (Ascii.eqb h "1"%char &&
       match s1 with
       | String h2 s2 => digit_between 0 2 h2 && minutes_end s2
       | EmptyString => false
       end)
      || (Ascii.eqb h "0"%char &&
          match s1 with
          | String h2 s2 => digit_between 1 9 h2 && minutes_end s2
          | EmptyString => false
          end)
      || (digit_between 1 9 h && minutes_end s1)
  | EmptyString => false
  end.

End TimeRegex.

(** [validateTimeFormat(timeStr)] *)
Definition validateTimeFormat (timeStr : string) : bool :=
  TimeRegex.test timeStr.

(** ** Errors, the page and what the script asks of the browser *)

(** A thrown [Error] object; the script only ever reads [message]. *)
Record Error := mkError { message : string }.

(** What V8 throws on [x.p] when [x] is [null] or [undefined]. *)
Definition TypeError (what prop : string) : Error :=
  mkError ("Cannot read properties of " +:+ what +:+ " (reading '" +:+ prop +:+ "')").

(** What V8 throws on [const { prop, ... } = source] when [source] is
    [undefined]. *)
Definition DestructureError (prop source : string) : Error :=
  mkError ("Cannot destructure property '" +:+ prop +:+ "' of '" +:+ source
             +:+ "' as it is undefined.").

Record Cookie := mkCookie {
  cookie_name : string;
  cookie_value : string;
  cookie_domain : string;
  cookie_path : string;
  cookie_expires : Z
}.

(** A [td] of the slot table: its text, its class list, and its first
    [div] descendant if it has one, given by that div's
    [data-start-time] attribute ([None] when the attribute is absent). *)
Record Cell := mkCell {
  textContent : string;
  classList : list string;
  startTimeDiv : option (option string)
}.

(** An [a] element, by what the two XPath queries look at: the [class]
    and first text node of each descendant [span], and the [class] of
    each descendant [i]. *)
Record Anchor := mkAnchor {
  spans : list (string * string);
  icons : list string
}.

(** A [button], by the first text node of each descendant [span]. *)
Record Button := mkButton { button_spans : list string }.

(** An [h1]. *)
Record Heading := mkHeading { h1_textContent : string; h1_innerText : string }.

(** An [li] of the autocomplete list, by what the selection script does
    with its [data-item-value]: [JSON.parse] or the property read
    throws, or the value has a [memberNumber] ([None] when it is not a
    string). *)
Inductive ItemValue :=
| ItemThrows (e : Error)
| ItemMember (memberNumber : option string).

(** The document as the script's queries see it.  A row of [slots_data]
    is the list of its [td] cells ([row.$$('td')]); the table rows hold
    nothing but [td] cells, so a cell's [cellIndex] is its position in
    that list and [td:first-child] is the head of the list. *)
Record Dom := mkDom {
  anchors : list Anchor;
  slots_head : list string;
  slots_data : list (list Cell);
  buttons : list Button;
  headings : list Heading;
  autocomplete_items : list ItemValue
}.

(** Handles on elements of the document. *)
Inductive Element :=
| AnchorEl (i : nat)
| CellEl (row col : nat)
| ButtonEl (i : nat).

(** The operations on the browser that may fail. *)
Inductive Action :=
| Launch
| NewPage
| Close
| Goto (url : string)
| WaitForSelector (selector : string) (timeout : option nat)
| WaitForNavigation
| SetCookie (cookies : list Cookie)
| GetCookies
| TypeText (selector text : string)
| ClickSelector (selector : string)
| Onclick (e : Element)
| ScrollIntoView (e : Element)
| Click (e : Element)
| ClickItem (i : nat).

(** Time that passes: [delay(ms)], or the pause [async-retry] makes
    before attempt number [attempt + 1]. *)
Inductive Pause :=
| Millis (ms : nat)
| Backoff (attempt : nat).

Inductive Level := LLog | LWarn | LError.

Inductive Event :=
| Act (a : Action)
| Sleep (p : Pause)
| Console (level : Level) (text : string) (arg : option Error).

(** A number as it comes out of [JSON.parse]. *)
Inductive JsNumber :=
| Integral (z : Z)
| Fractional
| Infinite.

(** The browser, the site behind it, the clock and the built-ins, over
    a state [W] of the outside world.  [perform] answers [None] when
    the promise resolves and [Some e] when it rejects with [e]; the
    world moves either way.  [today] is the local calendar day, counted
    from 1970-01-01. *)
Class Runtime (W : Type) := {
  perform : Action → W → option Error * W;
  elapse : Pause → W → W;
  document : W → Dom;
  cookie_jar : W → list Cookie;
  today : W → Z;
  JSON_parse : string → Error + list Cookie;
  JSON_stringify : list Cookie → string;
  number_of_string : string → option JsNumber
}.

(** The process environment and [__dirname]. *)
Record Config := mkConfig {
  WEBSITE_USERNAME : string;
  WEBSITE_PASSWORD : string;
  WEBSITE_LOGIN_PAGE : string;
  WEBSITE_BOOKING_PAGE : string;
  dirname : string
}.

(** ** What the routes answer *)

Record OpenCourtEntry := mkEntry { court : nat; time : string }.

(** The error of a failed [reservationSchema.validate], by the key it
    is about and Joi's error code. *)
Inductive JoiCode :=
| any_required | any_only | string_base | string_empty | string_pattern_base
| number_base | number_infinity | number_unsafe | number_integer
| object_base | object_unknown.

Record JoiError := mkJoiError { joi_key : string; joi_code : JoiCode }.

Inductive Payload :=
| ErrorText (error : string)
| ValidationMessage (details0 : JoiError)
| OpenCourts (day : string) (openCourts : option (list OpenCourtEntry))
| Reserved (success : bool) (message : string)
| NotReserved (success : bool) (error : string).

Record Response := mkResponse { status : nat; payload : Payload }.

(** ** What the routes receive *)

(** The value of a key of the JSON body. *)
Inductive FieldValue :=
| VNull
| VBool (b : bool)
| VNumber (n : JsNumber)
| VString (s : string)
| VComposite.

(** [req.body] after [express.json()]: the object or the array of a
    JSON body, or [undefined] when the request had no body for the
    parser to read (the package is installed without a version, and
    express 5 leaves [req.body] unset there). *)
Inductive ReqBody :=
| BodyObject (fields : gmap string FieldValue)
| BodyArray
| BodyUndefined.

(** [req.query.day]: absent, a string, or the array or object the
    query parser builds from repeated or bracketed keys. *)
Inductive QueryValue :=
| QString (s : string)
| QOther.

(** The value [reservationSchema.validate] hands back. *)
Record Reservation := mkReservation {
  r_day : string;
  r_courtNumber : Z;
  r_startTime : string;
  r_partnerName : string;
  r_partnerMembershipNumber : string
}.

(** ** The state of one request and its monad *)

Inductive Result (A : Type) :=
| Ok (a : A)
| Throw (e : Error).
Arguments Ok {A} a.
Arguments Throw {A} e.

Section Monad.

Context {W : Type}.

(** The world, the files next to the script, the global [openCourts],
    the trace and the response sent so far. *)
Record State := mkState {
  world : W;
  files : gmap string string;
  g_openCourts : option (list OpenCourtEntry);
  trace : list Event;
  response : option Response
}.

Definition M (A : Type) : Type := State → Result A * State.

Definition ret {A} (a : A) : M A := λ s, (Ok a, s).

Definition bind {A B} (m : M A) (f : A → M B) : M B :=
  λ s, match m s with
       | (Ok a, s') => f a s'
       | (Throw e, s') => (Throw e, s')
       end.

Definition throw {A} (e : Error) : M A := λ s, (Throw e, s).

(** [try { body } catch (error) { handler(error) }] *)
Definition try_catch {A} (body : M A) (handler : Error → M A) : M A :=
  λ s, match body s with
       | (Ok a, s') => (Ok a, s')
       | (Throw e, s') => handler e s'
       end.

(** [try { body } finally { cleanup }] *)
Definition try_finally {A} (body : M A) (cleanup : M unit) : M A :=
  λ s, match body s with
       | (r, s') =>
           match cleanup s' with
           | (Ok _, s'') => (r, s'')
           | (Throw e, s'') => (Throw e, s'')
           end
       end.

End Monad.

Arguments State W : clear implicits.
Arguments M W A : clear implicits.

Declare Scope script_scope.
Delimit Scope script_scope with script.
Notation "x ← m ; k" := (bind m (λ x, k))
  (at level 20, m at level 100, k at level 200) : script_scope.
Notation "m ;; k" := (bind m (λ _, k))
  (at level 100, k at level 200, right associativity) : script_scope.

(** ** The script *)

Section Script.

Context {W : Type} `{Runtime W}.
Variable cfg : Config.

Open Scope script_scope.

Definition record (ev : Event) (s : State W) : State W :=
  mkState (world s) (files s) (g_openCourts s) (trace s ++ [ev]) (response s).

Definition with_world (w : W) (s : State W) : State W :=
  mkState w (files s) (g_openCourts s) (trace s) (response s).

(** An awaited browser call. *)
Definition act (a : Action) : M W unit :=
  λ s, let (r, w') := perform a (world s) in
       (match r with None => Ok () | Some e => Throw e end,
        record (Act a) (with_world w' s)).

Definition pause (p : Pause) : M W unit :=
  λ s, (Ok (), record (Sleep p) (with_world (elapse p (world s)) s)).

(** [await delay(ms)] *)
Definition delay (ms : nat) : M W unit := pause (Millis ms).

Definition console (level : Level) (text : string) (arg : option Error) : M W unit :=
  λ s, (Ok (), record (Console level text arg) s).

Definition console_log (text : string) : M W unit := console LLog text None.

(** The document the page shows now, as the script reads it with
    [page.$$], [handle.$], [handle.$$] and the functions it evaluates
    in the page.  These reads are calls to the browser too; the model
    takes them to return what the document holds and leaves them out
    of the trace, which records the calls that act on the page or wait
    for it.  A trace that has not grown therefore says that nothing
    was navigated to, waited for, typed or clicked, not that the
    browser was not asked anything. *)
Definition the_document : M W Dom := λ s, (Ok (document (world s)), s).

Definition fs_existsSync (path : string) : M W bool :=
  λ s, (Ok (bool_decide (is_Some (files s !! path))), s).

Definition fs_readFileSync (path : string) : M W string :=
  λ s, match files s !! path with
       | Some content => (Ok content, s)
       | None => (Throw (mkError ("ENOENT: no such file or directory, open '" +:+ path +:+ "'")), s)
       end.

Definition fs_writeFileSync (path content : string) : M W unit :=
  λ s, (Ok (), mkState (world s) (<[path := content]> (files s))
                 (g_openCourts s) (trace s) (response s)).

Definition path_join (dir name : string) : string := dir +:+ "/" +:+ name.

(** *** async-retry

    [retry(fn, {retries, onRetry})]: [fn] runs once and, each time it
    rejects, runs again after a pause, until it has been re-run
    [retries] times; [onRetry] is called before each re-run.  When no
    re-run is left the promise rejects with [mainError()], the error
    whose message was seen most often (the latest one among equals). *)

Fixpoint mainError_loop (errors : list Error) (counts : gmap string nat)
    (mainError : option Error) (mainErrorCount : nat) : option Error :=
  match errors with
  | [] => mainError
  | error :: rest =>
      let count := S (default 0%nat (counts !! message error)) in
      let counts' := <[message error := count]> counts in
      if (mainErrorCount <=? count)%nat
      then mainError_loop rest counts' (Some error) count
      else mainError_loop rest counts' mainError mainErrorCount
  end.

Definition mainError (errors : list Error) : option Error :=
  mainError_loop errors ∅ None 0.

Fixpoint retry_attempt {A} (fn : M W A) (onRetry : Error → M W unit)
    (timeouts : nat) (attempt : nat) (errors : list Error) : M W A :=
  λ s, match fn s with
       | (Ok a, s') => (Ok a, s')
       | (Throw err, s') =>
           match timeouts with
           | O => (Throw (default err (mainError (errors ++ [err]))), s')
           | S timeouts' =>
               (onRetry err;;
                pause (Backoff attempt);;
                retry_attempt fn onRetry timeouts' (S attempt) (errors ++ [err])) s'
           end
       end.

Definition retry {A} (fn : M W A) (retries : nat) (onRetry : Error → M W unit) : M W A :=
  retry_attempt fn onRetry retries 1 [].

(** *** login *)

Definition login_form : M W unit :=
  act (Goto (WEBSITE_LOGIN_PAGE cfg));;
  act (TypeText "#_com_liferay_login_web_portlet_LoginPortlet_login" (WEBSITE_USERNAME cfg));;
  act (TypeText "#_com_liferay_login_web_portlet_LoginPortlet_password" (WEBSITE_PASSWORD cfg));;
  act (ClickSelector ".btn-sign-in");;
  act WaitForNavigation.

Definition page_cookies : M W (list Cookie) :=
  act GetCookies;;
  λ s, (Ok (cookie_jar (world s)), s).

Definition parse_cookies (text : string) : M W (list Cookie) :=
  match JSON_parse text with
  | inl e => throw e
  | inr cookies => ret cookies
  end.

Definition cookieFileName : string := "cookies-" +:+ WEBSITE_USERNAME cfg +:+ ".json".
Definition cookieFilePath : string := path_join (dirname cfg) cookieFileName.

Definition login : M W unit :=
  exists_ ← fs_existsSync cookieFilePath;
  if exists_ : bool then
    try_catch
      (cookiesString ← fs_readFileSync cookieFilePath;
       cookies ← parse_cookies cookiesString;
       act (SetCookie cookies);;
       console_log ("Loaded cookies from " +:+ cookieFileName))
      (λ error, console_log "No cookies found. Logging in.")
  else
    retry login_form 3
      (λ err, console LWarn "Login attempt failed, retrying..." (Some err));;
    console_log "Logged in successfully.";;
    cookies ← page_cookies;
    fs_writeFileSync cookieFilePath (JSON_stringify cookies).

(** *** The open-courts path *)

Definition set_openCourts (v : option (list OpenCourtEntry)) : M W unit :=
  λ s, (Ok (), mkState (world s) (files s) v (trace s) (response s)).

Definition get_openCourts : M W (option (list OpenCourtEntry)) :=
  λ s, (Ok (g_openCourts s), s).

(** The positions in [l] of the elements that satisfy [p], in order:
    the handles [page.$$] returns. *)
Definition positions {A} (p : A → bool) (l : list A) : list nat :=
  (imap (λ i x, (i, x)) l) ≫= (λ ix, if p ix.2 then [ix.1] else []).

Definition day_xpath (dayOfWeek : string) : string :=
  "//a[.//span[contains(@class, 'calendar-day') and contains(text(), '"
    +:+ dayOfWeek +:+ "')]]".

Definition is_day_link (dayOfWeek : string) (a : Anchor) : bool :=
  existsb (λ sp : string * string,
             Js.includes sp.1 "calendar-day" && Js.includes sp.2 dayOfWeek)
          (spans a).

Definition findAndClickDate (dayOfWeek : string) : M W bool :=
  let xpath := day_xpath dayOfWeek in
  act (WaitForSelector ("xpath/." +:+ xpath) None);;
  dom ← the_document;
  match head (positions (is_day_link dayOfWeek) (anchors dom)) with
  | Some dayLink =>
      act (Onclick (AnchorEl dayLink));;
      console_log ("Clicked on " +:+ dayOfWeek);;
      ret true
  | None =>
      console_log ("Could not find a link for " +:+ dayOfWeek);;
      ret false
  end.

Definition slots_data_selector : string :=
  "#_activities_WAR_northstarportlet_\:activityForm\:slots_data".

Definition is_open (cell : Cell) : bool :=
  bool_decide ("open" ∈ classList cell).

(** What puppeteer's [$eval] throws when nothing matches; the message
    itself begins with [Error:]. *)
Definition no_element (selector : string) : Error :=
  mkError ("Error: failed to find element matching selector "
             +:+ Js.dq +:+ selector +:+ Js.dq).

(** [cell.$eval('div', div => div.getAttribute('data-start-time') || '')] *)
Definition start_time (cell : Cell) : M W string :=
  match startTimeDiv cell with
  | None => throw (no_element "div")
  | Some attribute => ret (default "" attribute)
  end.

(** The inner loop, from index [i] on, over the cells not yet visited. *)
Fixpoint extract_cells (i : nat) (cells : list Cell)
    (courtsData : list OpenCourtEntry) : M W (list OpenCourtEntry) :=
  match cells with
  | [] => ret courtsData
  | cell :: rest =>
      if is_open cell then
        time ← start_time cell;
        extract_cells (S i) rest (courtsData ++ [mkEntry i time])
      else extract_cells (S i) rest courtsData
  end.

(** The outer loop. *)
Fixpoint extract_rows (rows : list (list Cell))
    (courtsData : list OpenCourtEntry) : M W (list OpenCourtEntry) :=
  match rows with
  | [] => ret courtsData
  | cells :: rest =>
      courtsData' ← extract_cells 1 (drop 1 cells) courtsData;
      extract_rows rest courtsData'
  end.

Definition extractOpenCourts : M W (list OpenCourtEntry) :=
  act (WaitForSelector slots_data_selector None);;
  dom ← the_document;
  extract_rows (slots_data dom) [].

(** The function handed to [retry] in [getOpenCourts]; it returns [[]]
    on one path and nothing on the other. *)
Definition getOpenCourts_attempt (dayOfWeek : string) : M W (option (list OpenCourtEntry)) :=
  act (Goto (WEBSITE_BOOKING_PAGE cfg));;
  act (WaitForSelector ".horizontal-date-picker-container" None);;
  dateFound ← findAndClickDate dayOfWeek;
  if negb dateFound then
    console_log ("Date " +:+ Js.dq +:+ dayOfWeek +:+ Js.dq +:+ " not found.");;
    ret (Some [])
  else
    delay 3000;;
    console_log ("Navigated to " +:+ dayOfWeek);;
    act (WaitForSelector slots_data_selector None);;
    found ← extractOpenCourts;
    set_openCourts (Some found);;
    ret None.

Definition getOpenCourts (dayOfWeek : string) : M W (option (list OpenCourtEntry)) :=
  set_openCourts None;;
  retry (getOpenCourts_attempt dayOfWeek) 3
    (λ err, console LWarn "Problem getting open courts, retrying..." (Some err));;
  get_openCourts.

(** *** The valid days *)

Definition weekday_names : list string :=
  ["Sunday"; "Monday"; "Tuesday"; "Wednesday"; "Thursday"; "Friday"; "Saturday"].

(** [date.toLocaleDateString('en-US', { weekday: 'long' })] of the day
    numbered [d]; 1970-01-01 was a Thursday. *)
Definition weekday_long (d : Z) : string :=
  default "" (weekday_names !! Z.to_nat ((d + 4) `mod` 7)).

(** [getNextFourDays()], with [new Date()] falling on day [now]. *)
Definition getNextFourDays (now : Z) : list string :=
  map (λ i : nat, weekday_long (now + Z.of_nat i)) (seq 0 4).

Definition validateDay (now : Z) (dayOfWeek : string) : bool :=
  let validDays := getNextFourDays now in
  bool_decide (dayOfWeek ∈ validDays).

(** *** The reservation path *)

(** The first loop of [findAndClickSlot]: the first row whose trimmed
    first cell is [startTime].  A row without a first cell makes
    [timeCell] null and the read of [timeCell.evaluate] throws. *)
Fixpoint find_slot_row (r : nat) (rows : list (list Cell)) (startTime : string)
    : M W (option (nat * list Cell)) :=
  match rows with
  | [] => ret None
  | row :: rest =>
      match head row with
      | None => throw (TypeError "null" "evaluate")
      | Some timeCell =>
          let cellTime := Js.trim (textContent timeCell) in
          if String.eqb cellTime startTime then ret (Some (r, row))
          else find_slot_row (S r) rest startTime
      end
  end.

(** The second loop, from index [i] on: the first header cell whose
    trimmed text includes [Court <courtNumber>]. *)
Fixpoint find_court_index (i : nat) (headerCells : list string) (courtNumber : Z)
    : option nat :=
  match headerCells with
  | [] => None
  | headerCell :: rest =>
      let courtText := Js.trim headerCell in
      if Js.includes courtText ("Court " +:+ Js.string_of_Z courtNumber) then Some i
      else find_court_index (S i) rest courtNumber
  end.

Definition findAndClickSlot (courtNumber : Z) (startTime : string) : M W bool :=
  dom ← the_document;
  slotRow ← find_slot_row 0 (slots_data dom) startTime;
  match slotRow with
  | None =>
      console_log ("Start time " +:+ Js.dq +:+ startTime +:+ Js.dq +:+ " not found.");;
      ret false
  | Some (r, cells) =>
      match find_court_index 1 (drop 1 (slots_head dom)) courtNumber with
      | None =>
          console_log ("Court number " +:+ Js.dq +:+ Js.string_of_Z courtNumber
                         +:+ Js.dq +:+ " not found.");;
          ret false
      | Some courtIndex =>
          match cells !! courtIndex with
          | None => throw (TypeError "undefined" "evaluate")
          | Some targetCell =>
              if negb (is_open targetCell) then
                console_log ("Slot at " +:+ startTime +:+ " on court "
                               +:+ Js.string_of_Z courtNumber +:+ " is not open.");;
                ret false
              else
                act (Click (CellEl r courtIndex));;
                ret true
          end
      end
  end.

Definition plus_xpath : string := "xpath/.//a[.//i[contains(@class, 'fa-plus')]]".

Definition has_plus_icon (a : Anchor) : bool :=
  existsb (λ class, Js.includes class "fa-plus") (icons a).

Definition playerInputSelector : string :=
  "#_activities_WAR_northstarportlet_\:activityForm\:playersTable\:1\:player_input".

(** [items.find(...)] of the selection script, from position [i] on:
    the first item whose [memberNumber] is the wanted one; an item the
    callback throws on ends the search with that error. *)
Fixpoint find_item (i : nat) (items : list ItemValue) (membershipNumber : string)
    : Error + option nat :=
  match items with
  | [] => inr None
  | ItemThrows e :: _ => inl e
  | ItemMember m :: rest =>
      if bool_decide (m = Some membershipNumber) then inr (Some i)
      else find_item (S i) rest membershipNumber
  end.

Definition addPartnerToBooking (partnerName partnerMembershipNumber : string) : M W unit :=
  console_log "Add partner to booking";;
  act (WaitForSelector plus_xpath (Some 5000%nat));;
  console_log "Found plus to add user";;
  dom ← the_document;
  match head (positions has_plus_icon (anchors dom)) with
  | Some linkWithPlusIcon =>
      act (ScrollIntoView (AnchorEl linkWithPlusIcon));;
      console_log "About to click on + sign to add user";;
      delay 3000;;
      act (Click (AnchorEl linkWithPlusIcon));;
      console_log "Clicked on the link containing the plus icon"
  | None => console_log "Link with plus icon not found"
  end;;
  act (WaitForSelector playerInputSelector None);;
  act (TypeText playerInputSelector partnerName);;
  console_log "Typed name";;
  act (WaitForSelector "ul.ui-autocomplete-items > li.ui-autocomplete-item" (Some 5000%nat));;
  console_log "Autocompleter appears";;
  dom' ← the_document;
  match find_item 0 (autocomplete_items dom') partnerMembershipNumber with
  | inl e => throw e
  | inr (Some targetItem) => act (ClickItem targetItem)
  | inr None => throw (mkError "Partner not found in autocomplete list.")
  end;;
  console_log ("Selected partner: " +:+ partnerName +:+ " (" +:+ partnerMembershipNumber +:+ ")").

Definition save_xpath : string :=
  "xpath/.//button[.//span[normalize-space(text())='Save']]".

Definition is_save_button (b : Button) : bool :=
  existsb (λ text, String.eqb (Js.normalize_space text) "Save") (button_spans b).

(** The script evaluated in the page: is there an [h1] whose text
    includes [Restriction]? *)
Definition restrictionExists (dom : Dom) : bool :=
  existsb (λ h1,
             let textContent :=
               if String.eqb (h1_textContent h1) "" then h1_innerText h1
               else h1_textContent h1 in
             Js.includes textContent "Restriction")
          (headings dom).

Definition confirmBooking : M W unit :=
  act (WaitForSelector save_xpath (Some 5000%nat));;
  dom ← the_document;
  match head (positions is_save_button (buttons dom)) with
  | Some saveButton =>
      act (Click (ButtonEl saveButton));;
      console_log "Booking saved."
  | None => throw (mkError "Save button not found.")
  end;;
  delay 5000;;
  dom' ← the_document;
  if restrictionExists dom' then throw (mkError "Booking restricted")
  else console_log "Booking confirmed successfully.".

Definition reserveCourt (dayOfWeek : string) (courtNumber : Z)
    (startTime partnerName partnerMembershipNumber : string) : M W string :=
  act (Goto (WEBSITE_BOOKING_PAGE cfg));;
  dateFound ← findAndClickDate dayOfWeek;
  (if negb dateFound
   then throw (mkError ("Date " +:+ Js.dq +:+ dayOfWeek +:+ Js.dq +:+ " not found."))
   else ret ());;
  delay 3000;;
  act (WaitForSelector slots_data_selector None);;
  slotFound ← findAndClickSlot courtNumber startTime;
  (if negb slotFound
   then throw (mkError ("Time slot at " +:+ startTime +:+ " on court "
                          +:+ Js.string_of_Z courtNumber +:+ " not found or not available."))
   else ret ());;
  console_log "Waiting for booking dialog";;
  delay 3000;;
  addPartnerToBooking partnerName partnerMembershipNumber;;
  confirmBooking;;
  ret "Court reserved successfully".

(** *** Joi, as far as [reservationSchema] uses it *)

(** [Joi.string().required()], with the values of [valid(...)] and the
    pattern of [regex(...)] when the key has them. *)
Definition Joi_string_required (key : string) (valid : option (list string))
    (pattern : option (string → bool)) (value : option FieldValue)
    : JoiError + string :=
  match value with
  | None => inl (mkJoiError key any_required)
  | Some v =>
      match valid with
      | Some allowed =>
          match v with
          | VString s =>
              if bool_decide (s ∈ allowed) then inr s
              else inl (mkJoiError key any_only)
          | _ => inl (mkJoiError key any_only)
          end
      | None =>
          match v with
          | VString s =>
              if String.eqb s "" then inl (mkJoiError key string_empty)
              else
                match pattern with
                | Some rx =>
                    if rx s then inr s
                    else inl (mkJoiError key string_pattern_base)
                | None => inr s
                end
          | _ => inl (mkJoiError key string_base)
          end
      end
  end.

Definition MAX_SAFE_INTEGER : Z := 2 ^ 53 - 1.

(** [Joi.number().integer().required()]; a string is first converted
    when it reads as a number. *)
Definition Joi_number_integer_required (key : string) (value : option FieldValue)
    : JoiError + Z :=
  match value with
  | None => inl (mkJoiError key any_required)
  | Some v =>
      let converted :=
        match v with
        | VString s =>
            match number_of_string s with
            | Some n => VNumber n
            | None => v
            end
        | _ => v
        end in
      match converted with
      | VNumber Infinite => inl (mkJoiError key number_infinity)
      | VNumber Fractional => inl (mkJoiError key number_integer)
      | VNumber (Integral z) =>
          if (MAX_SAFE_INTEGER <? z)%Z || (z <? - MAX_SAFE_INTEGER)%Z
          then inl (mkJoiError key number_unsafe)
          else inr z
      | _ => inl (mkJoiError key number_base)
      end
  end.

Definition schema_keys : list string :=
  ["day"; "courtNumber"; "startTime"; "partnerName"; "partnerMembershipNumber"].

(** The keys of the body that the schema does not declare. *)
Definition undeclared (fields : gmap string FieldValue) : list string :=
  List.filter (λ k, negb (bool_decide (k ∈ schema_keys))) (map_to_list fields).*1.

(** [reservationSchema.validate(body)], for the schema built when the
    script was loaded, on day [loaded]: the keys are checked in the
    order they are declared, the first error is the one reported, and a
    key the schema does not declare is an error about that key.  Joi
    names the first such key in the order of the body's own keys, an
    order the map does not keep: with one undeclared key the model
    names that key, with more it names one of them.  The object schema
    is not itself required, so [undefined] passes with no error and no
    value. *)
Definition reservationSchema (loaded : Z) (body : ReqBody)
    : JoiError + option Reservation :=
  match body with
  | BodyUndefined => inr None
  | BodyArray => inl (mkJoiError "" object_base)
  | BodyObject fields =>
      match Joi_string_required "day" (Some (getNextFourDays loaded)) None (fields !! "day") with
      | inl e => inl e
      | inr day =>
      match Joi_number_integer_required "courtNumber" (fields !! "courtNumber") with
      | inl e => inl e
      | inr courtNumber =>
      match Joi_string_required "startTime" None (Some TimeRegex.test) (fields !! "startTime") with
      | inl e => inl e
      | inr startTime =>
      match Joi_string_required "partnerName" None None (fields !! "partnerName") with
      | inl e => inl e
      | inr partnerName =>
      match Joi_string_required "partnerMembershipNumber" None None
              (fields !! "partnerMembershipNumber") with
      | inl e => inl e
      | inr partnerMembershipNumber =>
          if bool_decide (map_Forall (λ k _, k ∈ schema_keys) fields)
          then inr (Some (mkReservation day courtNumber startTime partnerName
                            partnerMembershipNumber))
          else inl (mkJoiError (default "" (head (undeclared fields))) object_unknown)
      end end end end end
  end.

(** *** The routes *)

(** [res.status(code).send(payload)] *)
Definition send (code : nat) (p : Payload) : M W unit :=
  λ s, (Ok (), mkState (world s) (files s) (g_openCourts s) (trace s)
                 (Some (mkResponse code p))).

(** [new Date()], as a day. *)
Definition clock : M W Z := λ s, (Ok (today (world s)), s).

(** [app.get('/api/v1/open-courts', ...)] *)
Definition open_courts_route (day : option QueryValue) : M W unit :=
  match day with
  | None | Some (QString "") =>
      send 400 (ErrorText "Day parameter is required")
  | Some QOther =>
      send 400 (ErrorText "Day must be within the next 4 days")
  | Some (QString dayOfWeek) =>
      now ← clock;
      if negb (validateDay now dayOfWeek) then
        send 400 (ErrorText "Day must be within the next 4 days")
      else
        act Launch;;
        act NewPage;;
        try_finally
          (try_catch
             (login;;
              found ← getOpenCourts dayOfWeek;
              send 200 (OpenCourts dayOfWeek found))
             (λ error,
                console LError "An error occurred:" (Some error);;
                send 500 (ErrorText "An error occurred while fetching open courts")))
          (act Close)
  end.

(** [app.post('/api/v1/reserve-court', ...)], in a process that loaded
    the script on day [loaded].  The value is taken apart before the
    browser is launched and outside the [try]. *)
Definition reserve_court_route (loaded : Z) (body : ReqBody) : M W unit :=
  match reservationSchema loaded body with
  | inl error => send 400 (ValidationMessage error)
  | inr None => throw (DestructureError "day" "value")
  | inr (Some value) =>
      act Launch;;
      act NewPage;;
      try_finally
        (try_catch
           (login;;
            result ← reserveCourt (r_day value) (r_courtNumber value) (r_startTime value)
                       (r_partnerName value) (r_partnerMembershipNumber value);
            send 200 (Reserved true result))
           (λ error,
              console LError "An error occurred:" (Some error);;
              if Js.includes (message error) "Booking restricted" then
                send 403 (NotReserved false "Booking restricted due to club policy.")
              else
                send 500 (NotReserved false "An error occurred while reserving the court.")))
        (act Close)
  end.

End Script.

(** ** A simulated site

    A concrete [Runtime]: a site whose pages are fixed, whose
    navigations fail a given number of times before they succeed, and
    whose waits time out exactly when the document has nothing for the
    selector.  It is the world the examples below run in. *)
Module Sim.

Record World := mkWorld {
  page : Dom;
  after_save : option Dom;
  rerender : option (nat * Dom);
  date_picker : bool;
  slots_table : bool;
  player_input : bool;
  outages : nat;
  day : Z;
  jar : list Cookie
}.

Definition present (selector : string) (w : World) : bool :=
  if String.eqb selector ".horizontal-date-picker-container" then date_picker w
  else if String.eqb selector slots_data_selector then slots_table w
  else if String.eqb selector plus_xpath then existsb has_plus_icon (anchors (page w))
  else if String.eqb selector playerInputSelector then player_input w
  else if String.eqb selector "ul.ui-autocomplete-items > li.ui-autocomplete-item"
       then negb (bool_decide (autocomplete_items (page w) = []))
  else if String.eqb selector save_xpath then existsb is_save_button (buttons (page w))
  else existsb (λ d, String.eqb selector ("xpath/." +:+ day_xpath d)
                       && existsb (is_day_link d) (anchors (page w)))
               weekday_names.

Definition timeout (selector : string) : Error :=
  mkError ("Waiting for selector `" +:+ selector +:+ "` failed").

Definition unreachable (url : string) : Error :=
  mkError ("net::ERR_CONNECTION_REFUSED at " +:+ url).

Definition show (d : Dom) (next : option (nat * Dom)) (w : World) : World :=
  mkWorld d (after_save w) next (date_picker w) (slots_table w) (player_input w)
    (outages w) (day w) (jar w).

(** The site redraws itself: [rerender w = Some (n, d)] puts [d] in
    place of the page right after the wait that follows [n] earlier
    successful waits. *)
Definition redraw (w : World) : World :=
  match rerender w with
  | None => w
  | Some (O, d) => show d None w
  | Some (S n, d) => show (page w) (Some (n, d)) w
  end.

Definition react (a : Action) (w : World) : option Error * World :=
  match a with
  | Goto url =>
      match outages w with
      | O => (None, w)
      | S n => (Some (unreachable url),
                mkWorld (page w) (after_save w) (rerender w) (date_picker w)
                  (slots_table w) (player_input w) n (day w) (jar w))
      end
  | WaitForSelector selector _ =>
      if present selector w then (None, redraw w) else (Some (timeout selector), w)
  | Click (ButtonEl _) =>
      (None, show (default (page w) (after_save w)) (rerender w) w)
  | _ => (None, w)
  end.

Definition session : Cookie := mkCookie "JSESSIONID" "4f2a" "club.example" "/" 0.

Definition session_text : string := "[{name:JSESSIONID}]".

Definition stringify (cookies : list Cookie) : string :=
  match cookies with
  | [] => "[]"
  | _ => session_text
  end.

Definition parse (text : string) : Error + list Cookie :=
  if String.eqb text "[]" then inr []
  else if String.eqb text session_text then inr [session]
  else inl (mkError "Unexpected token in JSON at position 0").

Definition to_number (s : string) : option JsNumber :=
  match NilZero.int_of_string s with
  | Some i => Some (Integral (Z.of_int i))
  | None => None
  end.

#[global] Instance runtime : Runtime World := {|
  perform := react;
  elapse := λ _ w, w;
  document := page;
  cookie_jar := jar;
  today := day;
  JSON_parse := parse;
  JSON_stringify := stringify;
  number_of_string := to_number
|}.

Definition config : Config :=
  mkConfig "member42" "secret" "https://club.example/login"
    "https://club.example/booking" "/opt/app-root/src".

(** A request starts with no response, an empty trace and whatever is
    on disk. *)
Definition start (w : World) (disk : gmap string string) : State World :=
  mkState w disk None [] None.

Definition cell (text : string) (classes : list string) (start : option string) : Cell :=
  mkCell text classes (Some start).

(** The day picker shows Monday to Thursday; the table has two rows and
    two courts; the dialog has its controls and one suggestion. *)
Definition booking_page : Dom :=
  mkDom
    [ mkAnchor [("calendar-day", "Monday")] [];
      mkAnchor [("calendar-day", "Tuesday")] [];
      mkAnchor [("calendar-day", "Wednesday")] [];
      mkAnchor [("calendar-day", "Thursday")] [];
      mkAnchor [] ["fa fa-plus"] ]
    [ "Time"; "Court 1"; "Court 2" ]
    [ [ cell " 9:00 AM " [] None;
        cell "" ["slot"; "open"] (Some "9:00 AM");
        cell "" ["slot"; "booked"] None ];
      [ cell " 10:00 AM " [] None;
        cell "" ["slot"; "booked"] None;
        cell "" ["slot"; "open"] (Some "10:00 AM") ] ]
    [ mkButton ["Cancel"]; mkButton [" Save "] ]
    []
    [ ItemMember (Some "1001"); ItemMember (Some "2002") ].

Definition site : World :=
  mkWorld booking_page None None true true true 0 4 [session].

End Sim.

(** ** The slot grid in the specification's words *)

(** The entry of the cell at column [i], if the cell is open: its
    column and its declared start time, empty when there is none. *)
Definition entry_of (i : nat) (cell : Cell) : option OpenCourtEntry :=
  if is_open cell
  then Some (mkEntry i (default "" (mjoin (startTimeDiv cell))))
  else None.

(** The entries of a row, left to right, the first column left out. *)
Definition row_entries (row : list Cell) : list OpenCourtEntry :=
  omap id (drop 1 (imap entry_of row)).

(** The entries of the grid, row after row. *)
Definition grid_entries (grid : list (list Cell)) : list OpenCourtEntry :=
  grid ≫= row_entries.

(** Every open cell past the first column holds a [div]. *)
Definition open_cells_have_div (grid : list (list Cell)) : Prop :=
  Forall (λ row, Forall (λ c, is_open c = true → is_Some (startTimeDiv c)) (drop 1 row)) grid.


(** ** Counting in traces *)

Definition occurrences (p : Event → bool) (t : list Event) : nat :=
  length (List.filter p t).

Definition cost (p : Event → bool) (ev : Event) : nat := if p ev then 1 else 0.

(** A navigation. *)
Definition is_goto (ev : Event) : bool :=
  match ev with
  | Act (Goto _) => true
  | _ => false
  end.


Definition login_warning : string := "Login attempt failed, retrying...".

Section Vocabulary.

Context {W : Type} `{Runtime W}.

(** [m] adds at most [k] events that satisfy [p] to the trace. *)
Definition grows {A} (p : Event → bool) (k : nat) (m : M W A) : Prop :=
  ∀ s, (occurrences p (trace (m s).2) ≤ occurrences p (trace s) + k)%nat.


(** [m] leaves the component [f] of the state as it was. *)
Definition preserves {A X} (f : State W → X) (m : M W A) : Prop :=
  ∀ s, f (m s).2 = f s.

(** A component that neither the trace nor the world is part of. *)
Definition framed {X} (f : State W → X) : Prop :=
  (∀ ev s, f (record ev s) = f s) ∧ (∀ w s, f (with_world w s) = f s).

End Vocabulary.

(** The simulated site with [n] failing navigations ahead. *)
Definition flaky (n : nat) : Sim.World :=
  Sim.mkWorld Sim.booking_page None None true true true n 4 [Sim.session].

(** The booking page once the day picker has lost its links. *)
Definition page_without_links : Dom :=
  mkDom [] (slots_head Sim.booking_page) (slots_data Sim.booking_page)
    (buttons Sim.booking_page) [] (autocomplete_items Sim.booking_page).

(** A site that drops the day links right after the wait for them. *)
Definition vanishing_links : Sim.World :=
  Sim.mkWorld Sim.booking_page None (Some (1%nat, page_without_links))
    true true true 0 4 [Sim.session].

(** ** Vocabulary of the further properties *)

Open Scope list_scope.

(** The first thing [addPartnerToBooking] does. *)
Definition starts_partner_attachment (ev : Event) : bool :=
  match ev with
  | Console LLog text None => String.eqb text "Add partner to booking"
  | _ => false
  end.

(** The first thing [confirmBooking] does. *)
Definition starts_confirmation (ev : Event) : bool :=
  match ev with
  | Act (WaitForSelector selector _) => String.eqb selector save_xpath
  | _ => false
  end.

(** A click that puppeteer makes on an element, an item or a
    selector, or text that it types. *)
Definition is_press (ev : Event) : bool :=
  match ev with
  | Act (Click _) | Act (ClickItem _) | Act (ClickSelector _) | Act (TypeText _ _) => true
  | _ => false
  end.

(** A call of an element's own [onclick] handler, the way
    [findAndClickDate] clicks the day link. *)
Definition is_onclick (ev : Event) : bool :=
  match ev with
  | Act (Onclick _) => true
  | _ => false
  end.

(** Input to the page, by either way. *)
Definition is_input (ev : Event) : bool := is_press ev || is_onclick ev.

(** The teardown of the browser. *)
Definition is_close (ev : Event) : bool :=
  match ev with
  | Act Close => true
  | _ => false
  end.

Inductive Marker := Navigation | PartnerStart | ConfirmStart | Press | HandlerCall | Teardown.

Definition marks (mk : Marker) : Event → bool :=
  match mk with
  | Navigation => is_goto
  | PartnerStart => starts_partner_attachment
  | ConfirmStart => starts_confirmation
  | Press => is_press
  | HandlerCall => is_onclick
  | Teardown => is_close
  end.

Section TraceDefs.
Context {W : Type}.

(** [m] only adds to the trace. *)
Definition appends {A} (m : M W A) : Prop :=
  ∀ s, ∃ evs, trace (m s).2 = trace s ++ evs.

End TraceDefs.

Section ReserveDefs.
Context {W : Type} `{Runtime W}.
Variable cfg : Config.

(** The steps of [reserveCourt] up to the slot table. *)
Definition to_slot_grid (dayOfWeek : string) : M W unit :=
  (act (Goto (WEBSITE_BOOKING_PAGE cfg));;
   dateFound ← findAndClickDate dayOfWeek;
   (if negb dateFound
    then throw (mkError ("Date " +:+ Js.dq +:+ dayOfWeek +:+ Js.dq +:+ " not found."))
    else ret ());;
   delay 3000;;
   act (WaitForSelector slots_data_selector None))%script.

(** The steps of [reserveCourt] after the click on the slot. *)
Definition book_after_click (partnerName partnerMembershipNumber : string) : M W string :=
  (console_log "Waiting for booking dialog";;
   delay 3000;;
   addPartnerToBooking partnerName partnerMembershipNumber;;
   confirmBooking;;
   ret "Court reserved successfully")%script.

End ReserveDefs.

(** The error [reserveCourt] throws for a slot that was not found or
    is not open. *)
Definition slot_unavailable (courtNumber : Z) (startTime : string) : Error :=
  mkError ("Time slot at " +:+ startTime +:+ " on court "
             +:+ Js.string_of_Z courtNumber +:+ " not found or not available.").


(** The hours the pattern admits. *)
Definition clock_hours : list string :=
  ["1"; "2"; "3"; "4"; "5"; "6"; "7"; "8"; "9";
   "01"; "02"; "03"; "04"; "05"; "06"; "07"; "08"; "09"; "10"; "11"; "12"].

Definition meridiems : list string :=
  ["AM"; "Am"; "aM"; "am"; "PM"; "Pm"; "pM"; "pm"].

Definition decimal_digits (lo hi : nat) : list ascii :=
  map (λ n, ascii_of_nat (48 + n)) (seq lo (S hi - lo)).

(** A time of the twelve-hour clock: an hour, a colon, two minute
    digits, at most one white-space character, and AM or PM in any
    case. *)
Definition is_clock_time (s : string) : Prop :=
  ∃ hour m1 m2 sp mer,
    s = hour +:+ ":" +:+ String m1 (String m2 (sp +:+ mer))
    ∧ hour ∈ clock_hours
    ∧ m1 ∈ decimal_digits 0 5
    ∧ m2 ∈ decimal_digits 0 9
    ∧ sp ∈ "" :: Js.whitespace
    ∧ mer ∈ meridiems.

Section SchemaDefs.
Context {W : Type} `{Runtime W}.

(** The value of a key reads as the integer [z]: the number [z], or a
    string that converts to it. *)
Definition denotes (v : option FieldValue) (z : Z) : Prop :=
  v = Some (VNumber (Integral z))
  ∨ ∃ s, v = Some (VString s) ∧ number_of_string s = Some (Integral z).

(** What a body must be for the schema loaded on day [loaded] to hand
    back [v]. *)
Definition accepted_as (loaded : Z) (body : ReqBody) (v : Reservation) : Prop :=
  ∃ fields,
    body = BodyObject fields
    ∧ fields !! "day" = Some (VString (r_day v))
    ∧ r_day v ∈ getNextFourDays loaded
    ∧ denotes (fields !! "courtNumber") (r_courtNumber v)
    ∧ (- MAX_SAFE_INTEGER ≤ r_courtNumber v ≤ MAX_SAFE_INTEGER)%Z
    ∧ fields !! "startTime" = Some (VString (r_startTime v))
    ∧ is_clock_time (r_startTime v)
    ∧ fields !! "partnerName" = Some (VString (r_partnerName v))
    ∧ r_partnerName v ≠ ""
    ∧ fields !! "partnerMembershipNumber" = Some (VString (r_partnerMembershipNumber v))
    ∧ r_partnerMembershipNumber v ≠ ""
    ∧ (∀ k, is_Some (fields !! k) → k ∈ schema_keys).

(** The value of a key is a string that is not empty. *)
Definition nonempty_string (v : option FieldValue) : Prop :=
  ∃ s, v = Some (VString s) ∧ s ≠ "".

(** The state after [res.status(code).send(p)], nothing else changed. *)
Definition answered (code : nat) (p : Payload) (s : State W) : State W :=
  mkState (world s) (files s) (g_openCourts s) (trace s) (Some (mkResponse code p)).

End SchemaDefs.

(** A well-formed body for the simulated site, for a given day and court. *)
Definition sample_fields (day : string) (courtNumber : Z) : gmap string FieldValue :=
  list_to_map
    [ ("day", VString day); ("courtNumber", VNumber (Integral courtNumber));
      ("startTime", VString "9:00 AM"); ("partnerName", VString "Pat");
      ("partnerMembershipNumber", VString "2002") ].

(** The simulated site on a given day. *)
Definition site_on (today : Z) : Sim.World :=
  Sim.mkWorld Sim.booking_page None None true true true 0 today [Sim.session].


(** The time a row is labelled with: the trimmed text of its first
    cell, when it has one. *)
Definition time_label (row : list Cell) : option string :=
  (λ c, Js.trim (textContent c)) <$> head row.

(** The row has a label and it is not [startTime]. *)
Definition other_time (startTime : string) (row : list Cell) : Prop :=
  ∃ label, time_label row = Some label ∧ label ≠ startTime.

(** [row] is the first row labelled [startTime], at position [r], and
    the rows above it are labelled otherwise. *)
Definition first_row_at (rows : list (list Cell)) (startTime : string)
    (r : nat) (row : list Cell) : Prop :=
  ∃ above below,
    rows = above ++ row :: below ∧ length above = r
    ∧ Forall (other_time startTime) above ∧ time_label row = Some startTime.

(** The header names the court: its trimmed text includes
    [Court <courtNumber>]. *)
Definition names_court (courtNumber : Z) (header : string) : bool :=
  Js.includes (Js.trim header) ("Court " +:+ Js.string_of_Z courtNumber).

(** Column [i] is the first one past the time column whose header
    names the court. *)
Definition first_column_at (headers : list string) (courtNumber : Z) (i : nat) : Prop :=
  ∃ left h right,
    drop 1 headers = left ++ h :: right ∧ i = S (length left)
    ∧ Forall (λ h', names_court courtNumber h' = false) left
    ∧ names_court courtNumber h = true.

(** A page whose table has [first] for its first row and a second row
    that stops short of the second court. *)
Definition ragged_page (first : list Cell) : Dom :=
  mkDom (anchors Sim.booking_page) (slots_head Sim.booking_page)
    [ first; [ Sim.cell "10:00 AM" [] None; Sim.cell "" ["open"] (Some "10:00 AM") ] ]
    (buttons Sim.booking_page) [] (autocomplete_items Sim.booking_page).

Definition ragged_site (first : list Cell) : Sim.World :=
  Sim.mkWorld (ragged_page first) None None true true true 0 4 [Sim.session].

(** The text the restriction check reads off an [h1]: its
    [textContent], or its [innerText] when that is empty. *)
Definition heading_text (h1 : Heading) : string :=
  if String.eqb (h1_textContent h1) "" then h1_innerText h1 else h1_textContent h1.

(** The item is well formed and belongs to somebody else. *)
Definition other_member (membershipNumber : string) (item : ItemValue) : Prop :=
  ∃ m, item = ItemMember m ∧ m ≠ Some membershipNumber.




(** The page after a save that the club refuses. *)
Definition refusal_page : Dom :=
  mkDom [] [] [] [] [mkHeading "" "Welcome"; mkHeading "Booking Restriction: daily limit" ""] [].

Definition site_refusing : Sim.World :=
  Sim.mkWorld Sim.booking_page (Some refusal_page) None true true true 0 4 [Sim.session].

(** A site that drops the Save button right after the wait for it. *)
Definition site_losing_save : Sim.World :=
  Sim.mkWorld Sim.booking_page None (Some (0%nat, refusal_page))
    true true true 0 4 [Sim.session].

Definition wait_for_save : Action := WaitForSelector save_xpath (Some 5000%nat).

(** The pause between the click on Save and the look at the headings. *)
Definition settle_after_save : Pause := Millis 5000.

Section RouteDefs.
Context {W : Type} `{Runtime W}.
Variable cfg : Config.

(** The state once the browser is launched in world [w1] and its page
    is opened in world [w2]. *)
Definition session_opened (w1 w2 : W) (s : State W) : State W :=
  record (Act NewPage) (with_world w2 (record (Act Launch) (with_world w1 s))).

(** What the reserve route runs inside its [try]. *)
Definition reserve_job (value : Reservation) : M W string :=
  (login cfg;;
   reserveCourt cfg (r_day value) (r_courtNumber value) (r_startTime value)
     (r_partnerName value) (r_partnerMembershipNumber value))%script.

(** What the open-courts route runs inside its [try]. *)
Definition open_courts_job (dayOfWeek : string) : M W (option (list OpenCourtEntry)) :=
  (login cfg;; getOpenCourts cfg dayOfWeek)%script.

End RouteDefs.

(** The answer of the reserve route to the outcome of its job. *)
Definition reserve_answer (outcome : Result string) : Response :=
  match outcome with
  | Ok message => mkResponse 200 (Reserved true message)
  | Throw error =>
      if Js.includes (message error) "Booking restricted"
      then mkResponse 403 (NotReserved false "Booking restricted due to club policy.")
      else mkResponse 500 (NotReserved false "An error occurred while reserving the court.")
  end.

(** The answer of the open-courts route to the outcome of its job. *)
Definition open_courts_answer (dayOfWeek : string)
    (outcome : Result (option (list OpenCourtEntry))) : Response :=
  match outcome with
  | Ok found => mkResponse 200 (OpenCourts dayOfWeek found)
  | Throw _ => mkResponse 500 (ErrorText "An error occurred while fetching open courts")
  end.

(** A site whose browser starts but cannot open a page. *)
Module Crashing.

Definition react (a : Action) (w : Sim.World) : option Error * Sim.World :=
  match a with
  | NewPage => (Some (mkError "Target closed"), w)
  | _ => Sim.react a w
  end.

Definition runtime : Runtime Sim.World := {|
  perform := react;
  elapse := λ _ w, w;
  document := Sim.page;
  cookie_jar := Sim.jar;
  today := Sim.day;
  JSON_parse := Sim.parse;
  JSON_stringify := Sim.stringify;
  number_of_string := Sim.to_number
|}.

End Crashing.

(** From [s], the run of [m] launched the browser, opened a page, did
    things that closed nothing, and closed the browser last. *)
Definition torn_down {W A} (m : M W A) (s : State W) : Prop :=
  ∃ evs, trace (m s).2 = trace s ++ [Act Launch; Act NewPage] ++ evs ++ [Act Close]
         ∧ occurrences is_close evs = 0%nat.

(** Some row has, past its first column, an open cell without a
    [div]. *)
Definition open_cell_without_div (grid : list (list Cell)) : Prop :=
  Exists (λ row, Exists (λ c, is_open c = true ∧ startTimeDiv c = None) (drop 1 row)) grid.

(** Anchor [i] is the first, in document order, that is a link of the
    day. *)
Definition first_day_link (dayOfWeek : string) (links : list Anchor) (i : nat) : Prop :=
  (∃ a, links !! i = Some a ∧ is_day_link dayOfWeek a = true)
  ∧ (∀ j a, (j < i)%nat → links !! j = Some a → is_day_link dayOfWeek a = false).

(** The waits of the open-courts path, as the script asks for them. *)
Definition wait_for_picker : Action := WaitForSelector ".horizontal-date-picker-container" None.
Definition wait_for_day (dayOfWeek : string) : Action :=
  WaitForSelector ("xpath/." +:+ day_xpath dayOfWeek) None.
Definition wait_for_slots : Action := WaitForSelector slots_data_selector None.

(** A slot table whose second row has an open cell without a [div]. *)
Definition page_without_div : Dom :=
  mkDom (anchors Sim.booking_page) (slots_head Sim.booking_page)
    [ [ Sim.cell "9:00 AM" [] None; Sim.cell "" ["open"] (Some "9:00 AM") ];
      [ Sim.cell "10:00 AM" [] None; Sim.cell "" ["booked"] None; mkCell "" ["open"] None ] ]
    (buttons Sim.booking_page) [] (autocomplete_items Sim.booking_page).

Definition site_without_div : Sim.World :=
  Sim.mkWorld page_without_div None None true true true 0 4 [Sim.session].

(** * Properties *)

Open Scope list_scope.

(** ** The rolling window of days *)

Lemma weekday_long_mod (d : Z) : weekday_long d = weekday_long (d `mod` 7).
Proof.
  unfold weekday_long. f_equal. f_equal. f_equal.
  rewrite Zplus_mod_idemp_l. reflexivity.
Qed.

Lemma getNextFourDays_mod (now : Z) :
  getNextFourDays now = getNextFourDays (now `mod` 7).
Proof.
  unfold getNextFourDays. apply map_ext. intros i.
  rewrite weekday_long_mod, (weekday_long_mod (now `mod` 7 + _)).
  f_equal. rewrite Zplus_mod_idemp_l. reflexivity.
Qed.

Lemma day_of_week_cases (now : Z) :
  ∃ k, (k < 7)%nat ∧ (now `mod` 7)%Z = Z.of_nat k.
Proof.
  exists (Z.to_nat (now `mod` 7)).
  pose proof (Z.mod_pos_bound now 7 ltac:(lia)). lia.
Qed.

(** The window names today and the three days after it. *)
Lemma getNextFourDays_unfold (now : Z) :
  getNextFourDays now =
  [weekday_long now; weekday_long (now + 1); weekday_long (now + 2); weekday_long (now + 3)].
Proof.
  unfold getNextFourDays. simpl. rewrite Z.add_0_r. reflexivity.
Qed.

(** The window has four members and no two of them are the same. *)
Lemma getNextFourDays_distinct (now : Z) :
  length (getNextFourDays now) = 4%nat ∧ NoDup (getNextFourDays now).
Proof.
  split; [reflexivity|].
  rewrite getNextFourDays_mod.
  destruct (day_of_week_cases now) as (k & Hk & ->).
  do 7 (destruct k as [|k]; [apply (bool_decide_unpack _); vm_compute; exact I|]).
  lia.
Qed.

(** [validateDay] accepts exactly the names of the window computed
    from the clock it is given. *)
Lemma validateDay_window (now : Z) (d : string) :
  validateDay now d = true ↔
  d ∈ [weekday_long now; weekday_long (now + 1); weekday_long (now + 2); weekday_long (now + 3)].
Proof.
  unfold validateDay. rewrite bool_decide_eq_true, getNextFourDays_unfold. reflexivity.
Qed.

(** ** Running a script, step by step *)

Section Steps.

Context {W : Type} `{Runtime W}.

Lemma act_resolves a (s : State W) w' :
  perform a (world s) = (None, w') →
  act a s = (Ok (), record (Act a) (with_world w' s)).
Proof. intros Hp. unfold act. rewrite Hp. reflexivity. Qed.

Lemma act_rejects a (s : State W) e w' :
  perform a (world s) = (Some e, w') →
  act a s = (Throw e, record (Act a) (with_world w' s)).
Proof. intros Hp. unfold act. rewrite Hp. reflexivity. Qed.

Lemma bind_ok {A B} (m : M W A) (f : A → M W B) s a s' :
  m s = (Ok a, s') → bind m f s = f a s'.
Proof. intros Hm. unfold bind. rewrite Hm. reflexivity. Qed.

Lemma bind_throw {A B} (m : M W A) (f : A → M W B) s e s' :
  m s = (Throw e, s') → bind m f s = (Throw e, s').
Proof. intros Hm. unfold bind. rewrite Hm. reflexivity. Qed.

Lemma bind_bind {A B C} (m : M W A) (f : A → M W B) (g : B → M W C) s :
  bind (bind m f) g s = bind m (λ a, bind (f a) g) s.
Proof. unfold bind. destruct (m s) as [[a|e] s']; reflexivity. Qed.

End Steps.

(** ** The open-courts extractor *)

Section Extractor.

Context {W : Type} `{Runtime W}.

(** The inner loop appends the open cells' entries in column order and
    leaves the state alone. *)
Lemma extract_cells_entries (cells : list Cell) : ∀ i courtsData (s : State W),
  Forall (λ c, is_open c = true → is_Some (startTimeDiv c)) cells →
  extract_cells i cells courtsData s
  = (Ok (courtsData ++ omap id (imap (λ j, entry_of (i + j)) cells)), s).
Proof.
  induction cells as [|cell rest IH]; intros i courtsData s Hdiv.
  - simpl. unfold ret. rewrite app_nil_r. reflexivity.
  - apply Forall_cons in Hdiv as [Hcell Hrest].
    rewrite imap_cons. simpl. unfold entry_of at 1. rewrite Nat.add_0_r.
    assert (Hshift : imap ((λ j, entry_of (i + j)) ∘ S) rest
                     = imap (λ j, entry_of (S i + j)) rest).
    { apply imap_ext. intros j c _. simpl. f_equal. lia. }
    rewrite Hshift.
    destruct (is_open cell) eqn:Hopen.
    + destruct (Hcell eq_refl) as [attribute Hattr].
      unfold start_time, bind. rewrite Hattr. simpl.
      rewrite IH by assumption. rewrite <- app_assoc. reflexivity.
    + simpl. apply IH. assumption.
Qed.

(** The outer loop appends the rows' entries, top to bottom. *)
Lemma extract_rows_entries (rows : list (list Cell)) : ∀ courtsData (s : State W),
  open_cells_have_div rows →
  extract_rows rows courtsData s = (Ok (courtsData ++ grid_entries rows), s).
Proof.
  induction rows as [|cells rest IH]; intros courtsData s Hdiv.
  - simpl. unfold ret, grid_entries. simpl. rewrite app_nil_r. reflexivity.
  - apply Forall_cons in Hdiv as [Hrow Hrest].
    simpl. unfold bind. rewrite extract_cells_entries by assumption.
    rewrite IH by assumption.
    unfold grid_entries, row_entries. simpl.
    rewrite <- app_assoc. do 3 f_equal.
    destruct cells as [|c cells]; [reflexivity|].
    rewrite imap_cons. simpl. reflexivity.
Qed.

(** An open cell without a [div] stops the extraction with the error
    of the failed lookup. *)
Lemma extract_cells_no_div (cells : list Cell) : ∀ i courtsData (s : State W) before cell after,
  cells = before ++ cell :: after →
  Forall (λ c, is_open c = false) before →
  is_open cell = true → startTimeDiv cell = None →
  extract_cells i cells courtsData s = (Throw (no_element "div"), s).
Proof.
  induction cells as [|c rest IH]; intros i courtsData s before cell after Hsplit Hclosed Hopen Hdiv.
  - destruct before; discriminate.
  - destruct before as [|b before']; simpl in Hsplit; injection Hsplit as -> ->.
    + simpl. rewrite Hopen. unfold bind, start_time. rewrite Hdiv. reflexivity.
    + apply Forall_cons in Hclosed as [Hb Hclosed]. simpl. rewrite Hb.
      eapply IH; eauto.
Qed.

(** C6, amended. Once the slot table is there, [extractOpenCourts]
    returns, for a grid whose open cells hold their [div], the entries
    of the grid in the specification's words: row after row from the
    top, within a row every cell past the first column that is marked
    open, by its column position and its declared start time (empty
    when the attribute is absent), in that order, nothing merged and
    nothing sorted.  The condition on the [div] is needed: without it
    the call throws. *)
Theorem extractOpenCourts_grid_order (s : State W) (w' : W) :
  perform (WaitForSelector slots_data_selector None) (world s) = (None, w') →
  open_cells_have_div (slots_data (document w')) →
  extractOpenCourts s
  = (Ok (grid_entries (slots_data (document w'))),
     record (Act (WaitForSelector slots_data_selector None)) (with_world w' s)).
Proof.
  intros Hwait Hdiv. unfold extractOpenCourts.
  rewrite (bind_ok _ _ _ _ _ (act_resolves _ _ _ Hwait)).
  unfold bind, the_document. simpl.
  rewrite extract_rows_entries by assumption. reflexivity.
Qed.

End Extractor.

(** The grid of the simulated site: one open cell in each row, and the
    entries come out in row order. *)
Lemma extractOpenCourts_grid_order_witness :
  perform (WaitForSelector slots_data_selector None) (world (Sim.start Sim.site ∅))
    = (None, Sim.site)
  ∧ open_cells_have_div (slots_data (document Sim.site))
  ∧ (extractOpenCourts (Sim.start Sim.site ∅)).1
    = Ok [mkEntry 1 "9:00 AM"; mkEntry 2 "10:00 AM"].
Proof.
  assert (Hwait : perform (WaitForSelector slots_data_selector None)
                    (world (Sim.start Sim.site ∅)) = (None, Sim.site))
    by reflexivity.
  assert (Hdiv : open_cells_have_div (slots_data (document Sim.site))).
  { unfold open_cells_have_div. apply (bool_decide_unpack _). vm_compute. exact I. }
  split; [exact Hwait|]. split; [exact Hdiv|].
  rewrite (extractOpenCourts_grid_order _ _ Hwait Hdiv). reflexivity.
Defined.

(** ** Retry and traces *)

Lemma occurrences_app p t1 t2 :
  occurrences p (t1 ++ t2) = (occurrences p t1 + occurrences p t2)%nat.
Proof. unfold occurrences. rewrite List.filter_app, length_app. reflexivity. Qed.

Section Traces.

Context {W : Type} `{Runtime W}.

Lemma retry_attempt_ok {A} (fn : M W A) onRetry timeouts attempt errors s a s' :
  fn s = (Ok a, s') →
  retry_attempt fn onRetry timeouts attempt errors s = (Ok a, s').
Proof. intros Hfn. destruct timeouts; simpl; rewrite Hfn; reflexivity. Qed.








Lemma occurrences_record p ev (s : State W) :
  occurrences p (trace (record ev s)) = (occurrences p (trace s) + cost p ev)%nat.
Proof.
  unfold record, cost. simpl. rewrite occurrences_app. unfold occurrences. simpl.
  destruct (p ev); reflexivity.
Qed.

Lemma grows_weaken {A} p k k' (m : M W A) :
  grows p k m → (k ≤ k')%nat → grows p k' m.
Proof. intros Hm Hle s. specialize (Hm s). lia. Qed.

Lemma grows_silent {A} p (m : M W A) :
  (∀ s, trace (m s).2 = trace s) → grows p 0 m.
Proof. intros Hm s. rewrite Hm. lia. Qed.

Lemma grows_ret {A} p (a : A) : grows p 0 (ret a : M W A).
Proof. apply grows_silent. reflexivity. Qed.

Lemma grows_throw {A} p e : grows p 0 (throw e : M W A).
Proof. apply grows_silent. reflexivity. Qed.

Lemma grows_act p a : grows p (cost p (Act a)) (act a : M W unit).
Proof.
  intros s. unfold act. destruct (perform a (world s)) as [r w'].
  simpl snd. rewrite occurrences_record. reflexivity.
Qed.

Lemma grows_pause p d : grows p (cost p (Sleep d)) (pause d : M W unit).
Proof. intros s. unfold pause. simpl snd. rewrite occurrences_record. reflexivity. Qed.

Lemma grows_console p l t a :
  grows p (cost p (Console l t a)) (console l t a : M W unit).
Proof. intros s. unfold console. simpl snd. rewrite occurrences_record. reflexivity. Qed.

Lemma grows_bind {A B} p k1 k (m : M W A) (f : A → M W B) :
  grows p k1 m → (k1 ≤ k)%nat → (∀ a, grows p (k - k1) (f a)) → grows p k (bind m f).
Proof.
  intros Hm Hle Hf s. unfold bind. specialize (Hm s).
  destruct (m s) as [[a|e] s']; simpl in *; [|lia].
  specialize (Hf a s'). lia.
Qed.

Lemma grows_try_catch {A} p k (body : M W A) handler :
  grows p k body → (∀ e, grows p 0 (handler e)) →
  grows p k (try_catch body handler).
Proof.
  intros Hm Hf s. unfold try_catch. specialize (Hm s).
  destruct (body s) as [[a|e] s']; simpl in *; [lia|].
  specialize (Hf e s'). lia.
Qed.


Lemma grows_fs_readFileSync p path : grows p 0 (fs_readFileSync path : M W string).
Proof.
  apply grows_silent. intros s. unfold fs_readFileSync.
  destruct (files s !! path); reflexivity.
Qed.

Lemma grows_page_cookies p :
  grows p (cost p (Act GetCookies)) (page_cookies : M W (list Cookie)).
Proof.
  unfold page_cookies. eapply grows_bind; [apply grows_act|reflexivity|intros _].
  rewrite Nat.sub_diag. apply grows_silent. reflexivity.
Qed.

Lemma grows_retry_attempt {A} p k (fn : M W A) onRetry timeouts :
  grows p k fn → (∀ e, grows p 0 (onRetry e)) → (∀ d, p (Sleep d) = false) →
  ∀ attempt errors, grows p (S timeouts * k) (retry_attempt fn onRetry timeouts attempt errors).
Proof.
  intros Hfn Hon Hsleep. induction timeouts as [|t IH]; intros attempt errors s.
  - simpl. specialize (Hfn s). destruct (fn s) as [[a|e] s']; simpl in *; lia.
  - cbn [retry_attempt]. specialize (Hfn s). destruct (fn s) as [[a|e] s']; simpl in *; [lia|].
    unfold bind. specialize (Hon e s').
    destruct (onRetry e s') as [[[]|e'] s'']; simpl in *; [|lia].
    pose proof (grows_pause p (Backoff attempt) s'') as Hp. unfold cost in Hp.
    rewrite Hsleep in Hp. unfold pause in *. simpl in Hp.
    specialize (IH (S attempt) (errors ++ [e])
                  (record (Sleep (Backoff attempt)) (with_world (elapse (Backoff attempt) (world s'')) s''))).
    simpl in IH. lia.
Qed.

Lemma grows_retry {A} p k n (fn : M W A) retries onRetry :
  grows p k fn → (∀ e, grows p 0 (onRetry e)) → (∀ d, p (Sleep d) = false) →
  (S retries * k ≤ n)%nat →
  grows p n (retry fn retries onRetry).
Proof.
  intros. eapply grows_weaken; [apply grows_retry_attempt; eassumption|assumption].
Qed.


End Traces.

Create HintDb grows.






(** ** Login *)

Section Login.

Context {W : Type} `{Runtime W}.
Variable cfg : Config.




Lemma act_files a (s : State W) : files (act a s).2 = files s.
Proof. unfold act. destruct (perform a (world s)). reflexivity. Qed.

Lemma login_form_files (s : State W) : files (login_form cfg s).2 = files s.
Proof.
  unfold login_form, bind.
  repeat match goal with
         | |- context [act ?a ?s] =>
             let Hf := fresh "Hf" in
             pose proof (act_files a s) as Hf;
             destruct (act a s) as [[[]|?] ?]; simpl in Hf |- *
         end; congruence.
Qed.

Lemma login_without_store (s : State W) :
  files s !! cookieFilePath cfg = None →
  login cfg s
  = (retry (login_form cfg) 3 (λ err, console LWarn login_warning (Some err));;
     console_log "Logged in successfully.";;
     cookies ← page_cookies;
     fs_writeFileSync (cookieFilePath cfg) (JSON_stringify cookies))%script s.
Proof.
  intros Hnone. unfold login at 1, bind at 1, fs_existsSync. rewrite Hnone.
  rewrite bool_decide_eq_false_2; [reflexivity|]. intros [? ?]; discriminate.
Qed.



(** A readable cookie file is set into the session and nothing of the
    login form is touched. *)
Lemma login_restores_store (s : State W) text cookies w' :
  files s !! cookieFilePath cfg = Some text →
  JSON_parse text = inr cookies →
  perform (SetCookie cookies) (world s) = (None, w') →
  login cfg s
  = (Ok (), record (Console LLog ("Loaded cookies from " +:+ cookieFileName cfg) None)
              (record (Act (SetCookie cookies)) (with_world w' s))).
Proof.
  intros Hfile Hparse Hset.
  unfold login, bind at 1, fs_existsSync. rewrite Hfile.
  rewrite bool_decide_eq_true_2 by eauto.
  unfold try_catch, bind, fs_readFileSync, parse_cookies, act. rewrite Hfile, Hparse.
  simpl. rewrite Hset. reflexivity.
Qed.

(** A cookie file that does not parse: the handler prints its line and
    [login] is over; the login form is not run. *)
Lemma login_unparsable_store (s : State W) text e :
  files s !! cookieFilePath cfg = Some text →
  JSON_parse text = inl e →
  login cfg s = (Ok (), record (Console LLog "No cookies found. Logging in." None) s).
Proof.
  intros Hfile Hparse.
  unfold login, bind at 1, fs_existsSync. rewrite Hfile.
  rewrite bool_decide_eq_true_2 by eauto.
  unfold try_catch, bind, fs_readFileSync, parse_cookies. rewrite Hfile, Hparse.
  reflexivity.
Qed.


End Login.

(** C3, at a store file that does not parse.  The claim has a fresh
    login-form flow run for the request; the script prints that it is
    logging in and returns with nothing done: no navigation, no
    cookie set, the file as it was. *)
Theorem login_unparsable_store_skips_form :
  let disk : gmap string string := {[ cookieFilePath Sim.config := "<html>" ]} in
  let s := Sim.start Sim.site disk in
  (login Sim.config s).1 = Ok ()
  ∧ trace (login Sim.config s).2 = [Console LLog "No cookies found. Logging in." None]
  ∧ world (login Sim.config s).2 = Sim.site
  ∧ files (login Sim.config s).2 = disk.
Proof.
  intros disk s.
  rewrite (login_unparsable_store Sim.config s "<html>"
             (mkError "Unexpected token in JSON at position 0"));
    [auto | vm_compute; reflexivity | reflexivity].
Qed.



(** ** What a script leaves alone *)

Section Frames.
Context {W : Type} `{Runtime W}.

Lemma framed_files : framed (files : State W → _).
Proof. split; reflexivity. Qed.
Lemma framed_openCourts : framed (g_openCourts : State W → _).
Proof. split; reflexivity. Qed.
Lemma framed_response : framed (response : State W → _).
Proof. split; reflexivity. Qed.

Lemma preserves_same {A X} (f : State W → X) (m : M W A) :
  (∀ s, (m s).2 = s) → preserves f m.
Proof. intros Hm s. rewrite Hm. reflexivity. Qed.

Lemma preserves_ret {A X} (f : State W → X) (a : A) : preserves f (ret a : M W A).
Proof. intros s. reflexivity. Qed.

Lemma preserves_throw {A X} (f : State W → X) e : preserves f (throw e : M W A).
Proof. intros s. reflexivity. Qed.

Lemma preserves_act {X} (f : State W → X) a : framed f → preserves f (act a : M W unit).
Proof.
  intros [Hr Hw] s. unfold act. destruct (perform a (world s)). simpl.
  rewrite Hr, Hw. reflexivity.
Qed.

Lemma preserves_pause {X} (f : State W → X) d : framed f → preserves f (pause d : M W unit).
Proof. intros [Hr Hw] s. unfold pause. simpl. rewrite Hr, Hw. reflexivity. Qed.

Lemma preserves_console {X} (f : State W → X) l t a :
  framed f → preserves f (console l t a : M W unit).
Proof. intros [Hr Hw] s. unfold console. simpl. rewrite Hr. reflexivity. Qed.

Lemma preserves_bind {A B X} (f : State W → X) (m : M W A) (k : A → M W B) :
  preserves f m → (∀ a, preserves f (k a)) → preserves f (bind m k).
Proof.
  intros Hm Hk s. unfold bind. specialize (Hm s).
  destruct (m s) as [[a|e] s']; simpl in *; [|assumption].
  rewrite Hk. assumption.
Qed.

Lemma preserves_try_catch {A X} (f : State W → X) (body : M W A) handler :
  preserves f body → (∀ e, preserves f (handler e)) → preserves f (try_catch body handler).
Proof.
  intros Hm Hk s. unfold try_catch. specialize (Hm s).
  destruct (body s) as [[a|e] s']; simpl in *; [assumption|].
  rewrite Hk. assumption.
Qed.

Lemma preserves_retry_attempt {A X} (f : State W → X) (fn : M W A) onRetry timeouts :
  framed f → preserves f fn → (∀ e, preserves f (onRetry e)) →
  ∀ attempt errors, preserves f (retry_attempt fn onRetry timeouts attempt errors).
Proof.
  intros Hf Hfn Hon. induction timeouts as [|t IH]; intros attempt errors s.
  - simpl. specialize (Hfn s). destruct (fn s) as [[a|e] s']; assumption.
  - cbn [retry_attempt]. specialize (Hfn s). destruct (fn s) as [[a|e] s']; [assumption|].
    simpl in Hfn. rewrite <- Hfn.
    apply (preserves_bind f (onRetry e)); [apply Hon|]. intros _.
    apply preserves_bind; [apply preserves_pause; assumption|]. intros _. apply IH.
Qed.

Lemma extract_cells_same (cells : list Cell) : ∀ i courtsData (s : State W),
  (extract_cells i cells courtsData s).2 = s.
Proof.
  induction cells as [|cell rest IH]; intros i courtsData s; simpl; [reflexivity|].
  destruct (is_open cell); [|apply IH].
  unfold bind, start_time. destruct (startTimeDiv cell); simpl; [apply IH|reflexivity].
Qed.

Lemma extract_rows_same (rows : list (list Cell)) : ∀ courtsData (s : State W),
  (extract_rows rows courtsData s).2 = s.
Proof.
  induction rows as [|cells rest IH]; intros courtsData s; simpl; [reflexivity|].
  unfold bind. pose proof (extract_cells_same (drop 1 cells) 1 courtsData s) as Hc.
  destruct (extract_cells 1 (drop 1 cells) courtsData s) as [[a|e] s']; simpl in Hc; subst s'.
  - apply IH.
  - reflexivity.
Qed.

Lemma find_slot_row_same (rows : list (list Cell)) : ∀ r startTime (s : State W),
  (find_slot_row r rows startTime s).2 = s.
Proof.
  induction rows as [|row rest IH]; intros r startTime s; simpl; [reflexivity|].
  destruct (head row); [|reflexivity].
  destruct (String.eqb _ _); [reflexivity|apply IH].
Qed.

End Frames.

Ltac preserves_leaf :=
  first [ apply preserves_ret | apply preserves_throw
        | apply preserves_act; assumption | apply preserves_pause; assumption
        | apply preserves_console; assumption
        | (apply preserves_same; intros; reflexivity)
        | (apply preserves_same; intros; apply extract_rows_same)
        | (apply preserves_same; intros; apply find_slot_row_same)
        | solve [eauto with preserves] ].

Ltac preserves_step :=
  first
    [ apply preserves_bind; [ | intros ?]
    | apply preserves_try_catch; [ | intros ?]
    | preserves_leaf
    | match goal with
      | |- preserves _ (match ?x with _ => _ end) => destruct x
      end ].

Ltac preserves_auto := repeat preserves_step.

(** ** The open-courts path *)

Section OpenCourts.

Context {W : Type} `{Runtime W}.
Variable cfg : Config.

Lemma findAndClickDate_preserves {X} (f : State W → X) day :
  framed f → preserves f (findAndClickDate day).
Proof. intros Hf. unfold findAndClickDate, console_log. preserves_auto. Qed.


Lemma validateDay_nonempty (now : Z) : validateDay now "" = false.
Proof.
  unfold validateDay. rewrite getNextFourDays_mod.
  destruct (day_of_week_cases now) as (k & Hk & ->).
  do 7 (destruct k as [|k]; [vm_compute; reflexivity|]). lia.
Qed.

Lemma getOpenCourts_attempt_no_link dayOfWeek (s s1 s2 : State W) :
  (act (Goto (WEBSITE_BOOKING_PAGE cfg));;
   act (WaitForSelector ".horizontal-date-picker-container" None))%script s = (Ok (), s1) →
  findAndClickDate dayOfWeek s1 = (Ok false, s2) →
  getOpenCourts_attempt cfg dayOfWeek s
  = (Ok (Some []),
     record (Console LLog ("Date " +:+ Js.dq +:+ dayOfWeek +:+ Js.dq +:+ " not found.") None) s2).
Proof.
  intros Hnav Hfind. unfold getOpenCourts_attempt. unfold bind in *.
  destruct (act (Goto _) s) as [[[]|?] sa]; [|discriminate].
  destruct (act (WaitForSelector _ _) sa) as [[[]|?] sb]; [|discriminate].
  injection Hnav as ->. rewrite Hfind. reflexivity.
Qed.

(** C10. When the day link is reported missing, the function handed
    to [retry] returns early, the global [openCourts] keeps the [null]
    it was given, [getOpenCourts] returns that [null], and the route
    answers 200 with [openCourts: null]. *)
Theorem open_courts_null_when_day_link_missing (dayOfWeek : string) (s s0 s1 s2 : State W) :
  validateDay (today (world s)) dayOfWeek = true →
  (act Launch;; act NewPage;; login cfg)%script s = (Ok (), s0) →
  (set_openCourts None;;
   act (Goto (WEBSITE_BOOKING_PAGE cfg));;
   act (WaitForSelector ".horizontal-date-picker-container" None))%script s0 = (Ok (), s1) →
  findAndClickDate dayOfWeek s1 = (Ok false, s2) →
  (getOpenCourts cfg dayOfWeek s0).1 = Ok None
  ∧ response (open_courts_route cfg (Some (QString dayOfWeek)) s).2
    = Some (mkResponse 200 (OpenCourts dayOfWeek None)).
Proof.
  intros Hday Hstart Hnav Hfind.
  assert (Hget : getOpenCourts cfg dayOfWeek s0
                 = (Ok None, record (Console LLog ("Date " +:+ Js.dq +:+ dayOfWeek +:+ Js.dq
                                                     +:+ " not found.") None) s2)).
  { unfold getOpenCourts. unfold bind at 1. unfold bind at 1 in Hnav.
    unfold set_openCourts at 1. unfold set_openCourts at 1 in Hnav.
    pose proof (getOpenCourts_attempt_no_link _ _ _ _ Hnav Hfind) as Hattempt.
    unfold retry, bind. rewrite (retry_attempt_ok _ _ _ _ _ _ _ _ Hattempt).
    unfold get_openCourts. f_equal. f_equal. simpl.
    pose proof (findAndClickDate_preserves g_openCourts dayOfWeek framed_openCourts s1) as Hg2.
    rewrite Hfind in Hg2. simpl in Hg2. rewrite Hg2.
    unfold bind in Hnav.
    match type of Hnav with context [act ?a ?st] =>
      pose proof (preserves_act g_openCourts a framed_openCourts st) as Hg0;
      destruct (act a st) as [[[]|?] sa]; [|discriminate] end.
    match type of Hnav with context [act ?a ?st] =>
      pose proof (preserves_act g_openCourts a framed_openCourts st) as Hg1;
      destruct (act a st) as [[[]|?] sb]; [|discriminate] end.
    injection Hnav as ->. simpl in *. congruence. }
  split; [rewrite Hget; reflexivity|].
  unfold open_courts_route.
  destruct dayOfWeek as [|c rest]; [rewrite validateDay_nonempty in Hday; discriminate|].
  unfold bind at 1, clock. rewrite Hday. change (negb true) with false. cbv iota beta.
  unfold bind in Hstart |- *.
  destruct (act Launch s) as [[[]|?] sa]; [|discriminate].
  destruct (act NewPage sa) as [[[]|?] sb]; [|discriminate].
  unfold try_finally, try_catch, bind. cbv beta. rewrite Hstart, Hget. unfold send at 1.
  match goal with |- context [act Close ?st] =>
    pose proof (preserves_act response Close framed_response st) as Hclose;
    destruct (act Close st) as [[[]|?] sc] end; simpl in *; assumption.
Qed.

End OpenCourts.

Lemma open_courts_null_witness :
  validateDay (today (world (Sim.start vanishing_links ∅))) "Monday" = true
  ∧ (∃ s0, (getOpenCourts Sim.config "Monday" s0).1 = Ok None)
  ∧ response (open_courts_route Sim.config (Some (QString "Monday"))
                (Sim.start vanishing_links ∅)).2
    = Some (mkResponse 200 (OpenCourts "Monday" None)).
Proof.
  split; [reflexivity|].
  edestruct (open_courts_null_when_day_link_missing Sim.config "Monday"
               (Sim.start vanishing_links ∅)) as [Hget Hroute];
    [reflexivity | reflexivity | reflexivity | reflexivity |].
  split; [eexists; exact Hget | exact Hroute].
Defined.

(** ** The time pattern *)

Ltac elem_cases H :=
  repeat (apply elem_of_cons in H as [H|H]; [try subst|]);
  try (apply elem_of_nil in H; destruct H).

Lemma digit_between_elem lo hi a :
  (lo ≤ hi)%nat → (hi ≤ 9)%nat →
  TimeRegex.digit_between lo hi a = true ↔ a ∈ decimal_digits lo hi.
Proof.
  intros Hlo Hhi. unfold TimeRegex.digit_between, TimeRegex.in_range, decimal_digits.
  rewrite andb_true_iff, !Nat.leb_le. rewrite list_elem_of_fmap. split.
  - intros [H1 H2]. exists (nat_of_ascii a - 48)%nat. split.
    + replace (48 + (nat_of_ascii a - 48))%nat with (nat_of_ascii a) by lia.
      symmetry. apply ascii_nat_embedding.
    + apply elem_of_seq. lia.
  - intros (n & -> & Hn). apply elem_of_seq in Hn.
    rewrite nat_ascii_embedding by lia. lia.
Qed.

Lemma letter_i_cases upper a :
  (upper + 32 < 256)%nat →
  TimeRegex.letter_i upper a = true ↔ a = ascii_of_nat upper ∨ a = ascii_of_nat (upper + 32).
Proof.
  intros Hu. unfold TimeRegex.letter_i. rewrite orb_true_iff, !Nat.eqb_eq. split.
  - intros [E|E]; [left|right]; rewrite <- E; symmetry; apply ascii_nat_embedding.
  - intros [->| ->]; [left|right]; apply nat_ascii_embedding; lia.
Qed.

Lemma meridiem_end_elem s : TimeRegex.meridiem_end s = true ↔ s ∈ meridiems.
Proof.
  split.
  - destruct s as [|a [|m [|? ?]]]; simpl; try discriminate.
    rewrite andb_true_iff, orb_true_iff, !letter_i_cases by lia.
    intros [[[->| ->]|[->| ->]] [->| ->]]; apply (bool_decide_unpack _); vm_compute; exact I.
  - intros Hs. unfold meridiems in Hs. elem_cases Hs; reflexivity.
Qed.

Lemma append_cons a s1 s2 : String a s1 +:+ s2 = String a (s1 +:+ s2).
Proof. reflexivity. Qed.

Lemma append_nil s : "" +:+ s = s.
Proof. reflexivity. Qed.

Lemma drop_prefix_sound p : ∀ s s', Js.drop_prefix p s = Some s' → s = p +:+ s'.
Proof.
  induction p as [|a p IH]; intros s s' Hd; simpl in Hd.
  - injection Hd as ->. reflexivity.
  - destruct s as [|b s]; [discriminate|].
    destruct (Ascii.eqb a b) eqn:E; [|discriminate].
    apply Ascii.eqb_eq in E as ->. rewrite append_cons, <- (IH _ _ Hd). reflexivity.
Qed.

Lemma strip_one_sound seqs : ∀ s s',
  Js.strip_one seqs s = Some s' → ∃ p, p ∈ seqs ∧ s = p +:+ s'.
Proof.
  induction seqs as [|p rest IH]; intros s s' Hs; simpl in Hs; [discriminate|].
  destruct (Js.drop_prefix p s) as [t|] eqn:Hd.
  - injection Hs as ->. exists p. split; [left|]. apply drop_prefix_sound. assumption.
  - destruct (IH _ _ Hs) as (q & Hq & ->). exists q. split; [right; assumption|reflexivity].
Qed.

Lemma space_meridiem_end_elem s :
  TimeRegex.space_meridiem_end s = true ↔
  ∃ sp mer, s = sp +:+ mer ∧ sp ∈ "" :: Js.whitespace ∧ mer ∈ meridiems.
Proof.
  split.
  - unfold TimeRegex.space_meridiem_end.
    destruct (Js.strip_one Js.whitespace s) as [s'|] eqn:Hs.
    + rewrite orb_true_iff, !meridiem_end_elem. intros [Hm|Hm].
      * destruct (strip_one_sound _ _ _ Hs) as (p & Hp & ->).
        exists p, s'. split; [reflexivity|]. split; [right|]; assumption.
      * exists "", s. split; [reflexivity|]. split; [left|assumption].
    + rewrite meridiem_end_elem. intros Hm.
      exists "", s. split; [reflexivity|]. split; [left|assumption].
  - intros (sp & mer & -> & Hsp & Hmer).
    unfold meridiems in Hmer. elem_cases Hmer;
      (apply elem_of_cons in Hsp as [->|Hsp]; [reflexivity|]);
      unfold Js.whitespace in Hsp; simpl in Hsp; elem_cases Hsp; reflexivity.
Qed.

Lemma minutes_end_elem s :
  TimeRegex.minutes_end s = true ↔
  ∃ m1 m2 sp mer, s = String ":" (String m1 (String m2 (sp +:+ mer)))
    ∧ m1 ∈ decimal_digits 0 5 ∧ m2 ∈ decimal_digits 0 9
    ∧ sp ∈ "" :: Js.whitespace ∧ mer ∈ meridiems.
Proof.
  split.
  - destruct s as [|c [|m1 [|m2 rest]]]; simpl; try discriminate.
    rewrite !andb_true_iff, Ascii.eqb_eq, !digit_between_elem by lia.
    rewrite space_meridiem_end_elem.
    intros [[[-> H1] H2] (sp & mer & -> & Hsp & Hmer)].
    exists m1, m2, sp, mer. auto.
  - intros (m1 & m2 & sp & mer & -> & H1 & H2 & Hsp & Hmer).
    simpl. rewrite !andb_true_iff, !digit_between_elem by lia.
    rewrite space_meridiem_end_elem. split; [auto|]. exists sp, mer. auto.
Qed.

Lemma TimeRegex_test_clock (s : string) :
  TimeRegex.test s = true ↔ is_clock_time s.
Proof.
  revert s. intros timeStr. unfold is_clock_time. split.
  - destruct timeStr as [|h s1]; [discriminate|]. cbn [TimeRegex.test].
    rewrite !orb_true_iff, !andb_true_iff, !Ascii.eqb_eq.
    intros [[[-> Hs]|[-> Hs]]|[Hh Hs]].
    + destruct s1 as [|h2 s2]; [discriminate|].
      apply andb_true_iff in Hs as [Hh2 Hs].
      apply digit_between_elem in Hh2; [|lia..].
      apply minutes_end_elem in Hs as (m1 & m2 & sp & mer & -> & ?).
      exists (String "1" (String h2 "")), m1, m2, sp, mer. split; [reflexivity|].
      split; [|assumption].
      unfold decimal_digits in Hh2. simpl in Hh2. elem_cases Hh2; apply (bool_decide_unpack _); vm_compute; exact I.
    + destruct s1 as [|h2 s2]; [discriminate|].
      apply andb_true_iff in Hs as [Hh2 Hs].
      apply digit_between_elem in Hh2; [|lia..].
      apply minutes_end_elem in Hs as (m1 & m2 & sp & mer & -> & ?).
      exists (String "0" (String h2 "")), m1, m2, sp, mer. split; [reflexivity|].
      split; [|assumption].
      unfold decimal_digits in Hh2. simpl in Hh2. elem_cases Hh2; apply (bool_decide_unpack _); vm_compute; exact I.
    + apply digit_between_elem in Hh; [|lia..].
      apply minutes_end_elem in Hs as (m1 & m2 & sp & mer & -> & ?).
      exists (String h ""), m1, m2, sp, mer. split; [reflexivity|].
      split; [|assumption].
      unfold decimal_digits in Hh. simpl in Hh. elem_cases Hh; apply (bool_decide_unpack _); vm_compute; exact I.
  - intros (hour & m1 & m2 & sp & mer & -> & Hh & Hrest).
    assert (Hm : TimeRegex.minutes_end (String ":" (String m1 (String m2 (sp +:+ mer)))) = true).
    { apply minutes_end_elem. exists m1, m2, sp, mer. split; [reflexivity|assumption]. }
    unfold clock_hours in Hh.
    elem_cases Hh; rewrite ?append_cons, ?append_nil; cbn [TimeRegex.test]; rewrite Hm; reflexivity.
Qed.

(** X1. [validateTimeFormat] accepts exactly the twelve-hour clock
    times: an hour from 1 to 12 with an optional leading zero below
    ten, a colon, minutes from 00 to 59, at most one white-space
    character, and AM or PM in upper or lower case. *)
Theorem validateTimeFormat_clock_times (timeStr : string) :
  validateTimeFormat timeStr = true ↔ is_clock_time timeStr.
Proof. apply TimeRegex_test_clock. Qed.

(** ** The window of days *)

(** The names in the window are weekday names. *)
Lemma getNextFourDays_weekdays (now : Z) d :
  d ∈ getNextFourDays now → d ∈ weekday_names.
Proof.
  rewrite getNextFourDays_mod.
  destruct (day_of_week_cases now) as (k & Hk & ->). revert d.
  do 7 (destruct k as [|k];
        [vm_compute getNextFourDays; intros d Hd; elem_cases Hd;
         apply (bool_decide_unpack _); vm_compute; exact I|]).
  lia.
Qed.

(** X2. The window is today and the three days after it, by name: four
    different weekday names, the same window again seven days later. *)
Theorem getNextFourDays_rolling_window (now : Z) :
  getNextFourDays now
  = [weekday_long now; weekday_long (now + 1); weekday_long (now + 2); weekday_long (now + 3)]
  ∧ NoDup (getNextFourDays now)
  ∧ (∀ d, d ∈ getNextFourDays now → d ∈ weekday_names)
  ∧ getNextFourDays (now + 7) = getNextFourDays now.
Proof.
  split; [apply getNextFourDays_unfold|].
  split; [apply getNextFourDays_distinct|]. split.
  - intros d. apply getNextFourDays_weekdays.
  - rewrite (getNextFourDays_mod (now + 7)), (getNextFourDays_mod now).
    f_equal. rewrite <- (Z.mul_1_l 7) at 1. apply Z.mod_add. lia.
Qed.

(** X3. At any time [validateDay] accepts four of the seven weekday
    names, spelled as [toLocaleDateString] spells them, and nothing
    else. *)
Theorem validateDay_four_of_seven (now : Z) :
  (∀ d, validateDay now d = true → d ∈ weekday_names)
  ∧ length (List.filter (validateDay now) weekday_names) = 4%nat
  ∧ validateDay now (weekday_long now) = true.
Proof.
  split; [|split].
  - intros d Hd. apply bool_decide_eq_true in Hd.
    apply (getNextFourDays_weekdays now). assumption.
  - unfold validateDay. rewrite getNextFourDays_mod.
    destruct (day_of_week_cases now) as (k & Hk & ->).
    do 7 (destruct k as [|k]; [vm_compute; reflexivity|]). lia.
  - apply bool_decide_eq_true. rewrite getNextFourDays_unfold. left.
Qed.

(** ** The schema and the rejections before the browser starts *)

Section Schema.
Context {W : Type} `{Runtime W}.
Variable cfg : Config.

Lemma Joi_string_plain key pattern v s :
  Joi_string_required key None pattern v = inr s ↔
  v = Some (VString s) ∧ s ≠ ""
  ∧ match pattern with Some rx => rx s = true | None => True end.
Proof.
  unfold Joi_string_required. split.
  - destruct v as [[| | |t|]|]; try discriminate.
    destruct (String.eqb t "") eqn:E; [discriminate|].
    apply String.eqb_neq in E.
    destruct pattern as [rx|].
    + destruct (rx t) eqn:Hrx; [|discriminate]. intros [= ->]. auto.
    + intros [= ->]. auto.
  - intros (-> & Hne & Hrx). apply String.eqb_neq in Hne. rewrite Hne.
    destruct pattern; [rewrite Hrx|]; reflexivity.
Qed.

Lemma Joi_string_valid key allowed pattern v s :
  Joi_string_required key (Some allowed) pattern v = inr s ↔
  v = Some (VString s) ∧ s ∈ allowed.
Proof.
  unfold Joi_string_required. split.
  - destruct v as [[| | |t|]|]; try discriminate.
    case_bool_decide; [|discriminate]. intros [= ->]. auto.
  - intros (-> & Hin). rewrite bool_decide_eq_true_2 by assumption. reflexivity.
Qed.

Lemma Joi_number_integer key v z :
  Joi_number_integer_required key v = inr z ↔
  denotes v z ∧ (- MAX_SAFE_INTEGER ≤ z ≤ MAX_SAFE_INTEGER)%Z.
Proof.
  unfold Joi_number_integer_required, denotes. split.
  - destruct v as [v|]; [|discriminate].
    destruct v as [| |n|t|]; try discriminate.
    + destruct n as [z'| |]; try discriminate.
      destruct (_ || _) eqn:E; [discriminate|]. intros [= ->].
      apply orb_false_iff in E as [E1 E2].
      apply Z.ltb_ge in E1, E2. split; [left; reflexivity|lia].
    + destruct (number_of_string t) as [n|] eqn:Hn; [|discriminate].
      destruct n as [z'| |]; try discriminate.
      destruct (_ || _) eqn:E; [discriminate|]. intros [= ->].
      apply orb_false_iff in E as [E1 E2].
      apply Z.ltb_ge in E1, E2. split; [right; eauto|lia].
  - intros [[->|(t & -> & Hn)] Hz]; [|rewrite Hn];
      (destruct (_ || _) eqn:E; [|reflexivity]);
      apply orb_true_iff in E as [E|E]; apply Z.ltb_lt in E; lia.
Qed.

Lemma reservationSchema_accepted loaded body v :
  reservationSchema loaded body = inr (Some v) ↔ accepted_as loaded body v.
Proof.
  unfold reservationSchema, accepted_as. split.
  - destruct body as [fields| |]; [|discriminate|discriminate].
    destruct (Joi_string_required "day" _ _ _) as [?|day] eqn:Hday; [discriminate|].
    destruct (Joi_number_integer_required _ _) as [?|courtNumber] eqn:Hcourt; [discriminate|].
    destruct (Joi_string_required "startTime" _ _ _) as [?|startTime] eqn:Hstart; [discriminate|].
    destruct (Joi_string_required "partnerName" _ _ _) as [?|partnerName] eqn:Hname; [discriminate|].
    destruct (Joi_string_required "partnerMembershipNumber" _ _ _) as [?|number] eqn:Hnumber;
      [discriminate|].
    case_bool_decide as Hkeys; [|discriminate]. intros [= <-]. simpl.
    apply Joi_string_valid in Hday as [? ?].
    apply Joi_number_integer in Hcourt as [? ?].
    apply Joi_string_plain in Hstart as (? & ? & Hrx). apply TimeRegex_test_clock in Hrx.
    apply Joi_string_plain in Hname as (? & ? & _).
    apply Joi_string_plain in Hnumber as (? & ? & _).
    exists fields. repeat (split; [assumption || reflexivity|]).
    intros k [x Hk]. exact (Hkeys k x Hk).
  - intros (fields & -> & Hday & Hin & Hcourt & Hrange & Hstart & Hclock & Hname & Hne
            & Hnumber & Hne' & Hkeys).
    apply TimeRegex_test_clock in Hclock.
    assert (r_startTime v ≠ "") by (intros E; rewrite E in Hclock; discriminate).
    rewrite (proj2 (Joi_string_valid "day" _ None _ (r_day v))) by auto.
    rewrite (proj2 (Joi_number_integer "courtNumber" _ (r_courtNumber v))) by auto.
    rewrite (proj2 (Joi_string_plain "startTime" (Some TimeRegex.test) _ (r_startTime v))) by (simpl; auto).
    rewrite (proj2 (Joi_string_plain "partnerName" None _ (r_partnerName v))) by (simpl; auto).
    rewrite (proj2 (Joi_string_plain "partnerMembershipNumber" None _
                      (r_partnerMembershipNumber v))) by (simpl; auto).
    rewrite bool_decide_eq_true_2; [destruct v; reflexivity|].
    intros k x Hk. apply Hkeys. eauto.
Qed.

(** Validation passes without a value for [undefined] only. *)
Lemma reservationSchema_no_value loaded body :
  reservationSchema loaded body = inr None ↔ body = BodyUndefined.
Proof.
  split; [|intros ->; reflexivity].
  destruct body as [fields| |]; [|discriminate|reflexivity].
  unfold reservationSchema.
  repeat match goal with
         | |- context [match ?x with inl _ => _ | inr _ => _ end] =>
             destruct x; [discriminate|]
         end.
  case_bool_decide; discriminate.
Qed.

(** The key an unknown-key error names is not one the schema declares. *)
Lemma undeclared_head (fields : gmap string FieldValue) :
  default "" (head (undeclared fields)) ∉ schema_keys.
Proof.
  destruct (head (undeclared fields)) as [k|] eqn:Hhead; simpl.
  - apply head_Some_elem_of, list_elem_of_In, filter_In in Hhead as [_ Hk].
    apply negb_true_iff, bool_decide_eq_false in Hk. exact Hk.
  - apply (bool_decide_unpack _). vm_compute. exact I.
Qed.


(** X5. The schema hands back a value exactly for an object with the
    five keys and no other, whose day is a name of the window of the
    load day, whose court number is a safe integer (or a string that
    converts to one), whose start time is a clock time and whose
    partner fields are strings that are not empty; the value holds
    those fields. *)
Theorem reservationSchema_accepts_exactly (loaded : Z) (body : ReqBody) (v : Reservation) :
  reservationSchema loaded body = inr (Some v) ↔ accepted_as loaded body v.
Proof. apply reservationSchema_accepted. Qed.

(** X6. The schema asks nothing of the sign of the court number: a
    body it accepts is accepted with any other safe integer as its
    court number, zero and the negative ones included. *)
Theorem reservationSchema_any_safe_court (loaded : Z) fields (v : Reservation) (z : Z) :
  reservationSchema loaded (BodyObject fields) = inr (Some v) →
  (- MAX_SAFE_INTEGER ≤ z ≤ MAX_SAFE_INTEGER)%Z →
  reservationSchema loaded (BodyObject (<["courtNumber" := VNumber (Integral z)]> fields))
  = inr (Some (mkReservation (r_day v) z (r_startTime v) (r_partnerName v)
                 (r_partnerMembershipNumber v))).
Proof.
  intros Hv Hz. apply reservationSchema_accepted in Hv.
  destruct Hv as (fields' & [= <-] & Hday & Hin & Hcourt & Hrange & Hstart & Hclock & Hname
                  & Hne & Hnumber & Hne' & Hkeys).
  apply reservationSchema_accepted. eexists. split; [reflexivity|]. simpl.
  rewrite lookup_insert_eq, !lookup_insert_ne by discriminate.
  repeat (split; [first [assumption | left; reflexivity | lia]|]).
  intros k [x Hk]. destruct (decide (k = "courtNumber")) as [->|Hne''].
  - apply (bool_decide_unpack _). vm_compute. exact I.
  - rewrite lookup_insert_ne in Hk by congruence. apply Hkeys. eauto.
Qed.

(** X4. The reserve route checks the day against the window of the day
    the script was loaded, whatever day the request is made on: a day
    outside that window is answered 400 with Joi's error on [day], and
    for a day inside it the schema has no complaint about [day]. *)
Theorem reserve_route_window_of_load_day (loaded : Z) fields (d : string) (s : State W) :
  fields !! "day" = Some (VString d) →
  (d ∉ getNextFourDays loaded →
   reserve_court_route cfg loaded (BodyObject fields) s
   = (Ok (), answered 400 (ValidationMessage (mkJoiError "day" any_only)) s))
  ∧ (d ∈ getNextFourDays loaded →
     ∀ e, reservationSchema loaded (BodyObject fields) = inl e → joi_key e ≠ "day").
Proof.
  intros Hday. split.
  - intros Hout. unfold reserve_court_route, reservationSchema, Joi_string_required.
    rewrite Hday. rewrite bool_decide_eq_false_2 by assumption. reflexivity.
  - intros Hin e. unfold reservationSchema.
    rewrite (proj2 (Joi_string_valid "day" _ None _ d)) by auto.
    destruct (Joi_number_integer_required _ _) as [e'|?] eqn:E1.
    { intros [= <-]. unfold Joi_number_integer_required in E1.
      repeat match type of E1 with
             | context [match ?x with _ => _ end] => destruct x
             end; first [discriminate | injection E1 as <-; simpl; discriminate]. }
    repeat match goal with
           | |- context [Joi_string_required ?k None ?p ?x] =>
               let E := fresh "E" in
               destruct (Joi_string_required k None p x) as [?|?] eqn:E;
               [intros [= <-]; unfold Joi_string_required in E;
                repeat match type of E with
                       | context [match ?y with _ => _ end] => destruct y
                       end; first [discriminate | injection E as <-; simpl; discriminate]|]
           end.
    case_bool_decide; [discriminate|]. intros [= <-]. simpl.
    intros Hkey. apply (undeclared_head fields). rewrite Hkey.
    apply (bool_decide_unpack _). vm_compute. exact I.
Qed.

(** X7. What the reserve route does before the browser is launched.
    A body that was parsed and is not an object, or whose start time
    is not a clock time, whose court number does not read as an
    integer, or whose partner name or membership number is not a
    non-empty string, is answered 400 with Joi's message; the world
    and the trace are as they were, so no browser was launched.  A
    request whose body is [undefined] passes validation with no error
    and no value, and the route throws when it takes the value apart:
    nothing is answered by the route and no browser was launched. *)
Theorem reserve_route_rejects_before_launch (loaded : Z) (body : ReqBody) (s : State W) :
  (body ≠ BodyUndefined →
   (∀ fields, body = BodyObject fields →
      ¬ (∃ t, fields !! "startTime" = Some (VString t) ∧ is_clock_time t)
      ∨ ¬ (∃ z, denotes (fields !! "courtNumber") z)
      ∨ ¬ nonempty_string (fields !! "partnerName")
      ∨ ¬ nonempty_string (fields !! "partnerMembershipNumber")) →
   ∃ e, reserve_court_route cfg loaded body s
        = (Ok (), answered 400 (ValidationMessage e) s))
  ∧ (body = BodyUndefined →
     reservationSchema loaded body = inr None
     ∧ reserve_court_route cfg loaded body s
       = (Throw (DestructureError "day" "value"), s)).
Proof.
  split.
  - intros Hdefined Hbad. unfold reserve_court_route.
    destruct (reservationSchema loaded body) as [e|[v|]] eqn:Hv; [exists e; reflexivity| |].
    + exfalso. apply reservationSchema_accepted in Hv.
      destruct Hv as (fields & -> & Hday & Hin & Hcourt & Hrange & Hstart & Hclock & Hname
                      & Hne & Hnumber & Hne' & Hkeys).
      destruct (Hbad fields eq_refl) as [Hb|[Hb|[Hb|Hb]]]; apply Hb;
        unfold nonempty_string; eauto.
    + apply reservationSchema_no_value in Hv. contradiction.
  - intros ->. split; reflexivity.
Qed.

(** X8. The open-courts route answers 400 when [day] is missing, empty,
    not a string, or not accepted by [validateDay] at the time of the
    request; the world and the trace are as they were.  The message
    says that the parameter is required exactly when it is missing or
    empty. *)
Theorem open_courts_route_rejects_before_launch (day : option QueryValue) (s : State W) :
  (∀ d, day = Some (QString d) → validateDay (today (world s)) d = false) →
  ∃ msg, open_courts_route cfg day s = (Ok (), answered 400 (ErrorText msg) s)
         ∧ (msg = "Day parameter is required" ↔ day = None ∨ day = Some (QString "")).
Proof.
  intros Hday. destruct day as [[d|]|].
  - destruct d as [|c d].
    + eexists. split; [reflexivity|]. split; auto.
    + specialize (Hday _ eq_refl). eexists. unfold open_courts_route, bind, clock.
      rewrite Hday. split; [reflexivity|].
      split; [discriminate|]. intros [?|?]; discriminate.
  - eexists. split; [reflexivity|]. split; [discriminate|]. intros [?|?]; discriminate.
  - eexists. split; [reflexivity|]. split; auto.
Qed.

End Schema.

Lemma reservationSchema_any_safe_court_witness :
  reservationSchema 4 (BodyObject (sample_fields "Monday" 1))
  = inr (Some (mkReservation "Monday" 1 "9:00 AM" "Pat" "2002"))
  ∧ (- MAX_SAFE_INTEGER ≤ -3 ≤ MAX_SAFE_INTEGER)%Z
  ∧ reservationSchema 4
      (BodyObject (<["courtNumber" := VNumber (Integral (-3))]> (sample_fields "Monday" 1)))
    = inr (Some (mkReservation "Monday" (-3) "9:00 AM" "Pat" "2002")).
Proof.
  assert (H1 : reservationSchema (H:=Sim.runtime) 4 (BodyObject (sample_fields "Monday" 1))
               = inr (Some (mkReservation "Monday" 1 "9:00 AM" "Pat" "2002")))
    by (vm_compute; reflexivity).
  assert (H2 : (- MAX_SAFE_INTEGER ≤ -3 ≤ MAX_SAFE_INTEGER)%Z) by (vm_compute; split; discriminate).
  split; [exact H1|]. split; [exact H2|].
  exact (reservationSchema_any_safe_court 4 _ _ (-3) H1 H2).
Defined.

Lemma reserve_route_window_of_load_day_witness :
  validateDay (today (world (Sim.start (site_on 5) ∅))) "Friday" = true
  ∧ reserve_court_route Sim.config 4 (BodyObject (sample_fields "Friday" 1))
      (Sim.start (site_on 5) ∅)
    = (Ok (), answered 400 (ValidationMessage (mkJoiError "day" any_only))
                (Sim.start (site_on 5) ∅))
  ∧ validateDay (today (world (Sim.start (site_on 5) ∅))) "Monday" = false
  ∧ reservationSchema 4 (BodyObject (sample_fields "Monday" 1))
    = inr (Some (mkReservation "Monday" 1 "9:00 AM" "Pat" "2002")).
Proof.
  split; [reflexivity|]. split.
  - apply (reserve_route_window_of_load_day Sim.config 4 (sample_fields "Friday" 1) "Friday").
    + vm_compute. reflexivity.
    + apply (bool_decide_unpack _). vm_compute. exact I.
  - split; [reflexivity|]. vm_compute. reflexivity.
Defined.

Lemma reserve_route_rejects_before_launch_witness :
  (∃ e, reserve_court_route Sim.config 4
          (BodyObject (<["startTime" := VString "25:00 AM"]> (sample_fields "Monday" 1)))
          (Sim.start Sim.site ∅)
        = (Ok (), answered 400 (ValidationMessage e) (Sim.start Sim.site ∅)))
  ∧ reserve_court_route Sim.config 4 BodyUndefined (Sim.start Sim.site ∅)
    = (Throw (mkError "Cannot destructure property 'day' of 'value' as it is undefined."),
       Sim.start Sim.site ∅).
Proof.
  split.
  - apply (proj1 (reserve_route_rejects_before_launch Sim.config 4 _ (Sim.start Sim.site ∅)));
      [discriminate|].
    intros fields [= <-]. left. intros (t & Ht & Hclock).
    rewrite lookup_insert_eq in Ht. injection Ht as <-.
    apply TimeRegex_test_clock in Hclock. discriminate.
  - exact (proj2 (proj2 (reserve_route_rejects_before_launch Sim.config 4 BodyUndefined
                           (Sim.start Sim.site ∅)) eq_refl)).
Defined.

Lemma open_courts_route_rejects_before_launch_witness :
  ∃ msg, open_courts_route Sim.config (Some (QString "monday")) (Sim.start Sim.site ∅)
         = (Ok (), answered 400 (ErrorText msg) (Sim.start Sim.site ∅))
         ∧ (msg = "Day parameter is required"
            ↔ Some (QString "monday") = None ∨ Some (QString "monday") = Some (QString "")).
Proof.
  apply open_courts_route_rejects_before_launch.
  intros d [= <-]. reflexivity.
Defined.

(** ** First matches *)

Lemma head_positions_from {A} (p : A → bool) l : ∀ k i,
  head (imap (λ j x, ((k + j)%nat, x)) l ≫= (λ ix, if p ix.2 then [ix.1] else [])) = Some i ↔
  ∃ n, i = (k + n)%nat
       ∧ (∃ x, l !! n = Some x ∧ p x = true)
       ∧ (∀ j y, (j < n)%nat → l !! j = Some y → p y = false).
Proof.
  induction l as [|x l IH]; intros k i.
  - split; [discriminate|]. intros (n & _ & (y & Hy & _) & _). discriminate.
  - rewrite imap_cons, bind_cons. cbn [fst snd].
    assert (E : imap ((λ j y, ((k + j)%nat, y)) ∘ S) l = imap (λ j y, ((S k + j)%nat, y)) l).
    { apply imap_ext. intros j y _. simpl. f_equal. lia. }
    rewrite E. clear E. destruct (p x) eqn:Hp.
    + cbn [app head]. rewrite Nat.add_0_r. split.
      * intros [= <-]. exists 0%nat. rewrite Nat.add_0_r.
        split; [reflexivity|]. split; [eauto|]. intros; lia.
      * intros (n & -> & (y & Hy & Hpy) & Hfirst). destruct n as [|n].
        { rewrite Nat.add_0_r. reflexivity. }
        specialize (Hfirst 0%nat x ltac:(lia) eq_refl). congruence.
    + rewrite app_nil_l, IH. split.
      * intros (n & -> & (y & Hy & Hpy) & Hfirst). exists (S n).
        split; [lia|]. split; [eauto|]. intros [|j] z Hj Hz.
        { injection Hz as <-. assumption. }
        apply (Hfirst j z); [lia|assumption].
      * intros (n & -> & (y & Hy & Hpy) & Hfirst). destruct n as [|n].
        { injection Hy as <-. congruence. }
        exists n. split; [lia|]. split; [eauto|]. intros j z Hj Hz.
        apply (Hfirst (S j) z); [lia|assumption].
Qed.

(** The first handle of [page.$$]: the first element, in document
    order, that satisfies [p]. *)
Lemma head_positions_Some {A} (p : A → bool) (l : list A) i :
  head (positions p l) = Some i ↔
  (∃ x, l !! i = Some x ∧ p x = true)
  ∧ (∀ j y, (j < i)%nat → l !! j = Some y → p y = false).
Proof.
  unfold positions. rewrite (head_positions_from p l 0 i). split.
  - intros (n & -> & ?). assumption.
  - intros ?. exists i. auto.
Qed.

Lemma head_positions_from_None {A} (p : A → bool) l : ∀ k,
  head (imap (λ j x, ((k + j)%nat, x)) l ≫= (λ ix, if p ix.2 then [ix.1] else [])) = None ↔
  Forall (λ x, p x = false) l.
Proof.
  induction l as [|x l IH]; intros k.
  - split; [constructor|reflexivity].
  - rewrite imap_cons, bind_cons. cbn [fst snd].
    assert (E : imap ((λ j y, ((k + j)%nat, y)) ∘ S) l = imap (λ j y, ((S k + j)%nat, y)) l).
    { apply imap_ext. intros j y _. simpl. f_equal. lia. }
    rewrite E. clear E. rewrite Forall_cons. destruct (p x) eqn:Hp.
    + cbn [app head]. split; [discriminate|]. intros [? _]. discriminate.
    + rewrite app_nil_l, IH. tauto.
Qed.

Lemma head_positions_None {A} (p : A → bool) (l : list A) :
  head (positions p l) = None ↔ Forall (λ x, p x = false) l.
Proof. unfold positions. apply (head_positions_from_None p l 0). Qed.

(** ** The slot lookup *)

Section Slot.
Context {W : Type} `{Runtime W}.

Lemma find_slot_row_none rows : ∀ r startTime (s : State W),
  Forall (other_time startTime) rows →
  find_slot_row r rows startTime s = (Ok None, s).
Proof.
  induction rows as [|row rows IH]; intros r startTime s Hrows; [reflexivity|].
  apply Forall_cons in Hrows as [(label & Hl & Hne) Hrows].
  unfold time_label in Hl. simpl. destruct (head row) as [c|]; [|discriminate].
  injection Hl as <-. apply String.eqb_neq in Hne. rewrite Hne. apply IH. assumption.
Qed.

Lemma find_slot_row_found above : ∀ r row below startTime (s : State W),
  Forall (other_time startTime) above → time_label row = Some startTime →
  find_slot_row r (above ++ row :: below) startTime s
  = (Ok (Some ((r + length above)%nat, row)), s).
Proof.
  induction above as [|x above IH]; intros r row below startTime s Habove Hrow.
  - unfold time_label in Hrow. simpl. destruct (head row) as [c|]; [|discriminate].
    injection Hrow as Hrow. rewrite Hrow, String.eqb_refl, Nat.add_0_r. reflexivity.
  - apply Forall_cons in Habove as [(label & Hl & Hne) Habove].
    unfold time_label in Hl. simpl. destruct (head x) as [c|]; [|discriminate].
    injection Hl as <-. apply String.eqb_neq in Hne. rewrite Hne.
    rewrite IH by assumption. simpl length. rewrite Nat.add_succ_r. reflexivity.
Qed.

Lemma find_slot_row_no_cell above : ∀ r below startTime (s : State W),
  Forall (other_time startTime) above →
  find_slot_row r (above ++ [] :: below) startTime s
  = (Throw (TypeError "null" "evaluate"), s).
Proof.
  induction above as [|x above IH]; intros r below startTime s Habove; [reflexivity|].
  apply Forall_cons in Habove as [(label & Hl & Hne) Habove].
  unfold time_label in Hl. simpl. destruct (head x) as [c|]; [|discriminate].
  injection Hl as <-. apply String.eqb_neq in Hne. rewrite Hne. apply IH. assumption.
Qed.

Lemma find_court_index_none headers : ∀ i courtNumber,
  Forall (λ h, names_court courtNumber h = false) headers →
  find_court_index i headers courtNumber = None.
Proof.
  induction headers as [|h headers IH]; intros i courtNumber Hh; [reflexivity|].
  apply Forall_cons in Hh as [Hh Hrest]. unfold names_court in Hh.
  simpl. rewrite Hh. apply IH. assumption.
Qed.

Lemma find_court_index_found left : ∀ i h right courtNumber,
  Forall (λ h', names_court courtNumber h' = false) left →
  names_court courtNumber h = true →
  find_court_index i (left ++ h :: right) courtNumber = Some (i + length left)%nat.
Proof.
  induction left as [|x left IH]; intros i h right courtNumber Hleft Hh.
  - unfold names_court in Hh. simpl. rewrite Hh, Nat.add_0_r. reflexivity.
  - apply Forall_cons in Hleft as [Hx Hleft]. unfold names_court in Hx.
    simpl. rewrite Hx. rewrite IH by assumption. rewrite Nat.add_succ_r. reflexivity.
Qed.

Lemma findAndClickSlot_at_row courtNumber startTime (s : State W) r row :
  first_row_at (slots_data (document (world s))) startTime r row →
  findAndClickSlot courtNumber startTime s
  = match find_court_index 1 (drop 1 (slots_head (document (world s)))) courtNumber with
    | None =>
        (Ok false,
         record (Console LLog ("Court number " +:+ Js.dq +:+ Js.string_of_Z courtNumber
                                 +:+ Js.dq +:+ " not found.") None) s)
    | Some courtIndex =>
        match row !! courtIndex with
        | None => (Throw (TypeError "undefined" "evaluate"), s)
        | Some targetCell =>
            if is_open targetCell then
              (act (Click (CellEl r courtIndex));; ret true)%script s
            else
              (Ok false,
               record (Console LLog ("Slot at " +:+ startTime +:+ " on court "
                                       +:+ Js.string_of_Z courtNumber +:+ " is not open.")
                         None) s)
        end
    end.
Proof.
  intros (above & below & Hrows & <- & Habove & Hrow).
  unfold findAndClickSlot, bind at 1, the_document. unfold bind at 1.
  rewrite Hrows, find_slot_row_found by assumption. simpl Nat.add.
  destruct (find_court_index _ _ _) as [courtIndex|]; [|reflexivity].
  destruct (row !! courtIndex) as [targetCell|]; [|reflexivity].
  destruct (is_open targetCell); reflexivity.
Qed.

Lemma prefix_append x : ∀ q, String.prefix x (x +:+ q) = true.
Proof.
  induction x as [|a x IH]; intros q; [destruct q; reflexivity|].
  rewrite append_cons. simpl. destruct (ascii_dec a a); [apply IH|congruence].
Qed.

Lemma includes_append p : ∀ x q, Js.includes (p +:+ x +:+ q) x = true.
Proof.
  induction p as [|a p IH]; intros x q.
  - rewrite append_nil. pose proof (prefix_append x q) as Hp.
    destruct (x +:+ q); cbn [Js.includes]; rewrite Hp; reflexivity.
  - rewrite append_cons. cbn [Js.includes]. rewrite IH. apply orb_true_r.
Qed.

(** X9. Every row of the table has a first cell and none is labelled
    with the start time: [findAndClickSlot] prints that the start time
    was not found and returns false.  The rows were read and nothing
    else was asked of the page: the printed line is all the trace
    gains, so there was no click, no wait and no navigation. *)
Theorem findAndClickSlot_no_row (courtNumber : Z) (startTime : string) (s : State W) :
  Forall (other_time startTime) (slots_data (document (world s))) →
  findAndClickSlot courtNumber startTime s
  = (Ok false,
     record (Console LLog ("Start time " +:+ Js.dq +:+ startTime +:+ Js.dq +:+ " not found.")
               None) s).
Proof.
  intros Hrows. unfold findAndClickSlot, bind at 1, the_document. unfold bind at 1.
  rewrite find_slot_row_none by assumption. reflexivity.
Qed.

(** X10. A row is labelled with the start time, the rows above it
    all have a first cell, and no header past the time column names
    the court: [findAndClickSlot] prints that the court was not found
    and returns false.  The rows and the headers were read and nothing
    else was asked of the page: the printed line is all the trace
    gains, so there was no click, no wait and no navigation. *)
Theorem findAndClickSlot_no_column (courtNumber : Z) (startTime : string) (s : State W) r row :
  first_row_at (slots_data (document (world s))) startTime r row →
  Forall (λ h, names_court courtNumber h = false) (drop 1 (slots_head (document (world s)))) →
  findAndClickSlot courtNumber startTime s
  = (Ok false,
     record (Console LLog ("Court number " +:+ Js.dq +:+ Js.string_of_Z courtNumber
                             +:+ Js.dq +:+ " not found.") None) s).
Proof.
  intros Hrow Hcols. rewrite (findAndClickSlot_at_row _ _ _ _ _ Hrow).
  rewrite find_court_index_none by assumption. reflexivity.
Qed.


(** X12. A table that is not a grid makes [findAndClickSlot] throw
    where it would return false: a row without cells above the wanted
    one, because the time cell is null, and a wanted row that is
    shorter than the court's column, because the target cell is
    undefined.  Nothing is printed or clicked. *)
Theorem findAndClickSlot_ragged_table (courtNumber : Z) (startTime : string) (s : State W) :
  (∀ above below,
     slots_data (document (world s)) = above ++ [] :: below →
     Forall (other_time startTime) above →
     findAndClickSlot courtNumber startTime s = (Throw (TypeError "null" "evaluate"), s))
  ∧ (∀ r row i,
       first_row_at (slots_data (document (world s))) startTime r row →
       first_column_at (slots_head (document (world s))) courtNumber i →
       row !! i = None →
       findAndClickSlot courtNumber startTime s = (Throw (TypeError "undefined" "evaluate"), s)).
Proof.
  split.
  - intros above below Hrows Habove.
    unfold findAndClickSlot, bind at 1, the_document. unfold bind at 1.
    rewrite Hrows, find_slot_row_no_cell by assumption. reflexivity.
  - intros r row i Hrow (left & h & right & Hheaders & -> & Hleft & Hh) Hcell.
    rewrite (findAndClickSlot_at_row _ _ _ _ _ Hrow).
    rewrite Hheaders, find_court_index_found by assumption. simpl Nat.add. rewrite Hcell.
    reflexivity.
Qed.

(** X13. The court is looked up by containment: the first header past
    the time column whose trimmed text has [Court <n>] anywhere in it
    is taken, whatever comes before or after, so a header that
    continues with another digit is taken for court [n] too. *)
Theorem find_court_index_by_containment (courtNumber : Z) headers left h right before after :
  drop 1 headers = left ++ h :: right →
  Forall (λ h', names_court courtNumber h' = false) left →
  Js.trim h = before +:+ ("Court " +:+ Js.string_of_Z courtNumber) +:+ after →
  find_court_index 1 (drop 1 headers) courtNumber = Some (S (length left)).
Proof.
  intros Hheaders Hleft Htrim. rewrite Hheaders.
  rewrite find_court_index_found; [reflexivity|assumption|].
  unfold names_court. rewrite Htrim. apply includes_append.
Qed.

End Slot.

Ltac forall_other_time :=
  repeat (apply Forall_cons; split;
          [eexists; split; [reflexivity|discriminate]|]);
  apply Forall_nil_2.

Lemma first_row_nine :
  first_row_at (slots_data (document (world (Sim.start Sim.site ∅)))) "9:00 AM" 0
    [ Sim.cell " 9:00 AM " [] None; Sim.cell "" ["slot"; "open"] (Some "9:00 AM");
      Sim.cell "" ["slot"; "booked"] None ].
Proof. eexists [], _. repeat split; [constructor]. Qed.

Lemma findAndClickSlot_no_row_witness :
  Forall (other_time "11:00 AM") (slots_data (document (world (Sim.start Sim.site ∅))))
  ∧ (findAndClickSlot 1 "11:00 AM" (Sim.start Sim.site ∅)).1 = Ok false.
Proof.
  assert (Hrows : Forall (other_time "11:00 AM")
                    (slots_data (document (world (Sim.start Sim.site ∅)))))
    by (simpl; forall_other_time).
  split; [exact Hrows|].
  rewrite (findAndClickSlot_no_row 1 "11:00 AM" _ Hrows). reflexivity.
Defined.

Lemma findAndClickSlot_no_column_witness :
  Forall (λ h, names_court 3 h = false)
    (drop 1 (slots_head (document (world (Sim.start Sim.site ∅)))))
  ∧ (findAndClickSlot 3 "9:00 AM" (Sim.start Sim.site ∅)).1 = Ok false.
Proof.
  assert (Hcols : Forall (λ h, names_court 3 h = false)
                    (drop 1 (slots_head (document (world (Sim.start Sim.site ∅))))))
    by (repeat constructor).
  split; [exact Hcols|].
  rewrite (findAndClickSlot_no_column 3 "9:00 AM" _ _ _ first_row_nine Hcols). reflexivity.
Defined.


Lemma findAndClickSlot_ragged_table_witness :
  (findAndClickSlot 1 "10:00 AM" (Sim.start (ragged_site []) ∅)).1
    = Throw (TypeError "null" "evaluate")
  ∧ (findAndClickSlot 2 "10:00 AM"
       (Sim.start (ragged_site [Sim.cell "9:00 AM" [] None]) ∅)).1
    = Throw (TypeError "undefined" "evaluate").
Proof.
  split.
  - destruct (findAndClickSlot_ragged_table 1 "10:00 AM" (Sim.start (ragged_site []) ∅))
      as [Hnull _].
    rewrite (Hnull [] _ eq_refl (Forall_nil_2 _)). reflexivity.
  - destruct (findAndClickSlot_ragged_table 2 "10:00 AM"
                (Sim.start (ragged_site [Sim.cell "9:00 AM" [] None]) ∅)) as [_ Hundef].
    rewrite (Hundef 1%nat [Sim.cell "10:00 AM" [] None; Sim.cell "" ["open"] (Some "10:00 AM")]
               2%nat).
    + reflexivity.
    + exists [[Sim.cell "9:00 AM" [] None]], []. repeat split. forall_other_time.
    + exists ["Court 1"], "Court 2", []. repeat split; repeat constructor.
    + reflexivity.
Defined.

Lemma find_court_index_by_containment_witness :
  find_court_index 1 (drop 1 ["Time"; "Court 2"; "Court 10"; "Court 1"]) 1 = Some 2%nat.
Proof.
  apply (find_court_index_by_containment 1 ["Time"; "Court 2"; "Court 10"; "Court 1"]
           ["Court 2"] "Court 10" ["Court 1"] "" "0").
  - reflexivity.
  - repeat constructor.
  - reflexivity.
Defined.

(** ** What a run adds to the trace *)

Section Traces2.
Context {W : Type} `{Runtime W}.

Lemma grows_assoc {A B C} p k (m : M W A) (f : A → M W B) (g : B → M W C) :
  grows p k (bind m (λ a, bind (f a) g)) → grows p k (bind (bind m f) g).
Proof. intros Hm s. rewrite bind_bind. apply Hm. Qed.

Lemma grows_find_slot_row p r rows startTime :
  grows p 0 (find_slot_row r rows startTime : M W _).
Proof. apply grows_silent. intros s. rewrite find_slot_row_same. reflexivity. Qed.

Lemma grows_extract_rows p rows courtsData :
  grows p 0 (extract_rows rows courtsData : M W _).
Proof. apply grows_silent. intros s. rewrite extract_rows_same. reflexivity. Qed.

Lemma grows_the_document p : grows p 0 (the_document : M W Dom).
Proof. apply grows_silent. reflexivity. Qed.

Lemma grows_set_openCourts p v : grows p 0 (set_openCourts v : M W unit).
Proof. apply grows_silent. reflexivity. Qed.

Lemma grows_get_openCourts p : grows p 0 (get_openCourts : M W _).
Proof. apply grows_silent. reflexivity. Qed.

Lemma grows_clock p : grows p 0 (clock : M W Z).
Proof. apply grows_silent. reflexivity. Qed.

Lemma grows_send p code payload : grows p 0 (send code payload : M W unit).
Proof. apply grows_silent. reflexivity. Qed.

Lemma grows_fs_existsSync p path : grows p 0 (fs_existsSync path : M W bool).
Proof. apply grows_silent. reflexivity. Qed.

Lemma grows_fs_writeFileSync p path content :
  grows p 0 (fs_writeFileSync path content : M W unit).
Proof. apply grows_silent. reflexivity. Qed.

Lemma grows_try_catch_split {A} p k1 k (body : M W A) handler :
  grows p k1 body → (k1 ≤ k)%nat → (∀ e, grows p (k - k1) (handler e)) →
  grows p k (try_catch body handler).
Proof.
  intros Hm Hle Hf s. unfold try_catch. specialize (Hm s).
  destruct (body s) as [[a|e] s']; simpl in *; [lia|].
  specialize (Hf e s'). lia.
Qed.

Lemma grows_try_finally_split {A} p k1 k (body : M W A) cleanup :
  grows p k1 body → (k1 ≤ k)%nat → grows p (k - k1) cleanup →
  grows p k (try_finally body cleanup).
Proof.
  intros Hm Hle Hf s. unfold try_finally. specialize (Hm s).
  destruct (body s) as [r s']. specialize (Hf s').
  destruct (cleanup s') as [[?|?] s'']; simpl in *; lia.
Qed.

(** *** Scripts only add to the trace *)

Lemma appends_silent {A} (m : M W A) : (∀ s, trace (m s).2 = trace s) → appends m.
Proof. intros Hm s. exists []. rewrite Hm, app_nil_r. reflexivity. Qed.

Lemma appends_ret {A} (a : A) : appends (ret a : M W A).
Proof. apply appends_silent. reflexivity. Qed.

Lemma appends_throw {A} e : appends (throw e : M W A).
Proof. apply appends_silent. reflexivity. Qed.

Lemma appends_act a : appends (act a : M W unit).
Proof. intros s. unfold act. destruct (perform a (world s)). exists [Act a]. reflexivity. Qed.

Lemma appends_pause d : appends (pause d : M W unit).
Proof. intros s. exists [Sleep d]. reflexivity. Qed.

Lemma appends_console l t a : appends (console l t a : M W unit).
Proof. intros s. exists [Console l t a]. reflexivity. Qed.

Lemma appends_bind {A B} (m : M W A) (f : A → M W B) :
  appends m → (∀ a, appends (f a)) → appends (bind m f).
Proof.
  intros Hm Hf s. unfold bind. destruct (Hm s) as [evs Hevs].
  destruct (m s) as [[a|e] s']; simpl in *; [|eauto].
  destruct (Hf a s') as [evs' Hevs']. exists (evs ++ evs').
  rewrite Hevs', Hevs, app_assoc. reflexivity.
Qed.

Lemma appends_try_catch {A} (body : M W A) handler :
  appends body → (∀ e, appends (handler e)) → appends (try_catch body handler).
Proof.
  intros Hm Hf s. unfold try_catch. destruct (Hm s) as [evs Hevs].
  destruct (body s) as [[a|e] s']; simpl in *; [eauto|].
  destruct (Hf e s') as [evs' Hevs']. exists (evs ++ evs').
  rewrite Hevs', Hevs, app_assoc. reflexivity.
Qed.

Lemma appends_try_finally {A} (body : M W A) cleanup :
  appends body → appends cleanup → appends (try_finally body cleanup).
Proof.
  intros Hm Hf s. unfold try_finally. destruct (Hm s) as [evs Hevs].
  destruct (body s) as [r s']. destruct (Hf s') as [evs' Hevs'].
  exists (evs ++ evs'). simpl in *.
  destruct (cleanup s') as [[?|?] s'']; simpl in *; rewrite Hevs', Hevs, app_assoc; reflexivity.
Qed.

Lemma appends_retry_attempt {A} (fn : M W A) onRetry timeouts :
  appends fn → (∀ e, appends (onRetry e)) →
  ∀ attempt errors, appends (retry_attempt fn onRetry timeouts attempt errors).
Proof.
  intros Hfn Hon. induction timeouts as [|t IH]; intros attempt errors s.
  - simpl. destruct (Hfn s) as [evs Hevs]. destruct (fn s) as [[a|e] s']; eauto.
  - cbn [retry_attempt]. destruct (Hfn s) as [evs Hevs].
    destruct (fn s) as [[a|e] s']; [eauto|]. simpl in Hevs.
    assert (Hrest : appends (bind (onRetry e) (λ _, bind (pause (Backoff attempt))
                      (λ _, retry_attempt fn onRetry t (S attempt) (errors ++ [e]))))).
    { apply appends_bind; [apply Hon|]. intros _.
      apply appends_bind; [apply appends_pause|]. intros _. apply IH. }
    destruct (Hrest s') as [evs' Hevs']. exists (evs ++ evs').
    rewrite Hevs', Hevs, app_assoc. reflexivity.
Qed.

Lemma appends_retry {A} (fn : M W A) retries onRetry :
  appends fn → (∀ e, appends (onRetry e)) → appends (retry fn retries onRetry).
Proof. intros. apply appends_retry_attempt; assumption. Qed.

Lemma appends_find_slot_row r rows startTime :
  appends (find_slot_row r rows startTime : M W _).
Proof. apply appends_silent. intros s. rewrite find_slot_row_same. reflexivity. Qed.

Lemma appends_extract_rows rows courtsData : appends (extract_rows rows courtsData : M W _).
Proof. apply appends_silent. intros s. rewrite extract_rows_same. reflexivity. Qed.

Lemma appends_fs_readFileSync path : appends (fs_readFileSync path : M W string).
Proof.
  apply appends_silent. intros s. unfold fs_readFileSync.
  destruct (files s !! path); reflexivity.
Qed.

(** What was added holds no more marked events than the budget. *)
Lemma grows_appended {A} p k (m : M W A) s evs :
  grows p k m → trace (m s).2 = trace s ++ evs → (occurrences p evs ≤ k)%nat.
Proof.
  intros Hg Hevs. specialize (Hg s). rewrite Hevs, occurrences_app in Hg. lia.
Qed.

End Traces2.

Ltac grows_script := fail.

Ltac grows_known :=
  lazymatch goal with
  | |- grows _ _ (ret _) => apply grows_ret
  | |- grows _ _ (throw _) => apply grows_throw
  | |- grows _ _ (act _) => apply grows_act
  | |- grows _ _ (pause _) => apply grows_pause
  | |- grows _ _ (console _ _ _) => apply grows_console
  | |- grows _ _ (fs_readFileSync _) => apply grows_fs_readFileSync
  | |- grows _ _ page_cookies => apply grows_page_cookies
  | |- grows _ _ (find_slot_row _ _ _) => apply grows_find_slot_row
  | |- grows _ _ (extract_rows _ _) => apply grows_extract_rows
  | |- grows _ _ the_document => apply grows_the_document
  | |- grows _ _ (set_openCourts _) => apply grows_set_openCourts
  | |- grows _ _ get_openCourts => apply grows_get_openCourts
  | |- grows _ _ clock => apply grows_clock
  | |- grows _ _ (send _ _) => apply grows_send
  | |- grows _ _ (fs_existsSync _) => apply grows_fs_existsSync
  | |- grows _ _ (fs_writeFileSync _ _) => apply grows_fs_writeFileSync
  | |- _ => grows_script
  end.

Ltac grows_rest :=
  match goal with
  | |- grows ?p ?k ?m => let k' := eval lazy in k in change (grows p k' m)
  end.

Ltac grows_fits := lazy; lia.

Ltac grows_walk :=
  repeat
    lazymatch goal with
    | |- grows _ _ (bind (bind _ _) _) => apply grows_assoc
    | |- grows _ _ (bind (match ?x with _ => _ end) _) => destruct x
    | |- grows _ _ (bind _ _) =>
        eapply grows_bind; [grows_known | grows_fits | intros ?; grows_rest]
    | |- grows _ _ (try_catch _ _) => eapply grows_try_catch; [ | intros ?]
    | |- grows _ _ (match ?x with _ => _ end) => destruct x
    | |- grows _ _ _ => eapply grows_weaken; [grows_known | grows_fits]
    end.

Ltac appends_script := fail.

Ltac appends_walk :=
  repeat
    lazymatch goal with
    | |- appends (bind _ _) => apply appends_bind; [ | intros ?]
    | |- appends (try_catch _ _) => apply appends_try_catch; [ | intros ?]
    | |- appends (try_finally _ _) => apply appends_try_finally
    | |- appends (retry _ _ _) => apply appends_retry; [ | intros ?]
    | |- appends (match ?x with _ => _ end) => destruct x
    | |- appends (ret _) => apply appends_ret
    | |- appends (throw _) => apply appends_throw
    | |- appends (act _) => apply appends_act
    | |- appends (pause _) => apply appends_pause
    | |- appends (console _ _ _) => apply appends_console
    | |- appends (find_slot_row _ _ _) => apply appends_find_slot_row
    | |- appends (extract_rows _ _) => apply appends_extract_rows
    | |- appends (fs_readFileSync _) => apply appends_fs_readFileSync
    | |- appends _ => first [appends_script | (apply appends_silent; intros; reflexivity)]
    end.

Section Marks.
Context {W : Type} `{Runtime W}.
Variable cfg : Config.

Lemma findAndClickDate_marks mk d :
  grows (marks mk) (match mk with HandlerCall => 1 | _ => 0 end)
    (findAndClickDate d : M W bool).
Proof. destruct mk; unfold findAndClickDate, console_log; grows_walk. Qed.

Lemma findAndClickSlot_marks mk c t :
  grows (marks mk) (match mk with Press => 1 | _ => 0 end) (findAndClickSlot c t : M W bool).
Proof. destruct mk; unfold findAndClickSlot, console_log; grows_walk. Qed.

Lemma addPartnerToBooking_marks mk n m :
  grows (marks mk) (match mk with PartnerStart => 1 | Press => 3 | _ => 0 end)
    (addPartnerToBooking n m : M W unit).
Proof.
  unfold addPartnerToBooking, console_log, delay.
  generalize 5000%nat; intros ?; generalize 3000%nat; intros ?; destruct mk; grows_walk.
Qed.

Lemma confirmBooking_marks mk :
  grows (marks mk) (match mk with ConfirmStart | Press => 1 | _ => 0 end)
    (confirmBooking : M W unit).
Proof.
  unfold confirmBooking, console_log, delay.
  generalize 5000%nat; intros ?; destruct mk; grows_walk.
Qed.

Lemma extractOpenCourts_marks mk :
  grows (marks mk) 0 (extractOpenCourts : M W _).
Proof. destruct mk; unfold extractOpenCourts; grows_walk. Qed.

Lemma login_form_marks mk :
  grows (marks mk) (match mk with Navigation => 1 | Press => 3 | _ => 0 end)
    (login_form cfg : M W unit).
Proof. destruct mk; unfold login_form; grows_walk. Qed.

Lemma login_marks mk :
  grows (marks mk) (match mk with Navigation => 4 | Press => 12 | _ => 0 end)
    (login cfg : M W unit).
Proof.
  unfold login.
  eapply grows_bind; [apply grows_fs_existsSync|lia|intros exists_].
  destruct exists_.
  - unfold parse_cookies, console_log. destruct mk; grows_walk.
  - eapply grows_bind; [|reflexivity|intros _; rewrite Nat.sub_0_r, Nat.sub_diag].
    + eapply grows_retry; [apply login_form_marks| | |destruct mk; lazy; lia].
      * intros e. destruct mk; (eapply grows_weaken; [apply grows_console|lazy; lia]).
      * intros d. destruct mk; reflexivity.
    + unfold console_log. destruct mk; grows_walk.
Qed.

Lemma findAndClickDate_appends d : appends (findAndClickDate d : M W bool).
Proof. unfold findAndClickDate, console_log. appends_walk. Qed.

Lemma findAndClickSlot_appends c t : appends (findAndClickSlot c t : M W bool).
Proof. unfold findAndClickSlot, console_log. appends_walk. Qed.

Lemma addPartnerToBooking_appends n m : appends (addPartnerToBooking n m : M W unit).
Proof.
  unfold addPartnerToBooking, console_log, delay.
  generalize 5000%nat; intros ?; generalize 3000%nat; intros ?. appends_walk.
Qed.

Lemma confirmBooking_appends : appends (confirmBooking : M W unit).
Proof.
  unfold confirmBooking, console_log, delay. generalize 5000%nat; intros ?. appends_walk.
Qed.

Lemma extractOpenCourts_appends : appends (extractOpenCourts : M W _).
Proof. unfold extractOpenCourts. appends_walk. Qed.

Lemma login_appends : appends (login cfg : M W unit).
Proof. unfold login, login_form, parse_cookies, page_cookies, console_log. appends_walk. Qed.

End Marks.

Ltac grows_script ::=
  lazymatch goal with
  | |- grows _ _ (findAndClickDate _) => apply findAndClickDate_marks
  | |- grows _ _ (findAndClickSlot _ _) => apply findAndClickSlot_marks
  | |- grows _ _ (addPartnerToBooking _ _) => apply addPartnerToBooking_marks
  | |- grows _ _ confirmBooking => apply confirmBooking_marks
  | |- grows _ _ extractOpenCourts => apply extractOpenCourts_marks
  | |- grows _ _ (login _) => apply login_marks
  end.

Ltac appends_script ::=
  lazymatch goal with
  | |- appends (findAndClickDate _) => apply findAndClickDate_appends
  | |- appends (findAndClickSlot _ _) => apply findAndClickSlot_appends
  | |- appends (addPartnerToBooking _ _) => apply addPartnerToBooking_appends
  | |- appends confirmBooking => apply confirmBooking_appends
  | |- appends extractOpenCourts => apply extractOpenCourts_appends
  | |- appends (login _) => apply login_appends
  end.

Section Marks2.
Context {W : Type} `{Runtime W}.
Variable cfg : Config.

Lemma reserveCourt_marks mk d c t n m :
  grows (marks mk) (match mk with Press => 5 | Teardown => 0 | _ => 1 end)
    (reserveCourt cfg d c t n m : M W string).
Proof.
  unfold reserveCourt, console_log, delay.
  generalize 3000%nat; intros ?; destruct mk; grows_walk.
Qed.

Lemma getOpenCourts_attempt_marks mk d :
  grows (marks mk) (match mk with Navigation | HandlerCall => 1 | _ => 0 end)
    (getOpenCourts_attempt cfg d : M W _).
Proof.
  unfold getOpenCourts_attempt, console_log, delay.
  generalize 3000%nat; intros ?; destruct mk; grows_walk.
Qed.

Lemma getOpenCourts_marks mk d :
  grows (marks mk) (match mk with Navigation | HandlerCall => 4 | _ => 0 end)
    (getOpenCourts cfg d : M W _).
Proof.
  unfold getOpenCourts.
  eapply grows_bind; [apply grows_set_openCourts|lia|intros _; rewrite Nat.sub_0_r].
  eapply grows_bind; [|reflexivity|intros _; rewrite Nat.sub_diag; apply grows_get_openCourts].
  eapply grows_retry; [apply getOpenCourts_attempt_marks| | |destruct mk; lazy; lia].
  - intros e. destruct mk; (eapply grows_weaken; [apply grows_console|lazy; lia]).
  - intros p. destruct mk; reflexivity.
Qed.

Lemma to_slot_grid_marks mk d :
  grows (marks mk) (match mk with Navigation | HandlerCall => 1 | _ => 0 end)
    (to_slot_grid cfg d : M W unit).
Proof.
  unfold to_slot_grid, delay. generalize 3000%nat; intros ?; destruct mk; grows_walk.
Qed.

Lemma reserveCourt_appends d c t n m : appends (reserveCourt cfg d c t n m : M W string).
Proof. unfold reserveCourt, console_log, delay. generalize 3000%nat; intros ?. appends_walk. Qed.

Lemma getOpenCourts_appends d : appends (getOpenCourts cfg d : M W _).
Proof.
  unfold getOpenCourts, getOpenCourts_attempt, console_log, delay.
  generalize 3000%nat; intros ?. appends_walk.
Qed.

Lemma to_slot_grid_appends d : appends (to_slot_grid cfg d : M W unit).
Proof. unfold to_slot_grid, delay. generalize 3000%nat; intros ?. appends_walk. Qed.

End Marks2.

(** ** The reservation *)

Section Reserve.
Context {W : Type} `{Runtime W}.
Variable cfg : Config.

Lemma reserveCourt_after_grid d c t n m (s s1 : State W) :
  to_slot_grid cfg d s = (Ok (), s1) →
  reserveCourt cfg d c t n m s
  = (slotFound ← findAndClickSlot c t;
     (if negb slotFound then throw (slot_unavailable c t) else ret ());;
     book_after_click n m)%script s1.
Proof.
  unfold to_slot_grid, reserveCourt, book_after_click, delay.
  generalize 3000%nat. intros ms Hgrid. unfold bind in Hgrid |- *.
  destruct (act (Goto _) s) as [[[]|?] sa]; [|discriminate].
  destruct (findAndClickDate d sa) as [[found|?] sb]; [|discriminate].
  destruct (negb found); [discriminate|]. cbv beta iota in Hgrid |- *. unfold ret in Hgrid |- *.
  destruct (pause (Millis ms) sb) as [[[]|?] sc]; [|discriminate].
  destruct (act (WaitForSelector _ _) sc) as [[[]|?] sd]; [|discriminate].
  injection Hgrid as ->. reflexivity.
Qed.

(** A false result of [findAndClickSlot] has printed one line and done
    nothing else. *)
Lemma findAndClickSlot_false_prints c t (s s' : State W) :
  findAndClickSlot c t s = (Ok false, s') →
  ∃ line, s' = record (Console LLog line None) s
          ∧ starts_partner_attachment (Console LLog line None) = false.
Proof.
  unfold findAndClickSlot, bind at 1, the_document. unfold bind at 1.
  pose proof (find_slot_row_same (slots_data (document (world s))) 0 t s) as Hsame.
  destruct (find_slot_row _ _ _ s) as [[[[r cells]|]|e] s0]; simpl in Hsame; subst s0;
    [|intros [= <-]; eauto|discriminate].
  destruct (find_court_index _ _ _) as [i|]; [|intros [= <-]; eauto].
  destruct (cells !! i) as [cell|]; [|discriminate].
  destruct (negb (is_open cell)); [intros [= <-]; eauto|].
  unfold bind, act. destruct (perform _ _) as [[?|] ?]; discriminate.
Qed.

(** X14. Once the slot table is there, [reserveCourt] goes by the
    answer of [findAndClickSlot].  On false it throws the error of the
    unavailable slot, having printed one line since the table came up:
    partner attachment and confirmation are not begun.  On true it
    waits for the dialog, attaches the partner and confirms. *)
Theorem reserveCourt_slot_outcome d c t n m (s s1 : State W) :
  to_slot_grid cfg d s = (Ok (), s1) →
  (∀ s2, findAndClickSlot c t s1 = (Ok false, s2) →
     reserveCourt cfg d c t n m s = (Throw (slot_unavailable c t), s2)
     ∧ (∃ line, s2 = record (Console LLog line None) s1)
     ∧ occurrences starts_partner_attachment (trace s2)
       = occurrences starts_partner_attachment (trace s)
     ∧ occurrences starts_confirmation (trace s2)
       = occurrences starts_confirmation (trace s))
  ∧ (∀ s2, findAndClickSlot c t s1 = (Ok true, s2) →
       reserveCourt cfg d c t n m s = book_after_click n m s2).
Proof.
  intros Hgrid. split; intros s2 Hslot;
    rewrite (reserveCourt_after_grid _ _ _ _ _ _ _ Hgrid); unfold bind at 1; rewrite Hslot;
    [|reflexivity].
  split; [reflexivity|].
  destruct (findAndClickSlot_false_prints _ _ _ _ Hslot) as (line & -> & Hline).
  split; [eauto|].
  destruct (to_slot_grid_appends cfg d s) as [evs Hevs].
  pose proof (grows_appended _ _ _ _ _ (to_slot_grid_marks cfg PartnerStart d) Hevs) as Hp.
  pose proof (grows_appended _ _ _ _ _ (to_slot_grid_marks cfg ConfirmStart d) Hevs) as Hc.
  rewrite Hgrid in Hevs. simpl in Hevs, Hp, Hc.
  rewrite !occurrences_record, Hevs, !occurrences_app. unfold cost. rewrite Hline.
  simpl. lia.
Qed.

(** X15. [reserveCourt] repeats nothing: in one run it navigates at
    most once and begins partner attachment and confirmation at most
    once each; and when its one navigation fails, the run is over with
    that error. *)
Theorem reserveCourt_never_retries d c t n m (s : State W) :
  (∃ evs, trace (reserveCourt cfg d c t n m s).2 = trace s ++ evs
          ∧ (occurrences is_goto evs ≤ 1)%nat
          ∧ (occurrences starts_partner_attachment evs ≤ 1)%nat
          ∧ (occurrences starts_confirmation evs ≤ 1)%nat)
  ∧ (∀ e w', perform (Goto (WEBSITE_BOOKING_PAGE cfg)) (world s) = (Some e, w') →
       reserveCourt cfg d c t n m s
       = (Throw e, record (Act (Goto (WEBSITE_BOOKING_PAGE cfg))) (with_world w' s))).
Proof.
  split.
  - destruct (reserveCourt_appends cfg d c t n m s) as [evs Hevs]. exists evs.
    split; [assumption|].
    pose proof (grows_appended _ _ _ _ _ (reserveCourt_marks cfg Navigation d c t n m) Hevs).
    pose proof (grows_appended _ _ _ _ _ (reserveCourt_marks cfg PartnerStart d c t n m) Hevs).
    pose proof (grows_appended _ _ _ _ _ (reserveCourt_marks cfg ConfirmStart d c t n m) Hevs).
    auto.
  - intros e w' Hgoto. unfold reserveCourt. apply bind_throw, act_rejects. assumption.
Qed.

End Reserve.

Lemma to_slot_grid_monday :
  ∃ s1, to_slot_grid Sim.config "Monday" (Sim.start Sim.site ∅) = (Ok (), s1)
        ∧ world s1 = Sim.site.
Proof. eexists. split; reflexivity. Qed.

Lemma reserveCourt_slot_outcome_witness :
  (reserveCourt Sim.config "Monday" 2 "9:00 AM" "Pat" "2002" (Sim.start Sim.site ∅)).1
    = Throw (slot_unavailable 2 "9:00 AM")
  ∧ (reserveCourt Sim.config "Monday" 1 "9:00 AM" "Pat" "2002" (Sim.start Sim.site ∅)).1
    = Ok "Court reserved successfully".
Proof.
  destruct to_slot_grid_monday as (s1 & Hgrid & Hworld).
  destruct (reserveCourt_slot_outcome Sim.config "Monday" 2 "9:00 AM" "Pat" "2002" _ _ Hgrid)
    as [Hfalse _].
  destruct (reserveCourt_slot_outcome Sim.config "Monday" 1 "9:00 AM" "Pat" "2002" _ _ Hgrid)
    as [_ Htrue].
  split.
  - edestruct Hfalse as [-> _]; [|reflexivity].
    rewrite (surjective_pairing (findAndClickSlot 2 "9:00 AM" s1)). f_equal.
    unfold findAndClickSlot, bind, the_document. rewrite Hworld. reflexivity.
  - vm_compute. reflexivity.
Defined.

Lemma reserveCourt_never_retries_witness :
  perform (Goto (WEBSITE_BOOKING_PAGE Sim.config)) (world (Sim.start (flaky 1) ∅))
    = (Some (Sim.unreachable "https://club.example/booking"), flaky 0)
  ∧ (reserveCourt Sim.config "Monday" 1 "9:00 AM" "Pat" "2002" (Sim.start (flaky 1) ∅)).1
    = Throw (Sim.unreachable "https://club.example/booking").
Proof.
  assert (Hgoto : perform (Goto (WEBSITE_BOOKING_PAGE Sim.config))
                    (world (Sim.start (flaky 1) ∅))
                  = (Some (Sim.unreachable "https://club.example/booking"), flaky 0))
    by reflexivity.
  split; [exact Hgoto|].
  destruct (reserveCourt_never_retries Sim.config "Monday" 1 "9:00 AM" "Pat" "2002"
              (Sim.start (flaky 1) ∅)) as [_ Hfinal].
  rewrite (Hfinal _ _ Hgoto). reflexivity.
Defined.

(** ** Partner and confirmation *)

Section Partner.
Context {W : Type} `{Runtime W}.

Lemma console_then {B} l t a (k : unit → M W B) (s : State W) :
  bind (console l t a) k s = k () (record (Console l t a) s).
Proof. reflexivity. Qed.

Lemma document_then {B} (k : Dom → M W B) (s : State W) :
  bind the_document k s = k (document (world s)) s.
Proof. reflexivity. Qed.

Lemma pause_then {B} d (k : unit → M W B) (s : State W) :
  bind (pause d) k s = k () (record (Sleep d) (with_world (elapse d (world s)) s)).
Proof. reflexivity. Qed.

Lemma act_then_resolves {B} a (k : unit → M W B) (s : State W) w' :
  perform a (world s) = (None, w') →
  bind (act a) k s = k () (record (Act a) (with_world w' s)).
Proof. intros Hp. apply bind_ok, act_resolves. assumption. Qed.

Lemma act_then_rejects {B} a (k : unit → M W B) (s : State W) e w' :
  perform a (world s) = (Some e, w') →
  bind (act a) k s = (Throw e, record (Act a) (with_world w' s)).
Proof. intros Hp. apply bind_throw, act_rejects. assumption. Qed.



(** X17. The selection script takes the first suggestion whose member
    number is the partner's: every suggestion before it is well formed
    and belongs to somebody else.  It finds none only when all
    suggestions are such, and it fails with the error of the first
    suggestion it cannot read when no match comes before that one. *)
Theorem find_item_first_match (items : list ItemValue) (membershipNumber : string) :
  match find_item 0 items membershipNumber with
  | inr (Some i) =>
      items !! i = Some (ItemMember (Some membershipNumber))
      ∧ Forall (other_member membershipNumber) (take i items)
  | inr None => Forall (other_member membershipNumber) items
  | inl e =>
      ∃ i, items !! i = Some (ItemThrows e)
           ∧ Forall (other_member membershipNumber) (take i items)
  end.
Proof.
  assert (Hgen : ∀ k,
    match find_item k items membershipNumber with
    | inr (Some i) =>
        ∃ j, i = (k + j)%nat ∧ items !! j = Some (ItemMember (Some membershipNumber))
             ∧ Forall (other_member membershipNumber) (take j items)
    | inr None => Forall (other_member membershipNumber) items
    | inl e =>
        ∃ i, items !! i = Some (ItemThrows e)
             ∧ Forall (other_member membershipNumber) (take i items)
    end).
  { induction items as [|item items IH]; intros k; [constructor|].
    destruct item as [e|m]; simpl.
    - exists 0%nat. split; [reflexivity|constructor].
    - case_bool_decide as Hm.
      + subst m. exists 0%nat. rewrite Nat.add_0_r. repeat split. constructor.
      + specialize (IH (S k)).
        destruct (find_item (S k) items membershipNumber) as [e|[i|]].
        * destruct IH as (i & Hi & Hbefore). exists (S i). split; [assumption|].
          simpl. constructor; [exists m; auto|assumption].
        * destruct IH as (j & -> & Hj & Hbefore). exists (S j).
          split; [lia|]. split; [assumption|].
          simpl. constructor; [exists m; auto|assumption].
        * constructor; [exists m; auto|assumption]. }
  specialize (Hgen 0%nat).
  destruct (find_item 0 items membershipNumber) as [e|[i|]]; [assumption| |assumption].
  destruct Hgen as (j & -> & ?). assumption.
Qed.

(** X18. Confirmation, once the wait for the Save button has
    succeeded.  Without such a button in the document the function
    throws that it was not found and clicks nothing.  With one, the
    first is clicked and, five seconds on, the outcome is the
    restriction error exactly when some [h1] has [Restriction] in its
    text, its [innerText] standing in for an empty [textContent]. *)
Theorem confirmBooking_outcome (s : State W) (w1 : W) :
  perform wait_for_save (world s) = (None, w1) →
  (Forall (λ b, is_save_button b = false) (buttons (document w1)) →
   confirmBooking s
   = (Throw (mkError "Save button not found."),
      record (Act wait_for_save) (with_world w1 s)))
  ∧ (∀ i w2,
       head (positions is_save_button (buttons (document w1))) = Some i →
       perform (Click (ButtonEl i)) w1 = (None, w2) →
       let w3 := elapse settle_after_save w2 in
       (confirmBooking s).1
       = (if restrictionExists (document w3)
          then Throw (mkError "Booking restricted") else Ok ())
       ∧ (restrictionExists (document w3) = true ↔
          ∃ h1, h1 ∈ headings (document w3)
                ∧ Js.includes (heading_text h1) "Restriction" = true)).
Proof.
  unfold confirmBooking, console_log, delay, wait_for_save, settle_after_save.
  generalize 5000%nat. intros ms Hwait. split.
  - intros Hnone. apply head_positions_None in Hnone.
    rewrite act_then_resolves with (w' := w1) by exact Hwait. cbv beta. rewrite document_then; cbv beta.
    cbn [world record with_world]. rewrite Hnone. reflexivity.
  - intros i w2 Hfirst Hclick. set (w3 := elapse (Millis ms) w2). split.
    + rewrite act_then_resolves with (w' := w1) by exact Hwait. cbv beta. rewrite document_then; cbv beta.
      cbn [world record with_world]. rewrite Hfirst; cbv iota beta.
      rewrite bind_bind. rewrite act_then_resolves with (w' := w2) by exact Hclick.
      cbv beta. rewrite console_then; cbv beta. rewrite pause_then; cbv beta.
      rewrite document_then; cbv beta.
      cbn [world record with_world]. fold w3.
      destruct (restrictionExists (document w3)); reflexivity.
    + unfold restrictionExists. rewrite existsb_exists. unfold heading_text.
      split; intros (h1 & Hin & Hh); exists h1; (split; [|assumption]).
      * apply list_elem_of_In. assumption.
      * apply list_elem_of_In. assumption.
Qed.

End Partner.


Lemma confirmBooking_outcome_witness :
  (confirmBooking (Sim.start site_losing_save ∅)).1 = Throw (mkError "Save button not found.")
  ∧ (confirmBooking (Sim.start site_refusing ∅)).1 = Throw (mkError "Booking restricted").
Proof.
  assert (Hlose : perform wait_for_save (world (Sim.start site_losing_save ∅))
                  = (None, Sim.show refusal_page None site_losing_save)) by reflexivity.
  assert (Hwait : perform wait_for_save (world (Sim.start site_refusing ∅))
                  = (None, site_refusing)) by reflexivity.
  split.
  - destruct (confirmBooking_outcome _ _ Hlose) as [Hnone _].
    rewrite Hnone; [reflexivity|]. constructor.
  - destruct (confirmBooking_outcome _ _ Hwait) as [_ Hsome].
    destruct (Hsome 1%nat (Sim.show refusal_page (Sim.rerender site_refusing) site_refusing)
                eq_refl eq_refl) as [Hout _].
    rewrite Hout. reflexivity.
Defined.

(** ** The routes *)

Section Routes.
Local Open Scope script_scope.
Context {W : Type} `{Runtime W}.
Variable cfg : Config.

Lemma act_response a (s : State W) : response (act a s).2 = response s.
Proof. apply (preserves_act response a framed_response). Qed.

Lemma act_trace a (s : State W) : trace (act a s).2 = trace s ++ [Act a].
Proof. unfold act. destruct (perform a (world s)). reflexivity. Qed.

(** The [try]/[catch]/[finally] of the reserve route, from the state
    in which the page is open. *)
Lemma reserve_route_opened loaded body v (s : State W) w1 w2 :
  reservationSchema loaded body = inr (Some v) →
  perform Launch (world s) = (None, w1) →
  perform NewPage w1 = (None, w2) →
  reserve_court_route cfg loaded body s
  = try_finally
      (try_catch
         (result ← reserve_job cfg v; send 200 (Reserved true result))
         (λ error,
            console LError "An error occurred:" (Some error);;
            if Js.includes (message error) "Booking restricted" then
              send 403 (NotReserved false "Booking restricted due to club policy.")
            else
              send 500 (NotReserved false "An error occurred while reserving the court.")))
      (act Close) (session_opened w1 w2 s).
Proof.
  intros Hv Hlaunch Hpage. unfold reserve_court_route. rewrite Hv.
  rewrite act_then_resolves with (w' := w1) by exact Hlaunch. cbv beta.
  rewrite act_then_resolves with (w' := w2) by exact Hpage. cbv beta.
  unfold try_finally, try_catch, reserve_job. fold (session_opened w1 w2 s).
  rewrite bind_bind. reflexivity.
Qed.

(** X19. The reserve route, once the page is open, answers by the
    outcome of logging in and reserving: 200 with the message when it
    returns, 403 when the message of the thrown error includes
    [Booking restricted], 500 for any other error.  The answer stands
    whether or not the browser then closes. *)
Theorem reserve_route_answers loaded body v (s : State W) w1 w2 :
  reservationSchema loaded body = inr (Some v) →
  perform Launch (world s) = (None, w1) →
  perform NewPage w1 = (None, w2) →
  response (reserve_court_route cfg loaded body s).2
  = Some (reserve_answer (reserve_job cfg v (session_opened w1 w2 s)).1).
Proof.
  intros Hv Hlaunch Hpage. rewrite (reserve_route_opened _ _ _ _ _ _ Hv Hlaunch Hpage).
  unfold try_finally, try_catch, bind.
  destruct (reserve_job cfg v (session_opened w1 w2 s)) as [[msg|e] s1]; simpl fst.
  - unfold send at 1.
    match goal with |- context [act Close ?st] =>
      pose proof (act_response Close st) as Hc; destruct (act Close st) as [[[]|?] ?] end;
      simpl in *; assumption.
  - unfold console at 1. unfold reserve_answer.
    destruct (Js.includes (message e) "Booking restricted"); unfold send at 1;
      match goal with |- context [act Close ?st] =>
        pose proof (act_response Close st) as Hc; destruct (act Close st) as [[[]|?] ?] end;
      simpl in *; assumption.
Qed.

Lemma open_courts_route_opened d (s : State W) w1 w2 :
  validateDay (today (world s)) d = true →
  perform Launch (world s) = (None, w1) →
  perform NewPage w1 = (None, w2) →
  open_courts_route cfg (Some (QString d)) s
  = try_finally
      (try_catch
         (found ← open_courts_job cfg d; send 200 (OpenCourts d found))
         (λ error,
            console LError "An error occurred:" (Some error);;
            send 500 (ErrorText "An error occurred while fetching open courts")))
      (act Close) (session_opened w1 w2 s).
Proof.
  intros Hday Hlaunch Hpage. unfold open_courts_route.
  destruct d as [|c d]; [rewrite validateDay_nonempty in Hday; discriminate|].
  unfold bind at 1, clock. rewrite Hday. change (negb true) with false. cbv iota beta.
  rewrite act_then_resolves with (w' := w1) by exact Hlaunch. cbv beta.
  rewrite act_then_resolves with (w' := w2) by exact Hpage. cbv beta.
  unfold try_finally, try_catch, open_courts_job. fold (session_opened w1 w2 s).
  rewrite bind_bind. reflexivity.
Qed.

(** X20. The open-courts route, once the page is open, answers 200
    with the day and whatever [getOpenCourts] returned when logging in
    and looking up succeed, and 500 on any error.  The answer stands
    whether or not the browser then closes. *)
Theorem open_courts_route_answers d (s : State W) w1 w2 :
  validateDay (today (world s)) d = true →
  perform Launch (world s) = (None, w1) →
  perform NewPage w1 = (None, w2) →
  response (open_courts_route cfg (Some (QString d)) s).2
  = Some (open_courts_answer d (open_courts_job cfg d (session_opened w1 w2 s)).1).
Proof.
  intros Hday Hlaunch Hpage. rewrite (open_courts_route_opened _ _ _ _ Hday Hlaunch Hpage).
  unfold try_finally, try_catch, bind.
  destruct (open_courts_job cfg d (session_opened w1 w2 s)) as [[found|e] s1]; simpl fst.
  - unfold send at 1.
    match goal with |- context [act Close ?st] =>
      pose proof (act_response Close st) as Hc; destruct (act Close st) as [[[]|?] ?] end;
      simpl in *; assumption.
  - unfold console at 1. unfold send at 1.
    match goal with |- context [act Close ?st] =>
      pose proof (act_response Close st) as Hc; destruct (act Close st) as [[[]|?] ?] end;
      simpl in *; assumption.
Qed.

(** A guarded job, closed in a [finally], leaves a trace that ends in
    the one [Close]. *)
Lemma finally_close_trace {A} (guarded : M W A) (s : State W) w1 w2 :
  appends guarded → grows is_close 0 guarded →
  ∃ evs, trace (try_finally guarded (act Close) (session_opened w1 w2 s)).2
         = trace s ++ [Act Launch; Act NewPage] ++ evs ++ [Act Close]
         ∧ occurrences is_close evs = 0%nat.
Proof.
  intros Happ Hgrows. destruct (Happ (session_opened w1 w2 s)) as [evs Hevs].
  pose proof (grows_appended _ _ _ _ _ Hgrows Hevs) as Hcount.
  exists evs. split; [|lia]. unfold try_finally.
  destruct (guarded (session_opened w1 w2 s)) as [r s1]. simpl in Hevs.
  pose proof (act_trace Close s1) as Hclose.
  destruct (act Close s1) as [[[]|?] s2]; simpl in Hclose |- *;
    rewrite Hclose, Hevs; cbn [session_opened trace record with_world];
    rewrite <- !app_assoc; reflexivity.
Qed.

(** X21. Both routes tear the browser down.  Once the browser is
    launched and its page open, whatever the job does and however it
    ends, the last thing the route asks of the browser is to close,
    and it has not asked for that before. *)
Theorem routes_close_browser (s : State W) w1 w2 :
  perform Launch (world s) = (None, w1) →
  perform NewPage w1 = (None, w2) →
  (∀ loaded body v,
     reservationSchema loaded body = inr (Some v) →
     torn_down (reserve_court_route cfg loaded body) s)
  ∧ (∀ d, validateDay (today (world s)) d = true →
          torn_down (open_courts_route cfg (Some (QString d))) s).
Proof.
  intros Hlaunch Hpage. split.
  - intros loaded body v Hv. unfold torn_down.
    rewrite (reserve_route_opened _ _ _ _ _ _ Hv Hlaunch Hpage).
    apply finally_close_trace.
    + unfold reserve_job. appends_walk. apply reserveCourt_appends.
    + apply grows_try_catch.
      * unfold reserve_job. rewrite <- (Nat.sub_diag 0).
        eapply grows_bind; [|reflexivity|intros ?; apply grows_send].
        eapply grows_bind; [apply (login_marks cfg Teardown)|reflexivity|intros _].
        apply (reserveCourt_marks cfg Teardown).
      * intros e. eapply grows_bind; [apply grows_console|lazy; lia|intros _].
        destruct (Js.includes _ _); apply grows_send.
  - intros d Hday. unfold torn_down.
    rewrite (open_courts_route_opened _ _ _ _ Hday Hlaunch Hpage).
    apply finally_close_trace.
    + unfold open_courts_job. appends_walk. apply getOpenCourts_appends.
    + apply grows_try_catch.
      * unfold open_courts_job. rewrite <- (Nat.sub_diag 0).
        eapply grows_bind; [|reflexivity|intros ?; apply grows_send].
        eapply grows_bind; [apply (login_marks cfg Teardown)|reflexivity|intros _].
        apply (getOpenCourts_marks cfg Teardown).
      * intros e. eapply grows_bind; [apply grows_console|lazy; lia|intros _].
        apply grows_send.
Qed.

(** X22. The page is opened outside the [try]: when the browser is
    launched and opening the page fails, either route ends with that
    error at once.  No response has been sent and the browser has not
    been asked to close. *)
Theorem routes_leave_browser_when_page_fails (s : State W) w1 w2 e :
  perform Launch (world s) = (None, w1) →
  perform NewPage w1 = (Some e, w2) →
  (∀ loaded body v,
     reservationSchema loaded body = inr (Some v) →
     reserve_court_route cfg loaded body s = (Throw e, session_opened w1 w2 s))
  ∧ (∀ d, validateDay (today (world s)) d = true →
          open_courts_route cfg (Some (QString d)) s = (Throw e, session_opened w1 w2 s)).
Proof.
  intros Hlaunch Hpage. split.
  - intros loaded body v Hv. unfold reserve_court_route. rewrite Hv.
    rewrite act_then_resolves with (w' := w1) by exact Hlaunch. cbv beta.
    apply act_then_rejects. exact Hpage.
  - intros d Hday. unfold open_courts_route.
    destruct d as [|c d]; [rewrite validateDay_nonempty in Hday; discriminate|].
    unfold bind at 1, clock. rewrite Hday. change (negb true) with false. cbv iota beta.
    rewrite act_then_resolves with (w' := w1) by exact Hlaunch. cbv beta.
    apply act_then_rejects. exact Hpage.
Qed.

End Routes.

Lemma reserve_route_answers_witness :
  response (reserve_court_route Sim.config 4 (BodyObject (sample_fields "Monday" 1))
              (Sim.start site_refusing ∅)).2
  = Some (mkResponse 403 (NotReserved false "Booking restricted due to club policy."))
  ∧ response (reserve_court_route Sim.config 4 (BodyObject (sample_fields "Monday" 2))
                (Sim.start Sim.site ∅)).2
    = Some (mkResponse 500 (NotReserved false "An error occurred while reserving the court.")).
Proof.
  assert (Hv : ∀ z, (z = 1 ∨ z = 2)%Z →
            reservationSchema (H := Sim.runtime) 4 (BodyObject (sample_fields "Monday" z))
            = inr (Some (mkReservation "Monday" z "9:00 AM" "Pat" "2002")))
    by (intros z [->| ->]; vm_compute; reflexivity).
  split.
  - rewrite (reserve_route_answers Sim.config 4 _ _ (Sim.start site_refusing ∅)
               site_refusing site_refusing (Hv 1%Z (or_introl eq_refl)) eq_refl eq_refl).
    vm_compute. reflexivity.
  - rewrite (reserve_route_answers Sim.config 4 _ _ (Sim.start Sim.site ∅)
               Sim.site Sim.site (Hv 2%Z (or_intror eq_refl)) eq_refl eq_refl).
    vm_compute. reflexivity.
Defined.

Lemma monday_is_valid (w : Sim.World) :
  Sim.day w = 4%Z → validateDay (today (world (Sim.start w ∅))) "Monday" = true.
Proof. simpl. intros ->. reflexivity. Qed.

Lemma open_courts_route_answers_witness :
  response (open_courts_route Sim.config (Some (QString "Monday")) (Sim.start Sim.site ∅)).2
  = Some (mkResponse 200
            (OpenCourts "Monday" (Some [mkEntry 1 "9:00 AM"; mkEntry 2 "10:00 AM"])))
  ∧ response (open_courts_route Sim.config (Some (QString "Monday"))
                (Sim.start (flaky 9) ∅)).2
    = Some (mkResponse 500 (ErrorText "An error occurred while fetching open courts")).
Proof.
  assert (Hlaunch : ∀ w, perform Launch (world (Sim.start w ∅)) = (None, w)) by reflexivity.
  assert (Hpage : ∀ w, perform NewPage w = (None, w)) by reflexivity.
  split.
  - rewrite (open_courts_route_answers Sim.config "Monday" _ _ _
               (monday_is_valid Sim.site eq_refl) (Hlaunch _) (Hpage _)).
    vm_compute. reflexivity.
  - rewrite (open_courts_route_answers Sim.config "Monday" _ _ _
               (monday_is_valid (flaky 9) eq_refl) (Hlaunch _) (Hpage _)).
    vm_compute. reflexivity.
Defined.

Lemma routes_close_browser_witness :
  torn_down (reserve_court_route Sim.config 4 (BodyObject (sample_fields "Monday" 1)))
    (Sim.start Sim.site ∅)
  ∧ torn_down (open_courts_route Sim.config (Some (QString "Monday"))) (Sim.start Sim.site ∅).
Proof.
  assert (Hlaunch : perform Launch (world (Sim.start Sim.site ∅)) = (None, Sim.site))
    by reflexivity.
  assert (Hpage : perform NewPage Sim.site = (None, Sim.site)) by reflexivity.
  destruct (routes_close_browser Sim.config _ _ _ Hlaunch Hpage) as [Hreserve Hopen].
  split.
  - apply (Hreserve 4%Z _ (mkReservation "Monday" 1 "9:00 AM" "Pat" "2002")).
    vm_compute. reflexivity.
  - apply Hopen. apply (monday_is_valid Sim.site eq_refl).
Defined.

Lemma routes_leave_browser_when_page_fails_witness :
  let s := Sim.start Sim.site ∅ in
  reserve_court_route (H := Crashing.runtime) Sim.config 4
    (BodyObject (sample_fields "Monday" 1)) s
  = (Throw (mkError "Target closed"),
     session_opened Sim.site Sim.site s)
  ∧ open_courts_route (H := Crashing.runtime) Sim.config (Some (QString "Monday")) s
    = (Throw (mkError "Target closed"),
       session_opened Sim.site Sim.site s).
Proof.
  intros s.
  assert (Hlaunch : perform (Runtime := Crashing.runtime) Launch (world s) = (None, Sim.site))
    by reflexivity.
  assert (Hpage : perform (Runtime := Crashing.runtime) NewPage Sim.site
                  = (Some (mkError "Target closed"), Sim.site)) by reflexivity.
  destruct (routes_leave_browser_when_page_fails (H := Crashing.runtime) Sim.config s
              _ _ _ Hlaunch Hpage) as [Hreserve Hopen].
  split.
  - apply (Hreserve 4%Z _ (mkReservation "Monday" 1 "9:00 AM" "Pat" "2002")).
    vm_compute. reflexivity.
  - apply Hopen. reflexivity.
Defined.

(** ** The cookie store *)

Section Store.
Context {W : Type} `{Runtime W}.
Variable cfg : Config.
Local Open Scope script_scope.

(** With a store file, [login] returns normally after events that are
    neither navigations nor input, and touches no file. *)
Lemma login_with_store (s : State W) text :
  files s !! cookieFilePath cfg = Some text →
  ∃ w' evs,
    login cfg s = (Ok (), mkState w' (files s) (g_openCourts s) (trace s ++ evs) (response s))
    ∧ occurrences is_goto evs = 0%nat ∧ occurrences is_input evs = 0%nat.
Proof.
  intros Hfile. unfold login, bind at 1, fs_existsSync. rewrite Hfile.
  rewrite bool_decide_eq_true_2 by eauto.
  unfold try_catch, bind, fs_readFileSync, parse_cookies, console_log. rewrite Hfile.
  destruct (JSON_parse text) as [e|cookies]; cbn [throw ret].
  - exists (world s), [Console LLog "No cookies found. Logging in." None]. auto.
  - unfold act. destruct (perform (SetCookie cookies) (world s)) as [[e|] w']; cbn;
      exists w'; eexists [_; _]; unfold console, record, with_world; cbn;
      rewrite <- app_assoc; auto.
Qed.

(** X23. When the store file exists, [login] never runs the login
    form, whether the cookies in the file could be read and set or
    not: it returns normally, it has not navigated, typed or clicked,
    and the files are as they were. *)
Theorem login_existing_store_skips_form (s : State W) :
  is_Some (files s !! cookieFilePath cfg) →
  (login cfg s).1 = Ok ()
  ∧ files (login cfg s).2 = files s
  ∧ ∃ evs, trace (login cfg s).2 = trace s ++ evs
           ∧ occurrences is_goto evs = 0%nat ∧ occurrences is_input evs = 0%nat.
Proof.
  intros [text Hfile].
  destruct (login_with_store s text Hfile) as (w' & evs & -> & Hgoto & Hinput). cbn.
  split; [reflexivity|]. split; [reflexivity|]. exists evs. auto.
Qed.

Lemma retry_login_files (s : State W) :
  files (retry (login_form cfg) 3 (λ err, console LWarn login_warning (Some err)) s).2
  = files s.
Proof.
  apply (preserves_retry_attempt files); [apply framed_files| |].
  - intros s'. apply login_form_files.
  - intros e. apply preserves_console, framed_files.
Qed.

(** X25. The only file [login] ever writes is the cookie file of the
    configured user, and it writes it only when it returns normally:
    every other path keeps its content, and a [login] that throws
    leaves all files as they were. *)
Theorem login_writes_only_the_store (s : State W) :
  (∀ path, path ≠ cookieFilePath cfg → files (login cfg s).2 !! path = files s !! path)
  ∧ (∀ e, (login cfg s).1 = Throw e → files (login cfg s).2 = files s).
Proof.
  destruct (files s !! cookieFilePath cfg) as [text|] eqn:Hfile.
  - destruct (login_with_store s text Hfile) as (w' & evs & -> & _). cbn.
    split; [reflexivity|discriminate].
  - remember (login cfg s) as r eqn:Hr.
    rewrite login_without_store in Hr by assumption.
    unfold bind at 1 in Hr. pose proof (retry_login_files s) as Hretry.
    destruct (retry _ _ _ s) as [[[]|e] s1]; simpl in Hretry;
      [|subst r; cbn; rewrite Hretry; split; auto].
    unfold bind, console_log, console, page_cookies, bind, act in Hr.
    cbn [world record with_world] in Hr.
    destruct (perform GetCookies (world s1)) as [[e|] w4]; subst r; cbn.
    + rewrite Hretry. split; auto.
    + rewrite Hretry. split; [|discriminate].
      intros path Hpath. apply lookup_insert_ne. congruence.
Qed.

(** X24. Round trip through the store.  A [login] that starts without
    a store file and returns normally has written the cookies of its
    session to the file; and a later [login] that finds this file,
    given that the cookies survive being written and parsed and that
    the page takes them, sets exactly these cookies and returns
    without running the login form. *)
Theorem login_store_round_trip (s : State W) :
  files s !! cookieFilePath cfg = None →
  (login cfg s).1 = Ok () →
  let cookies := cookie_jar (world (login cfg s).2) in
  files (login cfg s).2 !! cookieFilePath cfg = Some (JSON_stringify cookies)
  ∧ ∀ t w',
      files t !! cookieFilePath cfg = Some (JSON_stringify cookies) →
      JSON_parse (JSON_stringify cookies) = inr cookies →
      perform (SetCookie cookies) (world t) = (None, w') →
      login cfg t
      = (Ok (), record (Console LLog ("Loaded cookies from " +:+ cookieFileName cfg) None)
                  (record (Act (SetCookie cookies)) (with_world w' t))).
Proof.
  intros Hnone Hok cookies. split.
  - subst cookies. remember (login cfg s) as r eqn:Hr.
    rewrite login_without_store in Hr by assumption.
    unfold bind at 1 in Hr.
    destruct (retry _ _ _ s) as [[[]|e] s1]; [|subst r; discriminate].
    unfold bind, console_log, console, page_cookies, bind, act in Hr.
    cbn [world record with_world] in Hr.
    destruct (perform GetCookies (world s1)) as [[e|] w4]; subst r; cbn in *;
      [discriminate|].
    apply lookup_insert_eq.
  - intros t w' Hfile Hparse Hset.
    apply (login_restores_store cfg t _ _ _ Hfile Hparse Hset).
Qed.

End Store.

Lemma login_existing_store_skips_form_witness :
  let s := Sim.start Sim.site {[ cookieFilePath Sim.config := "[]" ]} in
  (login Sim.config s).1 = Ok () ∧ files (login Sim.config s).2 = files s.
Proof.
  intros s.
  destruct (login_existing_store_skips_form Sim.config s) as (Hok & Hfiles & _).
  - exists "[]". vm_compute. reflexivity.
  - split; assumption.
Defined.

Lemma login_store_round_trip_witness :
  let s := Sim.start Sim.site ∅ in
  files (login Sim.config s).2 !! cookieFilePath Sim.config = Some Sim.session_text
  ∧ (login Sim.config (Sim.start Sim.site (files (login Sim.config s).2))).1 = Ok ()
  ∧ trace (login Sim.config (Sim.start Sim.site (files (login Sim.config s).2))).2
    = [ Act (SetCookie [Sim.session]);
        Console LLog "Loaded cookies from cookies-member42.json" None ].
Proof.
  intros s.
  assert (Hnone : files s !! cookieFilePath Sim.config = None) by (vm_compute; reflexivity).
  assert (Hok : (login Sim.config s).1 = Ok ()) by (vm_compute; reflexivity).
  destruct (login_store_round_trip Sim.config s Hnone Hok) as [Hfile Hagain].
  assert (Hjar : cookie_jar (world (login Sim.config s).2) = [Sim.session])
    by (vm_compute; reflexivity).
  rewrite Hjar in Hfile, Hagain. clear Hjar Hok Hnone.
  revert Hfile Hagain. generalize (files (login Sim.config s).2). intros store Hfile Hagain.
  split; [exact Hfile|].
  assert (Hparse : JSON_parse (JSON_stringify [Sim.session]) = inr [Sim.session])
    by (vm_compute; reflexivity).
  assert (Hset : perform (SetCookie [Sim.session]) Sim.site = (None, Sim.site))
    by (vm_compute; reflexivity).
  rewrite (Hagain (Sim.start Sim.site store) Sim.site Hfile Hparse Hset).
  split; reflexivity.
Defined.

Lemma login_writes_only_the_store_witness :
  let s := Sim.start (flaky 4) {[ "/opt/app-root/src/notes.txt" := "keep" ]} in
  (∃ e, (login Sim.config s).1 = Throw e)
  ∧ files (login Sim.config s).2 = files s
  ∧ files (login Sim.config (Sim.start Sim.site (files s))).2 !! "/opt/app-root/src/notes.txt"
    = Some "keep".
Proof.
  intros s.
  assert (Hthrown : ∃ e, (login Sim.config s).1 = Throw e)
    by (eexists; vm_compute; reflexivity).
  split; [exact Hthrown|]. destruct Hthrown as [e He]. split.
  - exact (proj2 (login_writes_only_the_store Sim.config s) e He).
  - rewrite (proj1 (login_writes_only_the_store Sim.config (Sim.start Sim.site (files s)))).
    + reflexivity.
    + vm_compute. discriminate.
Defined.

(** ** The open-courts lookup, further *)

Section Lookup.
Context {W : Type} `{Runtime W}.
Variable cfg : Config.
Local Open Scope script_scope.

(** The inner loop either gets through the row or stops at an open
    cell without a [div]; either way the state is as it was. *)
Lemma extract_cells_outcome (cells : list Cell) : ∀ i courtsData (s : State W),
  (∃ found, extract_cells i cells courtsData s = (Ok found, s))
  ∨ extract_cells i cells courtsData s = (Throw (no_element "div"), s).
Proof.
  induction cells as [|cell rest IH]; intros i courtsData s; simpl.
  - left. eexists. reflexivity.
  - destruct (is_open cell); [|apply IH].
    unfold bind, start_time. destruct (startTimeDiv cell) as [attribute|]; simpl.
    + apply IH.
    + right. reflexivity.
Qed.

Lemma extract_cells_without_div (cells : list Cell) : ∀ i courtsData (s : State W),
  Exists (λ c, is_open c = true ∧ startTimeDiv c = None) cells →
  extract_cells i cells courtsData s = (Throw (no_element "div"), s).
Proof.
  induction cells as [|cell rest IH]; intros i courtsData s Hex.
  - apply Exists_nil in Hex. contradiction.
  - apply Exists_cons in Hex. simpl. destruct (is_open cell) eqn:Hopen.
    + unfold bind, start_time. destruct (startTimeDiv cell) as [attribute|] eqn:Hdiv; simpl.
      * apply IH. destruct Hex as [[_ ?]|?]; [discriminate|assumption].
      * reflexivity.
    + apply IH. destruct Hex as [[? _]|?]; [congruence|assumption].
Qed.

Lemma extract_rows_without_div (rows : list (list Cell)) : ∀ courtsData (s : State W),
  open_cell_without_div rows →
  extract_rows rows courtsData s = (Throw (no_element "div"), s).
Proof.
  induction rows as [|cells rest IH]; intros courtsData s Hex.
  - apply Exists_nil in Hex. contradiction.
  - apply Exists_cons in Hex. simpl. unfold bind.
    destruct (extract_cells_outcome (drop 1 cells) 1 courtsData s) as [[found Hrow]|Hrow].
    + rewrite Hrow. apply IH. destruct Hex as [Hhere|?]; [|assumption].
      rewrite (extract_cells_without_div _ _ _ _ Hhere) in Hrow. discriminate.
    + rewrite Hrow. reflexivity.
Qed.

(** X28. The extraction is all or nothing.  One open cell without a
    [div], anywhere in the table past the first column, makes
    [extractOpenCourts] throw the error of the failed lookup, whatever
    the cells before it gave; the entries gathered so far are lost. *)
Theorem extractOpenCourts_open_cell_without_div (s : State W) (w' : W) :
  perform wait_for_slots (world s) = (None, w') →
  open_cell_without_div (slots_data (document w')) →
  extractOpenCourts s
  = (Throw (no_element "div"), record (Act wait_for_slots) (with_world w' s)).
Proof.
  intros Hwait Hex. unfold extractOpenCourts.
  rewrite act_then_resolves with (w' := w') by exact Hwait. cbv beta.
  rewrite document_then. apply extract_rows_without_div. exact Hex.
Qed.

(** X29. [findAndClickDate] takes the first link of the day in
    document order.  Once the wait for such a link is over, it calls
    the handler of the first anchor with a calendar-day span whose
    text includes the day name, prints that it clicked and returns
    true, or fails with the error of the handler; with no such anchor
    on the page it prints that it could not find a link and returns
    false, having called nothing. *)
Theorem findAndClickDate_first_link (dayOfWeek : string) (s : State W) (w' : W) :
  perform (wait_for_day dayOfWeek) (world s) = (None, w') →
  let s1 := record (Act (wait_for_day dayOfWeek)) (with_world w' s) in
  (∀ i, first_day_link dayOfWeek (anchors (document w')) i →
     findAndClickDate dayOfWeek s
     = match perform (Onclick (AnchorEl i)) w' with
       | (None, w'') =>
           (Ok true, record (Console LLog ("Clicked on " +:+ dayOfWeek) None)
                       (record (Act (Onclick (AnchorEl i))) (with_world w'' s1)))
       | (Some e, w'') => (Throw e, record (Act (Onclick (AnchorEl i))) (with_world w'' s1))
       end)
  ∧ (Forall (λ a, is_day_link dayOfWeek a = false) (anchors (document w')) →
     findAndClickDate dayOfWeek s
     = (Ok false, record (Console LLog ("Could not find a link for " +:+ dayOfWeek) None) s1)).
Proof.
  intros Hwait s1. split.
  - intros i Hfirst. apply head_positions_Some in Hfirst.
    unfold findAndClickDate.
    rewrite act_then_resolves with (w' := w') by exact Hwait. cbv beta.
    rewrite document_then. cbn [world record with_world]. rewrite Hfirst.
    unfold bind, act, console_log, console, ret. cbn [world record with_world].
    destruct (perform (Onclick (AnchorEl i)) w') as [[e|] w'']; reflexivity.
  - intros Hnone. apply head_positions_None in Hnone.
    unfold findAndClickDate.
    rewrite act_then_resolves with (w' := w') by exact Hwait. cbv beta.
    rewrite document_then. cbn [world record with_world]. rewrite Hnone.
    reflexivity.
Qed.

Lemma getOpenCourts_preserves {X} (f : State W → X) d :
  framed f → (∀ v s, f (set_openCourts v s).2 = f s) →
  preserves f (getOpenCourts cfg d : M W _).
Proof.
  intros Hf Hset. unfold getOpenCourts.
  apply preserves_bind; [intros s; apply Hset|intros _].
  apply preserves_bind; [|intros _; apply preserves_same; reflexivity].
  apply preserves_retry_attempt; [assumption| |intros e; apply preserves_console; assumption].
  unfold getOpenCourts_attempt, extractOpenCourts, delay, console_log.
  apply preserves_bind; [apply preserves_act; assumption|intros _].
  apply preserves_bind; [apply preserves_act; assumption|intros _].
  apply preserves_bind; [apply findAndClickDate_preserves; assumption|intros found].
  destruct (negb found).
  - apply preserves_bind; [apply preserves_console; assumption|intros _; apply preserves_ret].
  - apply preserves_bind; [apply preserves_pause; assumption|intros _].
    apply preserves_bind; [apply preserves_console; assumption|intros _].
    apply preserves_bind; [apply preserves_act; assumption|intros _].
    apply preserves_bind.
    + apply preserves_bind; [apply preserves_act; assumption|intros _].
      apply preserves_bind; [apply preserves_same; reflexivity|intros dom].
      apply preserves_same. intros s. apply extract_rows_same.
    + intros found'. apply preserves_bind; [intros s; apply Hset|intros _; apply preserves_ret].
Qed.

(** X26. What a call of [getOpenCourts] asks of the page, whatever the
    site does: at most four navigations and at most four calls of a
    day link's [onclick] handler, one of each for every attempt.  It
    types nothing and makes no click through puppeteer, begins no
    partner attachment and no confirmation, does not close the
    browser, and leaves the files and the response as they were. *)
Theorem getOpenCourts_footprint (dayOfWeek : string) (s : State W) :
  files (getOpenCourts cfg dayOfWeek s).2 = files s
  ∧ response (getOpenCourts cfg dayOfWeek s).2 = response s
  ∧ ∃ evs, trace (getOpenCourts cfg dayOfWeek s).2 = trace s ++ evs
           ∧ (occurrences is_goto evs ≤ 4)%nat
           ∧ (occurrences is_onclick evs ≤ 4)%nat
           ∧ occurrences is_press evs = 0%nat
           ∧ occurrences starts_partner_attachment evs = 0%nat
           ∧ occurrences starts_confirmation evs = 0%nat
           ∧ occurrences is_close evs = 0%nat.
Proof.
  split; [apply (getOpenCourts_preserves files); [apply framed_files|reflexivity]|].
  split; [apply (getOpenCourts_preserves response); [apply framed_response|reflexivity]|].
  destruct (getOpenCourts_appends cfg dayOfWeek s) as [evs Hevs]. exists evs.
  split; [assumption|].
  pose proof (grows_appended _ _ _ _ _ (getOpenCourts_marks cfg Navigation dayOfWeek) Hevs).
  pose proof (grows_appended _ _ _ _ _ (getOpenCourts_marks cfg HandlerCall dayOfWeek) Hevs).
  pose proof (grows_appended _ _ _ _ _ (getOpenCourts_marks cfg Press dayOfWeek) Hevs).
  pose proof (grows_appended _ _ _ _ _ (getOpenCourts_marks cfg PartnerStart dayOfWeek) Hevs).
  pose proof (grows_appended _ _ _ _ _ (getOpenCourts_marks cfg ConfirmStart dayOfWeek) Hevs).
  pose proof (grows_appended _ _ _ _ _ (getOpenCourts_marks cfg Teardown dayOfWeek) Hevs).
  simpl in *. repeat split; lia.
Qed.

Lemma getOpenCourts_attempt_grid (dayOfWeek : string) (s : State W) i w1 w2 w3 w4 w5 w6 :
  perform (Goto (WEBSITE_BOOKING_PAGE cfg)) (world s) = (None, w1) →
  perform wait_for_picker w1 = (None, w2) →
  perform (wait_for_day dayOfWeek) w2 = (None, w3) →
  head (positions (is_day_link dayOfWeek) (anchors (document w3))) = Some i →
  perform (Onclick (AnchorEl i)) w3 = (None, w4) →
  perform wait_for_slots (elapse (Millis 3000) w4) = (None, w5) →
  perform wait_for_slots w5 = (None, w6) →
  open_cells_have_div (slots_data (document w6)) →
  ∃ evs,
    getOpenCourts_attempt cfg dayOfWeek s
    = (Ok None,
       mkState w6 (files s) (Some (grid_entries (slots_data (document w6))))
         (trace s ++ evs) (response s))
    ∧ occurrences is_goto evs = 1%nat.
Proof.
  unfold wait_for_picker, wait_for_day, wait_for_slots.
  intros Hgoto Hpicker Hday Hlink Hclick Hslots Hslots' Hdiv.
  unfold getOpenCourts_attempt, findAndClickDate, extractOpenCourts, delay, console_log.
  revert Hslots. generalize 3000%nat. intros ms Hslots.
  unfold bind, act, pause, console, the_document, set_openCourts, ret.
  cbn [world record with_world]. rewrite Hgoto.
  cbn [world record with_world]. rewrite Hpicker.
  cbn [world record with_world]. rewrite Hday.
  cbn [world record with_world]. rewrite Hlink.
  cbn [world record with_world]. rewrite Hclick.
  cbn [world record with_world negb]. rewrite Hslots.
  cbn [world record with_world]. rewrite Hslots'.
  cbn [world record with_world]. rewrite extract_rows_entries by exact Hdiv.
  cbn [world record with_world files trace response g_openCourts app].
  rewrite <- !app_assoc. eexists. split; [reflexivity|]. reflexivity.
Qed.

(** X27. The list [getOpenCourts] returns.  When the booking page
    loads, the day picker is there, the first link of the day takes
    the call of its handler and the slot table comes up with a [div]
    in every open cell, the first attempt is the only one:
    [getOpenCourts] navigates once and returns the entries of the grid
    the page shows at the end. *)
Theorem getOpenCourts_returns_grid (dayOfWeek : string) (s : State W) i w1 w2 w3 w4 w5 w6 :
  perform (Goto (WEBSITE_BOOKING_PAGE cfg)) (world s) = (None, w1) →
  perform wait_for_picker w1 = (None, w2) →
  perform (wait_for_day dayOfWeek) w2 = (None, w3) →
  first_day_link dayOfWeek (anchors (document w3)) i →
  perform (Onclick (AnchorEl i)) w3 = (None, w4) →
  perform wait_for_slots (elapse (Millis 3000) w4) = (None, w5) →
  perform wait_for_slots w5 = (None, w6) →
  open_cells_have_div (slots_data (document w6)) →
  (getOpenCourts cfg dayOfWeek s).1 = Ok (Some (grid_entries (slots_data (document w6))))
  ∧ world (getOpenCourts cfg dayOfWeek s).2 = w6
  ∧ occurrences is_goto (trace (getOpenCourts cfg dayOfWeek s).2)
    = S (occurrences is_goto (trace s)).
Proof.
  intros Hgoto Hpicker Hday Hlink Hclick Hslots Hslots' Hdiv.
  apply head_positions_Some in Hlink.
  destruct (getOpenCourts_attempt_grid dayOfWeek (set_openCourts None s).2 i
              w1 w2 w3 w4 w5 w6 Hgoto Hpicker Hday Hlink Hclick Hslots Hslots' Hdiv)
    as (evs & Hattempt & Hone).
  assert (Hrun : getOpenCourts cfg dayOfWeek s
                 = (Ok (Some (grid_entries (slots_data (document w6)))),
                    mkState w6 (files s) (Some (grid_entries (slots_data (document w6))))
                      (trace s ++ evs) (response s))).
  { unfold getOpenCourts.
    rewrite (bind_ok (set_openCourts None) _ s () _ eq_refl).
    unfold retry.
    rewrite (bind_ok _ _ _ _ _ (retry_attempt_ok _ _ _ _ _ _ _ _ Hattempt)).
    reflexivity. }
  rewrite Hrun. cbn [fst snd world trace].
  split; [reflexivity|]. split; [reflexivity|].
  rewrite occurrences_app, Hone. lia.
Qed.

End Lookup.

Lemma extractOpenCourts_open_cell_without_div_witness :
  extractOpenCourts (Sim.start site_without_div ∅)
  = (Throw (no_element "div"),
     record (Act wait_for_slots) (with_world site_without_div (Sim.start site_without_div ∅))).
Proof.
  apply extractOpenCourts_open_cell_without_div.
  - vm_compute. reflexivity.
  - apply Exists_cons_tl, Exists_cons_hd, Exists_cons_tl, Exists_cons_hd.
    split; vm_compute; reflexivity.
Defined.

Lemma findAndClickDate_first_link_witness :
  findAndClickDate "Tuesday" (Sim.start Sim.site ∅)
  = (Ok true,
     mkState Sim.site ∅ None
       [ Act (wait_for_day "Tuesday"); Act (Onclick (AnchorEl 1));
         Console LLog "Clicked on Tuesday" None ] None)
  ∧ (findAndClickDate "Monday" (Sim.start (Sim.redraw vanishing_links) ∅)).1 = Ok false.
Proof.
  split.
  - assert (Hwait : perform (wait_for_day "Tuesday") (world (Sim.start Sim.site ∅))
                    = (None, Sim.site)) by (vm_compute; reflexivity).
    destruct (findAndClickDate_first_link "Tuesday" (Sim.start Sim.site ∅) Sim.site Hwait)
      as [Hfirst _].
    rewrite (Hfirst 1%nat); [reflexivity|]. split.
    + eexists. split; [reflexivity|vm_compute; reflexivity].
    + intros j a Hj Ha. destruct j as [|j]; [|lia].
      injection Ha as <-. vm_compute. reflexivity.
  - assert (Hwait : perform (wait_for_day "Monday")
                      (world (Sim.start (Sim.redraw vanishing_links) ∅))
                    = (None, Sim.show page_without_links None vanishing_links))
      by (vm_compute; reflexivity).
    destruct (findAndClickDate_first_link "Monday" _ _ Hwait) as [_ Hnone].
    rewrite Hnone; [reflexivity|]. constructor.
Defined.

Lemma getOpenCourts_returns_grid_witness :
  (getOpenCourts Sim.config "Monday" (Sim.start Sim.site ∅)).1
  = Ok (Some [mkEntry 1 "9:00 AM"; mkEntry 2 "10:00 AM"]).
Proof.
  assert (Hdiv : open_cells_have_div (slots_data (document Sim.site))).
  { unfold open_cells_have_div. apply (bool_decide_unpack _). vm_compute. exact I. }
  assert (Hlink : first_day_link "Monday" (anchors (document Sim.site)) 0).
  { split; [eexists; split; [reflexivity|vm_compute; reflexivity]|intros; lia]. }
  assert (Hgoto : perform (Goto (WEBSITE_BOOKING_PAGE Sim.config))
                    (world (Sim.start Sim.site ∅)) = (None, Sim.site)) by reflexivity.
  assert (Hpicker : perform wait_for_picker Sim.site = (None, Sim.site))
    by (vm_compute; reflexivity).
  assert (Hday : perform (wait_for_day "Monday") Sim.site = (None, Sim.site))
    by (vm_compute; reflexivity).
  assert (Hclick : perform (Onclick (AnchorEl 0)) Sim.site = (None, Sim.site)) by reflexivity.
  assert (Hslots : perform wait_for_slots Sim.site = (None, Sim.site))
    by (vm_compute; reflexivity).
  destruct (getOpenCourts_returns_grid Sim.config "Monday" (Sim.start Sim.site ∅) 0
              Sim.site Sim.site Sim.site Sim.site Sim.site Sim.site
              Hgoto Hpicker Hday Hlink Hclick Hslots Hslots Hdiv)
    as (Hfound & _).
  rewrite Hfound. reflexivity.
Defined.

Lemma getOpenCourts_footprint_witness :
  let run := getOpenCourts Sim.config "Monday" (Sim.start (flaky 2) ∅) in
  occurrences is_press (trace run.2) = 0%nat
  ∧ occurrences is_goto (trace run.2) = 3%nat
  ∧ occurrences is_onclick (trace run.2) = 1%nat.
Proof.
  intros run.
  destruct (getOpenCourts_footprint Sim.config "Monday" (Sim.start (flaky 2) ∅))
    as (_ & _ & evs & Hevs & _ & _ & Hpress & _).
  split.
  - unfold run. rewrite Hevs. exact Hpress.
  - split; vm_compute; reflexivity.
Defined.

(** C6 as stated fails: the grid of [site_without_div] has two open
    cells, the second without a [div].  In the specification's words it
    has two entries, the second with an empty time; [extractOpenCourts],
    with the table there, returns neither and throws. *)
Lemma extractOpenCourts_no_entries_without_div :
  perform (WaitForSelector slots_data_selector None) (world (Sim.start site_without_div ∅))
  = (None, site_without_div)
  ∧ grid_entries (slots_data (document site_without_div))
    = [mkEntry 1 "9:00 AM"; mkEntry 2 ""]
  ∧ (extractOpenCourts (Sim.start site_without_div ∅)).1 = Throw (no_element "div")
  ∧ extractOpenCourts (Sim.start site_without_div ∅)
    ≠ (Ok (grid_entries (slots_data (document site_without_div))),
       record (Act (WaitForSelector slots_data_selector None))
         (with_world site_without_div (Sim.start site_without_div ∅))).
Proof.
  assert (Hthrown : (extractOpenCourts (Sim.start site_without_div ∅)).1
                    = Throw (no_element "div")) by (vm_compute; reflexivity).
  split; [vm_compute; reflexivity|]. split; [vm_compute; reflexivity|].
  split; [exact Hthrown|].
  intros Hrun. rewrite Hrun in Hthrown. discriminate.
Qed.
